(** * rail_gui.cpp: the rail construction user interface

    A shallow embedding of the command packing, the command callbacks, the
    toolbar and picker windows and the autodirection terraform heuristic of
    [src/rail_gui.cpp], with the properties proved about them.

    The host game (command engine, map, widget framework, sound) is not part
    of the file.  Its constants are the fields of [Headers], its functions the
    fields of [Engine]; every call into it that has an effect is recorded in a
    trace of [Event]s, so that "plays no sound" or "submits this command" are
    statements about the trace. *)

From Stdlib Require Import ZArith List Bool Lia String.
From stdpp Require Import base decidable list gmap sets.
Import ListNotations.

#[local] Open Scope Z_scope.
#[local] Set Warnings "-clear-no-such-hyp".

(** ** Basic types *)

Definition TileIndex := Z.
Definition StringID := Z.
Definition uint32 (z : Z) : Z := z mod 2 ^ 32.
Definition uint8 (z : Z) : Z := z mod 2 ^ 8.

(** [CommandCost]: only what the file looks at, [Succeeded()]/[Failed()] and
    [GetErrorMessage()]. *)
Record CommandCost := {
  Succeeded : bool;
  GetErrorMessage : StringID;
}.
Definition Failed (r : CommandCost) : bool := negb (Succeeded r).

(** The command callbacks a command record can point to. *)
Inductive CommandCallback :=
| cb_nullptr
| cb_CcPlaySound_CONSTRUCTION_RAIL
| cb_CcRailDepot
| cb_CcStation
| cb_CcBuildRailTunnel
| cb_CcTerraform.

Record CommandContainer := {
  tile : TileIndex;
  p1 : Z;
  p2 : Z;
  cmd : Z;
  callback : CommandCallback;
  text : string;
}.

(** The track directions the polyline tool can have.  The twelve named in
    [HandleAutodirTerraform] are constructors of their own; [TRACKDIR_other]
    stands for every value the switch does not name (the reversing
    directions, INVALID_TRACKDIR, ...). *)
Inductive Trackdir :=
| TRACKDIR_X_NE | TRACKDIR_X_SW | TRACKDIR_Y_SE | TRACKDIR_Y_NW
| TRACKDIR_LEFT_N | TRACKDIR_RIGHT_N | TRACKDIR_LEFT_S | TRACKDIR_RIGHT_S
| TRACKDIR_UPPER_E | TRACKDIR_LOWER_E | TRACKDIR_UPPER_W | TRACKDIR_LOWER_W
| TRACKDIR_other (raw : Z).

(** The capture list of the [rail_callback] lambda of [DoAutodirTerraform]. *)
Record RailCallback := {
  rc_rail_cmd : CommandContainer;
  rc_start_tile : TileIndex;
  rc_end_tile : TileIndex;
  rc_track : Z;
  rc_estimate : bool;
}.

(** ** Calls into the host, as trace events *)

Inductive Event :=
| EvSndPlayTileFx (snd : Z) (t : TileIndex)
| EvSndPlayFx (snd : Z)
| EvResetObjectToPlace
| EvStoreRailPlacementEndpoints (start_tile end_tile : TileIndex) (track : Z) (bidirectional : bool)
| EvSetRedErrorSquare (t : TileIndex)
| EvDoCommand (t : TileIndex) (p1 p2 flags cmd : Z)
| EvDoCommandP (c : CommandContainer)
| EvDoCommandWithCallback (c : CommandContainer) (k : RailCallback)
| EvCloseWindowById (cls number : Z)
| EvCloseWindowByClass (cls : Z)
| EvSetWidgetDirty (widget : Z)
| EvSetDirty
| EvSetFocusedWidget (widget : Z)
| EvSetFocusedWindow
| EvSetWindowDirty (cls number : Z)
| EvSetSelectionRed (b : bool)
| EvSetTileSelectSize (w h : Z)
| EvVpSetPlaceSizingLimit (limit : Z)
| EvSetViewportCatchmentStation
| EvAbortStationPlacement
| EvResetActiveBlueprint
| EvRotateAutodetection.

(** ** Constants of the headers

    None of the enumerators below is declared in rail_gui.cpp.  They are
    parameters; the few facts the code relies on are stated with them. *)

Class Headers := {
  (* command_type.h *)
  CMD_BUILD_SINGLE_RAIL : Z;
  CMD_REMOVE_SINGLE_RAIL : Z;
  CMD_BUILD_RAILROAD_TRACK : Z;
  CMD_REMOVE_RAILROAD_TRACK : Z;
  CMD_BUILD_SIGNALS : Z;
  CMD_REMOVE_SIGNALS : Z;
  CMD_LEVEL_LAND : Z;
  CMD_MSG : StringID -> Z;
  DC_AUTO : Z;
  DC_NO_WATER : Z;
  (* strings *)
  STR_ERROR_CAN_T_BUILD_RAILROAD_TRACK : StringID;
  STR_ERROR_CAN_T_REMOVE_RAILROAD_TRACK : StringID;
  STR_ERROR_CAN_T_REMOVE_SIGNALS_FROM : StringID;
  STR_ERROR_SIGNAL_CAN_T_CONVERT_SIGNALS_HERE : StringID;
  STR_ERROR_CAN_T_BUILD_SIGNALS_HERE : StringID;
  STR_ERROR_ALREADY_BUILT : StringID;
  (* sounds *)
  SND_20_CONSTRUCTION_RAIL : Z;
  SND_15_BEEP : Z;
  (* map *)
  INVALID_TILE : TileIndex;
  MP_RAILWAY : Z;
  RAIL_TILE_DEPOT : Z;
  RAIL_TILE_SIGNALS : Z;
  LM_LEVEL : Z;
  LM_RAISE : Z;
  (* track_type.h *)
  TRACK_X : Z;
  TRACK_Y : Z;
  TRACK_UPPER : Z;
  TRACK_LOWER : Z;
  TRACK_LEFT : Z;
  TRACK_RIGHT : Z;
  TRACK_BIT_UPPER : Z;
  TRACK_BIT_LOWER : Z;
  TRACK_BIT_LEFT : Z;
  TRACK_BIT_RIGHT : Z;
  (* direction_type.h *)
  DIAGDIR_NE : Z;
  DIAGDIR_SE : Z;
  DIAGDIR_SW : Z;
  DIAGDIR_NW : Z;
  DIAGDIR_END : Z;
  DIAGDIRDIFF_90RIGHT : Z;
  (* signal_type.h, settings *)
  SIG_ELECTRIC : Z;
  SIG_SEMAPHORE : Z;
  SIGTYPE_NORMAL : Z;
  SIGTYPE_PBS : Z;
  SIGTYPE_PBS_ONEWAY : Z;
  SIGTYPE_LAST : Z;
  SIGNAL_CYCLE_ALL : Z;
  SIGNAL_GUI_ALL : Z;
  STAT_CLASS_DFLT : Z;
  (* window classes *)
  WC_SELECT_STATION : Z;
  WC_BUILD_SIGNAL : Z;
  WC_BUILD_STATION : Z;
  WC_BUILD_DEPOT : Z;
  WC_BUILD_WAYPOINT : Z;
  WC_BUILD_BRIDGE : Z;
  WC_BUILD_TOOLBAR : Z;
  WC_GAME_OPTIONS : Z;
  WN_GAME_OPTIONS_GAME_SETTINGS : Z;
  TRANSPORT_RAIL : Z;
  (* widgets/rail_widget.h *)
  WID_RAT_REMOVE : Z;
  WID_RAT_BUILD_STATION : Z;
  WID_BRAS_FILTER_EDITBOX : Z;
  WID_BRAS_PLATFORM_DIR_X : Z;
  WID_BRAS_PLATFORM_DIR_Y : Z;
  WID_BRAD_DEPOT_NE : Z;
  WID_BRAD_DEPOT_SE : Z;
  WID_BRAD_DEPOT_SW : Z;
  WID_BRAD_DEPOT_NW : Z;
  WID_BRAD_DEPOT_AUTO : Z;
  WID_BS_SEMAPHORE_NORM : Z;
  WID_BS_SEMAPHORE_ENTRY : Z;
  WID_BS_SEMAPHORE_EXIT : Z;
  WID_BS_SEMAPHORE_COMBO : Z;
  WID_BS_SEMAPHORE_PBS : Z;
  WID_BS_SEMAPHORE_PBS_OWAY : Z;
  WID_BS_ELECTRIC_NORM : Z;
  WID_BS_ELECTRIC_ENTRY : Z;
  WID_BS_ELECTRIC_EXIT : Z;
  WID_BS_ELECTRIC_COMBO : Z;
  WID_BS_ELECTRIC_PBS : Z;
  WID_BS_ELECTRIC_PBS_OWAY : Z;
  WID_BS_CONVERT : Z;
  WID_BS_DRAG_SIGNALS_DENSITY_DECREASE : Z;
  WID_BS_DRAG_SIGNALS_DENSITY_INCREASE : Z;

  (** The left and right track pieces share no bit with the upper and lower
      ones, and each of the four is some bit. *)
  track_bits_vert_horz :
    Z.land (Z.lor TRACK_BIT_LEFT TRACK_BIT_RIGHT) (Z.lor TRACK_BIT_UPPER TRACK_BIT_LOWER) = 0;
  track_bits_nonzero :
    TRACK_BIT_UPPER <> 0 /\ TRACK_BIT_LOWER <> 0 /\ TRACK_BIT_LEFT <> 0 /\ TRACK_BIT_RIGHT <> 0;
  (** The diagonal directions are numbered 0..3 in the order NE, SE, SW, NW,
      as "directions 0..3" of the tables of [CcRailDepot] has it. *)
  diagdir_values :
    DIAGDIR_NE = 0 /\ DIAGDIR_SE = 1 /\ DIAGDIR_SW = 2 /\ DIAGDIR_NW = 3 /\ DIAGDIR_END = 4;
  (** The picker widgets are consecutive enumerators, which is what
      [widget - WID_BRAS_PLATFORM_DIR_X] and [widget - WID_BRAD_DEPOT_NE]
      rely on; widget numbers fit in 16 bits. *)
  station_dir_widgets :
    0 <= WID_BRAS_PLATFORM_DIR_X /\ WID_BRAS_PLATFORM_DIR_Y = WID_BRAS_PLATFORM_DIR_X + 1 /\
    WID_BRAS_PLATFORM_DIR_Y < 2 ^ 16;
  depot_dir_widgets :
    WID_BRAD_DEPOT_SE = WID_BRAD_DEPOT_NE + 1 /\ WID_BRAD_DEPOT_SW = WID_BRAD_DEPOT_NE + 2 /\
    WID_BRAD_DEPOT_NW = WID_BRAD_DEPOT_NE + 3 /\ WID_BRAD_DEPOT_AUTO = WID_BRAD_DEPOT_NE + 4;
}.

Definition TRACK_BIT_HORZ `{Headers} : Z := Z.lor TRACK_BIT_UPPER TRACK_BIT_LOWER.
Definition TRACK_BIT_VERT `{Headers} : Z := Z.lor TRACK_BIT_LEFT TRACK_BIT_RIGHT.
(** [Axis]: the file tests [_railstation.orientation] against 0 and against
    AXIS_X to the same end, and the other axis is the next enumerator. *)
Definition AXIS_X : Z := 0.
Definition AXIS_Y : Z := 1.

(** ** The host engine

    [W] is whatever the host keeps (the map, the date, the modifier keys, the
    tile highlight).  Observers read it; the three ways of issuing a command
    answer and move it on.  The two inline helpers of direction_func.h come
    with the only fact used about them: they stay inside their enumeration. *)

Class Engine `{Headers} := {
  W : Type;
  (* map_func.h, tile_map.h, rail_map.h *)
  TileX : TileIndex -> Z;
  TileY : TileIndex -> Z;
  TILE_ADDXY : TileIndex -> Z -> Z -> TileIndex;
  TileOffsByDiagDir : Z -> Z;
  TileHeight : W -> TileIndex -> Z;
  IsTileType : W -> TileIndex -> Z -> bool;
  GetRailTileType : W -> TileIndex -> Z;
  GetTrackBits : W -> TileIndex -> Z;
  (* TrackStatusToTrackBits(GetTileTrackStatus(tile, TRANSPORT_RAIL, 0)) *)
  GetTileTrackBits : W -> TileIndex -> Z;
  DiagdirReachesTracks : Z -> Z;
  FindFirstTrack : Z -> Z;
  (* core/bitmath_func.hpp: GB(x, s, n) and SB(x, s, n, d) *)
  GB : Z -> Z -> Z -> Z;
  SB : Z -> Z -> Z -> Z -> Z;
  ChangeDiagDir : Z -> Z -> Z;
  OtherAxis : Z -> Z;
  (* globals owned by the host *)
  _cur_year : W -> Z;
  _tile_fract_coords : W -> Z * Z;
  _rail_track_endtile : W -> TileIndex;
  _build_tunnel_endtile : W -> TileIndex;
  _thd_cm_poly_dir : W -> Trackdir;
  _fn_mod : W -> bool;
  _estimate_mod : W -> bool;
  signal_window_open : W -> bool;
  (* command_func.h, citymania/cm_commands.hpp *)
  engine_DoCommand : W -> TileIndex -> Z -> Z -> Z -> Z -> CommandCost * W;
  engine_DoCommandP : W -> CommandContainer -> bool * W;
  engine_DoCommandWithCallback : W -> CommandContainer -> RailCallback -> bool * W;

  ChangeDiagDir_range :
    forall d, 0 <= d < DIAGDIR_END -> 0 <= ChangeDiagDir d DIAGDIRDIFF_90RIGHT < DIAGDIR_END;
  OtherAxis_range :
    forall a, AXIS_X <= a <= AXIS_Y -> AXIS_X <= OtherAxis a <= AXIS_Y;
  (** Taking the low 16 bits of a number that fits in them. *)
  GB_low16 : forall x, 0 <= x < 2 ^ 16 -> GB x 0 16 = x;
}.

(** ** State of the file *)

(** [struct RailStationGUISettings]. *)
Record RailStationGUISettings := {
  orientation : Z;
  newstations : bool;
  station_class : Z;
  station_type : Z;
  station_count : Z;
}.

(** The file-level variables. *)
Record Statics := {
  _cur_railtype : Z;
  _remove_button_clicked : bool;
  _cm_invert_remove : bool;
  _build_depot_direction : Z;
  _convert_signal_button : bool;
  _cur_signal_variant : Z;
  _cur_signal_type : Z;
  _railstation : RailStationGUISettings;
}.

(** The members of [_settings_client] and [_settings_game] the file uses. *)
Record Settings := {
  sound_confirm : bool;
  sound_click_beep : bool;
  gui_auto_remove_signals : bool;
  gui_persistent_buildingtools : bool;
  gui_station_dragdrop : bool;
  gui_station_numtracks : Z;
  gui_station_platlength : Z;
  gui_drag_signals_density : Z;
  gui_cycle_signal_types : Z;
  gui_signal_gui_mode : Z;
  gui_semaphore_build_before : Z;
  station_station_spread : Z;
}.

(** Modelled from the spec: the widget framework (window_gui.h) is not part
    of the file.  The toolbar state machine of the spec speaks of buttons that
    are lowered or raised, the file also of buttons that are disabled; a
    window is the set of its lowered widgets and the set of its disabled
    ones, and the methods the file calls add to and take from the two sets. *)
Record Window := {
  lowered : gset Z;
  disabled : gset Z;
}.

Definition IsWidgetLowered (w : Window) (i : Z) : bool := bool_decide (i ∈ lowered w).
Definition IsWidgetDisabled (w : Window) (i : Z) : bool := bool_decide (i ∈ disabled w).
Definition LowerWidget (w : Window) (i : Z) : Window :=
  {| lowered := {[i]} ∪ lowered w; disabled := disabled w |}.
Definition RaiseWidget (w : Window) (i : Z) : Window :=
  {| lowered := lowered w ∖ {[i]}; disabled := disabled w |}.
Definition SetWidgetLoweredState (w : Window) (i : Z) (b : bool) : Window :=
  if b then LowerWidget w i else RaiseWidget w i.
Definition ToggleWidgetLoweredState (w : Window) (i : Z) : Window :=
  SetWidgetLoweredState w i (negb (IsWidgetLowered w i)).
Definition DisableWidget (w : Window) (i : Z) : Window :=
  {| lowered := lowered w; disabled := {[i]} ∪ disabled w |}.

(** Modelled from the spec: [Window::RaiseButtons] of the widget framework
    (window.cpp) is not part of the file.  The spec's toolbar state machine
    has one terminal state, "no tool active (all buttons raised)"; raising the
    buttons leaves no widget of the window lowered and does not touch which
    are disabled. *)
Definition RaiseButtons (w : Window) : Window :=
  {| lowered := ∅; disabled := disabled w |}.

Section Program.
Context {Hdr : Headers} {Eng : Engine}.

Record State := {
  world : W;
  statics : Statics;
  settings : Settings;
  (* the window FindWindowById(WC_BUILD_TOOLBAR, TRANSPORT_RAIL) finds *)
  toolbar : option Window;
  trace : list Event;
}.

(** *** A state monad with faults

    A computation either ends in a value and a state, or stops. *)

Inductive Fault :=
| OutOfBounds   (* a table read past its end *)
| NotReached    (* NOT_REACHED() *)
| NotModelled.  (* a case of a handler this development leaves out *)

Inductive Result (A : Type) :=
| Ok (a : A) (s : State)
| Stop (f : Fault).
Arguments Ok {A} a s.
Arguments Stop {A} f.

Definition M (A : Type) := State -> Result A.

Definition ret {A} (a : A) : M A := fun s => Ok a s.
Definition bind {A B} (m : M A) (k : A -> M B) : M B :=
  fun s => match m s with Ok a s' => k a s' | Stop f => Stop f end.
Definition fault {A} (f : Fault) : M A := fun _ => Stop f.

Notation "x <- m ;; k" := (bind m (fun x => k))
  (at level 100, m at next level, right associativity).
Notation "m ;;; k" := (bind m (fun _ => k))
  (at level 100, right associativity).

Definition gets {A} (f : State -> A) : M A := fun s => Ok (f s) s.
Definition modify (f : State -> State) : M unit := fun s => Ok tt (f s).
Definition when (b : bool) (m : M unit) : M unit := if b then m else ret tt.

Definition set_world (w : W) (s : State) : State :=
  {| world := w; statics := statics s; settings := settings s;
     toolbar := toolbar s; trace := trace s |}.
Definition set_statics (x : Statics) (s : State) : State :=
  {| world := world s; statics := x; settings := settings s;
     toolbar := toolbar s; trace := trace s |}.
Definition set_settings (x : Settings) (s : State) : State :=
  {| world := world s; statics := statics s; settings := x;
     toolbar := toolbar s; trace := trace s |}.
Definition set_toolbar (x : option Window) (s : State) : State :=
  {| world := world s; statics := statics s; settings := settings s;
     toolbar := x; trace := trace s |}.
Definition log (e : Event) (s : State) : State :=
  {| world := world s; statics := statics s; settings := settings s;
     toolbar := toolbar s; trace := trace s ++ [e] |}.

Definition emit (e : Event) : M unit := modify (log e).

(** Reading a C array: past the end is a fault. *)
Definition index {A} (table : list A) (i : Z) : M A :=
  if i <? 0 then fault OutOfBounds
  else match table !! Z.to_nat i with
       | Some x => ret x
       | None => fault OutOfBounds
       end.

(** *** The three ways of issuing a command *)

(** [DoCommand(tile, p1, p2, flags, cmd)]: a test run, no callback. *)
Definition DoCommand (t : TileIndex) (a b flags c : Z) : M CommandCost :=
  fun s =>
    let '(r, w') := engine_DoCommand (world s) t a b flags c in
    Ok r (set_world w' (log (EvDoCommand t a b flags c) s)).

(** [DoCommandP]: submits the command for execution.  When the host calls
    the callback of the record, that is a run of the callback's own
    definition below, not a part of this call. *)
Definition DoCommandP (c : CommandContainer) : M bool :=
  fun s =>
    let '(r, w') := engine_DoCommandP (world s) c in
    Ok r (set_world w' (log (EvDoCommandP c) s)).

(** [citymania::DoCommandWithCallback]: submits the command and hands the
    host a continuation to call when it completes. *)
Definition DoCommandWithCallback (c : CommandContainer) (k : RailCallback) : M bool :=
  fun s =>
    let '(r, w') := engine_DoCommandWithCallback (world s) c k in
    Ok r (set_world w' (log (EvDoCommandWithCallback c k) s)).

Definition mkcmd (t : TileIndex) (a b c : Z) (cb : CommandCallback) : CommandContainer :=
  {| tile := t; p1 := a; p2 := b; cmd := c; callback := cb; text := EmptyString |}.

(** ** Command callbacks *)

Definition CcPlaySound_CONSTRUCTION_RAIL (result : CommandCost) (t : TileIndex) (a b c : Z) : M unit :=
  sc <- gets (fun s => sound_confirm (settings s));;
  when (Succeeded result && sc) (emit (EvSndPlayTileFx SND_20_CONSTRUCTION_RAIL t)).

(** [static CommandContainer GenericPlaceRailCmd(TileIndex tile, uint32 cmd)] *)
Definition GenericPlaceRailCmd (s : State) (t : TileIndex) (c : Z) : CommandContainer :=
  {| tile := t;
     p1 := _cur_railtype (statics s);
     p2 := Z.lor c (uint32 (Z.shiftl (uint32 (Z.b2z (gui_auto_remove_signals (settings s)))) 3));
     cmd := if _remove_button_clicked (statics s)
            then Z.lor CMD_REMOVE_SINGLE_RAIL (CMD_MSG STR_ERROR_CAN_T_REMOVE_RAILROAD_TRACK)
            else Z.lor CMD_BUILD_SINGLE_RAIL (CMD_MSG STR_ERROR_CAN_T_BUILD_RAILROAD_TRACK);
     callback := cb_CcPlaySound_CONSTRUCTION_RAIL;
     text := EmptyString |}.

Definition PlaceExtraDepotRail (t : TileIndex) (dir track : Z) : M unit :=
  w <- gets world;;
  ars <- gets (fun s => gui_auto_remove_signals (settings s));;
  rt <- gets (fun s => _cur_railtype (statics s));;
  if GetRailTileType w t =? RAIL_TILE_DEPOT then ret tt
  else if (GetRailTileType w t =? RAIL_TILE_SIGNALS) && negb ars then ret tt
  else if Z.land (GetTrackBits w t) (DiagdirReachesTracks dir) =? 0 then ret tt
  else
    DoCommandP (mkcmd t rt (uint32 (Z.lor track (Z.shiftl (Z.b2z ars) 3))) CMD_BUILD_SINGLE_RAIL cb_nullptr);;;
    ret tt.

(** Additional pieces of track to add at the entrance of a depot. *)
Definition _place_depot_extra_track : list Z := [
  TRACK_LEFT;  TRACK_UPPER; TRACK_UPPER; TRACK_RIGHT;
  TRACK_X;     TRACK_Y;     TRACK_X;     TRACK_Y;
  TRACK_LOWER; TRACK_LEFT;  TRACK_RIGHT; TRACK_LOWER
].

(** Direction to check for existing track pieces. *)
Definition _place_depot_extra_dir : list Z := [
  DIAGDIR_SE; DIAGDIR_SW; DIAGDIR_SE; DIAGDIR_SW;
  DIAGDIR_SW; DIAGDIR_NW; DIAGDIR_NE; DIAGDIR_SE;
  DIAGDIR_NW; DIAGDIR_NE; DIAGDIR_NW; DIAGDIR_NE
].

Definition CcRailDepot (result : CommandCost) (t : TileIndex) (a b c : Z) : M unit :=
  if Failed result then ret tt
  else
    let dir := b in (* (DiagDirection)p2 *)
    sc <- gets (fun s => sound_confirm (settings s));;
    when sc (emit (EvSndPlayTileFx SND_20_CONSTRUCTION_RAIL t));;;
    pb <- gets (fun s => gui_persistent_buildingtools (settings s));;
    when (negb pb) (emit EvResetObjectToPlace);;;
    let t := uint32 (t + TileOffsByDiagDir dir) in
    w <- gets world;;
    if IsTileType w t MP_RAILWAY then
      d0 <- index _place_depot_extra_dir dir;;
      t0 <- index _place_depot_extra_track dir;;
      PlaceExtraDepotRail t d0 t0;;;
      d1 <- index _place_depot_extra_dir (dir + 4);;
      t1 <- index _place_depot_extra_track (dir + 4);;
      PlaceExtraDepotRail t d1 t1;;;
      d2 <- index _place_depot_extra_dir (dir + 8);;
      t2 <- index _place_depot_extra_track (dir + 8);;
      PlaceExtraDepotRail t d2 t2
    else ret tt.

Definition CcStation (result : CommandCost) (t : TileIndex) (a b c : Z) : M unit :=
  if Failed result then ret tt
  else
    sc <- gets (fun s => sound_confirm (settings s));;
    when sc (emit (EvSndPlayTileFx SND_20_CONSTRUCTION_RAIL t));;;
    rs <- gets (fun s => _railstation (statics s));;
    pb <- gets (fun s => gui_persistent_buildingtools (settings s));;
    when ((station_class rs =? STAT_CLASS_DFLT) && (station_type rs =? 0) && negb pb)
         (emit EvResetObjectToPlace).

(** Command callback for building a tunnel *)
Definition CcBuildRailTunnel (result : CommandCost) (t : TileIndex) (a b c : Z) : M unit :=
  w <- gets world;;
  if Succeeded result then
    sc <- gets (fun s => sound_confirm (settings s));;
    when sc (emit (EvSndPlayTileFx SND_20_CONSTRUCTION_RAIL t));;;
    pb <- gets (fun s => gui_persistent_buildingtools (settings s));;
    when (negb pb) (emit EvResetObjectToPlace);;;
    emit (EvStoreRailPlacementEndpoints t (_build_tunnel_endtile w)
            (if TileX t =? TileX (_build_tunnel_endtile w) then TRACK_Y else TRACK_X) false)
  else
    emit (EvSetRedErrorSquare (_build_tunnel_endtile w)).

(** The callback a command record points to, as the host would call it. *)
Definition run_callback (cb : CommandCallback) (result : CommandCost) (t : TileIndex) (a b c : Z) : option (M unit) :=
  match cb with
  | cb_CcPlaySound_CONSTRUCTION_RAIL => Some (CcPlaySound_CONSTRUCTION_RAIL result t a b c)
  | cb_CcRailDepot => Some (CcRailDepot result t a b c)
  | cb_CcStation => Some (CcStation result t a b c)
  | cb_CcBuildRailTunnel => Some (CcBuildRailTunnel result t a b c)
  | cb_CcTerraform | cb_nullptr => None
  end.

(** ** Signals *)

(** Build a new signal or edit/remove a present signal: [GenericPlaceSignals].
    [chosen_trackbits] is the value of its local [trackbits] when
    [FindFirstTrack] is called, from what the tile carries and the
    [_tile_fract_coords]. *)
Definition chosen_trackbits (trackbits x y : Z) : Z :=
  let trackbits :=
    if negb (Z.land trackbits TRACK_BIT_VERT =? 0) (* N-S direction *)
    then (if x <=? y then TRACK_BIT_RIGHT else TRACK_BIT_LEFT)
    else trackbits in
  let trackbits :=
    if negb (Z.land trackbits TRACK_BIT_HORZ =? 0) (* E-W direction *)
    then (if x + y <=? 15 then TRACK_BIT_UPPER else TRACK_BIT_LOWER)
    else trackbits in
  trackbits.

(** The rest of [GenericPlaceSignals], from the line after
    [Track track = FindFirstTrack(trackbits)] on. *)
Definition GenericPlaceSignals_track (t : TileIndex) (track : Z) : M unit :=
  w <- gets world;;
  st <- gets statics;;
  se <- gets settings;;
  if _remove_button_clicked st then
    DoCommandP (mkcmd t track 0 (Z.lor CMD_REMOVE_SIGNALS (CMD_MSG STR_ERROR_CAN_T_REMOVE_SIGNALS_FROM))
                  cb_CcPlaySound_CONSTRUCTION_RAIL);;;
    ret tt
  else
    let gui := signal_window_open w in (* w != nullptr *)
    let p1 := track in
    let cycle_types :=
      if (gui_cycle_signal_types se =? SIGNAL_CYCLE_ALL) && (gui_signal_gui_mode se =? SIGNAL_GUI_ALL)
      then uint8 (Z.lor SIGTYPE_NORMAL (Z.shiftl SIGTYPE_LAST 3))
      else uint8 (Z.lor SIGTYPE_PBS (Z.shiftl SIGTYPE_LAST 3)) in
    let p1 :=
      if gui then
        let p1 := SB p1 3 1 (Z.b2z (_fn_mod w)) in
        let p1 := SB p1 4 1 (_cur_signal_variant st) in
        let p1 := SB p1 5 3 (_cur_signal_type st) in
        let p1 := SB p1 8 1 (Z.b2z (_convert_signal_button st)) in
        SB p1 9 6 cycle_types
      else
        let p1 := SB p1 3 1 (Z.b2z (_fn_mod w)) in
        let p1 := SB p1 4 1 (if _cur_year w <? gui_semaphore_build_before se then SIG_SEMAPHORE else SIG_ELECTRIC) in
        let p1 := SB p1 5 3 SIGTYPE_PBS_ONEWAY in
        let p1 := SB p1 8 1 0 in
        SB p1 9 6 cycle_types in
    DoCommandP (mkcmd t p1 0
                  (Z.lor CMD_BUILD_SIGNALS
                     (CMD_MSG (if gui && _convert_signal_button st
                               then STR_ERROR_SIGNAL_CAN_T_CONVERT_SIGNALS_HERE
                               else STR_ERROR_CAN_T_BUILD_SIGNALS_HERE)))
                  cb_CcPlaySound_CONSTRUCTION_RAIL);;;
    ret tt.

Definition GenericPlaceSignals (t : TileIndex) : M unit :=
  w <- gets world;;
  let trackbits := GetTileTrackBits w t in
  let '(x, y) := _tile_fract_coords w in
  let track := FindFirstTrack (chosen_trackbits trackbits x y) in
  GenericPlaceSignals_track t track.

(** ** The remove button *)

Definition set_remove_button_clicked (b : bool) (x : Statics) : Statics :=
  {| _cur_railtype := _cur_railtype x; _remove_button_clicked := b;
     _cm_invert_remove := _cm_invert_remove x;
     _build_depot_direction := _build_depot_direction x;
     _convert_signal_button := _convert_signal_button x;
     _cur_signal_variant := _cur_signal_variant x;
     _cur_signal_type := _cur_signal_type x;
     _railstation := _railstation x |}.

(** Toggles state of the Remove button of Build rail toolbar *)
Definition ToggleRailButton_Remove (w : Window) : M Window :=
  emit (EvCloseWindowById WC_SELECT_STATION 0);;;
  let w := ToggleWidgetLoweredState w WID_RAT_REMOVE in
  emit (EvSetWidgetDirty WID_RAT_REMOVE);;;
  modify (fun s => set_statics (set_remove_button_clicked (IsWidgetLowered w WID_RAT_REMOVE) (statics s)) s);;;
  rbc <- gets (fun s => _remove_button_clicked (statics s));;
  emit (EvSetSelectionRed rbc);;;
  ret w.

(** The "remove"-button click proc of the build-rail toolbar. *)
Definition BuildRailClick_Remove (w : Window) : M Window :=
  if IsWidgetDisabled w WID_RAT_REMOVE then ret w
  else
    w <- ToggleRailButton_Remove w;;
    se <- gets settings;;
    when (sound_click_beep se) (emit (EvSndPlayFx SND_15_BEEP));;;
    (* handle station builder *)
    (if IsWidgetLowered w WID_RAT_BUILD_STATION then
       rbc <- gets (fun s => _remove_button_clicked (statics s));;
       if rbc then
         (* starting drag & drop remove *)
         if negb (gui_station_dragdrop se) then emit (EvSetTileSelectSize 1 1)
         else emit (EvVpSetPlaceSizingLimit (-1))
       else
         (* starting station build mode *)
         if negb (gui_station_dragdrop se) then
           rs <- gets (fun s => _railstation (statics s));;
           let x := gui_station_numtracks se in
           let y := gui_station_platlength se in
           if orientation rs =? 0 then emit (EvSetTileSelectSize y x)
           else emit (EvSetTileSelectSize x y)
         else emit (EvVpSetPlaceSizingLimit (station_station_spread se))
     else ret tt);;;
    ret w.

(** [static CommandContainer DoRailroadTrackCmd(TileIndex start_tile, TileIndex end_tile, Track track)] *)
Definition DoRailroadTrackCmd (s : State) (start_tile end_tile : TileIndex) (track : Z) : CommandContainer :=
  {| tile := start_tile;
     p1 := end_tile;
     p2 := Z.lor (Z.lor (uint32 (_cur_railtype (statics s)))
                        (uint32 (Z.shiftl (uint32 track) 6)))
                 (uint32 (Z.shiftl (uint32 (Z.b2z (gui_auto_remove_signals (settings s)))) 11));
     cmd := if _remove_button_clicked (statics s)
            then Z.lor CMD_REMOVE_RAILROAD_TRACK (CMD_MSG STR_ERROR_CAN_T_REMOVE_RAILROAD_TRACK)
            else Z.lor CMD_BUILD_RAILROAD_TRACK (CMD_MSG STR_ERROR_CAN_T_BUILD_RAILROAD_TRACK);
     callback := cb_CcPlaySound_CONSTRUCTION_RAIL;
     text := EmptyString |}.

(** ** The autodirection terraform heuristic (namespace citymania) *)

(** The body of the [rail_callback] lambda, run on its captures. *)
Definition rail_callback (k : RailCallback) (res : bool) : M bool :=
  r <- DoCommand (tile (rc_rail_cmd k)) (p1 (rc_rail_cmd k)) (p2 (rc_rail_cmd k))
         (Z.lor DC_AUTO DC_NO_WATER) (cmd (rc_rail_cmd k));;
  e <- gets (fun s => _rail_track_endtile (world s));;
  ok <- (if negb (GetErrorMessage r =? STR_ERROR_ALREADY_BUILT) || (e =? INVALID_TILE)
         then DoCommandP (rc_rail_cmd k)
         else ret true);;
  if negb ok then ret false
  else
    e <- gets (fun s => _rail_track_endtile (world s));;
    when (negb (rc_estimate k) && negb (e =? INVALID_TILE))
         (emit (EvStoreRailPlacementEndpoints (rc_start_tile k) e (rc_track k) true));;;
    ret res.

(** The [p2] of a CMD_LEVEL_LAND command: the mode above the diagonal bit. *)
Definition level_p2 (raise : bool) (diag_flag : Z) : Z :=
  uint32 (Z.lor (Z.shiftl (if raise then LM_RAISE else LM_LEVEL) 1) diag_flag).

Definition DoAutodirTerraform (diagonal : bool) (start_tile end_tile : TileIndex) (track : Z)
    (rail_cmd : CommandContainer) (s1 e1 s2 e2 : TileIndex) : M bool :=
  w <- gets world;;
  let k := {| rc_rail_cmd := rail_cmd; rc_start_tile := start_tile; rc_end_tile := end_tile;
              rc_track := track; rc_estimate := _estimate_mod w |} in
  let h1 := TileHeight w s1 in
  let h2 := TileHeight w s2 in
  let diag_flag := if diagonal then 1 else 0 in
  let p2_1 := level_p2 (h1 <? h2) diag_flag in
  let p2_2 := level_p2 (h2 <? h1) diag_flag in
  r1 <- DoCommand e1 s1 p2_1 (Z.lor DC_AUTO DC_NO_WATER) CMD_LEVEL_LAND;;
  let l1_fail := negb (Succeeded r1) in
  r2 <- DoCommand e2 s2 p2_2 (Z.lor DC_AUTO DC_NO_WATER) CMD_LEVEL_LAND;;
  let l2_fail := negb (Succeeded r2) in
  if l1_fail && l2_fail then rail_callback k true
  else if l2_fail then DoCommandWithCallback (mkcmd e1 s1 p2_1 CMD_LEVEL_LAND cb_CcTerraform) k
  else
    (if negb l1_fail then DoCommandP (mkcmd e1 s1 p2_1 CMD_LEVEL_LAND cb_CcTerraform);;; ret tt
     else ret tt);;;
    DoCommandWithCallback (mkcmd e2 s2 p2_2 CMD_LEVEL_LAND cb_CcTerraform) k.

Definition HandleAutodirTerraform (start_tile end_tile : TileIndex) (track : Z)
    (rail_cmd : CommandContainer) : M bool :=
  let eq := uint32 (TileX end_tile - TileY end_tile) =? uint32 (TileX start_tile - TileY start_tile) in
  let ez := uint32 (TileX end_tile + TileY end_tile) =? uint32 (TileX start_tile + TileY start_tile) in
  let go diagonal := DoAutodirTerraform diagonal start_tile end_tile track rail_cmd in
  let b := Z.b2z in
  w <- gets world;;
  match _thd_cm_poly_dir w with
  | TRACKDIR_X_NE =>
      go false (TILE_ADDXY start_tile 1 0) end_tile
               (TILE_ADDXY start_tile 1 1) (TILE_ADDXY end_tile 0 1)
  | TRACKDIR_X_SW =>
      go false start_tile (TILE_ADDXY end_tile 1 0)
               (TILE_ADDXY start_tile 0 1) (TILE_ADDXY end_tile 1 1)
  | TRACKDIR_Y_SE =>
      go false start_tile (TILE_ADDXY end_tile 0 1)
               (TILE_ADDXY start_tile 1 0) (TILE_ADDXY end_tile 1 1)
  | TRACKDIR_Y_NW =>
      go false (TILE_ADDXY start_tile 0 1) end_tile
               (TILE_ADDXY start_tile 1 1) (TILE_ADDXY end_tile 1 0)
  | TRACKDIR_LEFT_N =>
      go true (TILE_ADDXY start_tile 1 0) (TILE_ADDXY end_tile (b eq) 0)
              (TILE_ADDXY start_tile 1 1) (TILE_ADDXY end_tile 0 (b (negb eq)))
  | TRACKDIR_RIGHT_N =>
      go true (TILE_ADDXY start_tile 0 1) (TILE_ADDXY end_tile 0 (b eq))
              (TILE_ADDXY start_tile 1 1) (TILE_ADDXY end_tile (b (negb eq)) 0)
  | TRACKDIR_LEFT_S =>
      go true (TILE_ADDXY start_tile 1 0) (TILE_ADDXY end_tile 1 (b (negb eq)))
              start_tile (TILE_ADDXY end_tile (b eq) 1)
  | TRACKDIR_RIGHT_S =>
      go true (TILE_ADDXY start_tile 0 1) (TILE_ADDXY end_tile (b (negb eq)) 1)
              start_tile (TILE_ADDXY end_tile 1 (b eq))
  | TRACKDIR_UPPER_E =>
      go true start_tile (TILE_ADDXY end_tile 0 (b (negb ez)))
              (TILE_ADDXY start_tile 1 0) (TILE_ADDXY end_tile (b (negb ez)) 1)
  | TRACKDIR_LOWER_E =>
      go true (TILE_ADDXY start_tile 1 1) (TILE_ADDXY end_tile (b ez) 1)
              (TILE_ADDXY start_tile 1 0) (TILE_ADDXY end_tile 0 (b ez))
  | TRACKDIR_UPPER_W =>
      go true start_tile (TILE_ADDXY end_tile (b (negb ez)) 0)
              (TILE_ADDXY start_tile 0 1) (TILE_ADDXY end_tile 1 (b (negb ez)))
  | TRACKDIR_LOWER_W =>
      go true (TILE_ADDXY start_tile 1 1) (TILE_ADDXY end_tile 1 (b ez))
              (TILE_ADDXY start_tile 0 1) (TILE_ADDXY end_tile (b ez) 0)
  | TRACKDIR_other _ => ret true
  end.

(** ** BuildRailToolbarWindow *)

Definition BuildRailToolbarWindow_OnPlaceObjectAbort (this : Window) : M Window :=
  when (IsWidgetLowered this WID_RAT_BUILD_STATION) (emit EvSetViewportCatchmentStation);;;
  let this := RaiseButtons this in
  let this := DisableWidget this WID_RAT_REMOVE in
  emit (EvSetWidgetDirty WID_RAT_REMOVE);;;
  emit (EvCloseWindowById WC_BUILD_SIGNAL TRANSPORT_RAIL);;;
  emit (EvCloseWindowById WC_BUILD_STATION TRANSPORT_RAIL);;;
  emit (EvCloseWindowById WC_BUILD_DEPOT TRANSPORT_RAIL);;;
  emit (EvCloseWindowById WC_BUILD_WAYPOINT TRANSPORT_RAIL);;;
  emit (EvCloseWindowById WC_SELECT_STATION 0);;;
  emit (EvCloseWindowByClass WC_BUILD_BRIDGE);;;
  emit EvAbortStationPlacement;;;
  emit EvResetActiveBlueprint;;;
  ret this.

(** ** The picker windows *)

Inductive EventState := ES_HANDLED | ES_NOT_HANDLED.

Definition set_railstation (rs : RailStationGUISettings) (x : Statics) : Statics :=
  {| _cur_railtype := _cur_railtype x; _remove_button_clicked := _remove_button_clicked x;
     _cm_invert_remove := _cm_invert_remove x;
     _build_depot_direction := _build_depot_direction x;
     _convert_signal_button := _convert_signal_button x;
     _cur_signal_variant := _cur_signal_variant x;
     _cur_signal_type := _cur_signal_type x;
     _railstation := rs |}.
Definition set_orientation (a : Z) (x : Statics) : Statics :=
  set_railstation
    {| orientation := a; newstations := newstations (_railstation x);
       station_class := station_class (_railstation x);
       station_type := station_type (_railstation x);
       station_count := station_count (_railstation x) |} x.
Definition set_build_depot_direction (d : Z) (x : Statics) : Statics :=
  {| _cur_railtype := _cur_railtype x; _remove_button_clicked := _remove_button_clicked x;
     _cm_invert_remove := _cm_invert_remove x;
     _build_depot_direction := d;
     _convert_signal_button := _convert_signal_button x;
     _cur_signal_variant := _cur_signal_variant x;
     _cur_signal_type := _cur_signal_type x;
     _railstation := _railstation x |}.
Definition set_convert_signal_button (b : bool) (x : Statics) : Statics :=
  {| _cur_railtype := _cur_railtype x; _remove_button_clicked := _remove_button_clicked x;
     _cm_invert_remove := _cm_invert_remove x;
     _build_depot_direction := _build_depot_direction x;
     _convert_signal_button := b;
     _cur_signal_variant := _cur_signal_variant x;
     _cur_signal_type := _cur_signal_type x;
     _railstation := _railstation x |}.
Definition set_cur_signal (variant type : Z) (x : Statics) : Statics :=
  {| _cur_railtype := _cur_railtype x; _remove_button_clicked := _remove_button_clicked x;
     _cm_invert_remove := _cm_invert_remove x;
     _build_depot_direction := _build_depot_direction x;
     _convert_signal_button := _convert_signal_button x;
     _cur_signal_variant := variant;
     _cur_signal_type := type;
     _railstation := _railstation x |}.
Definition set_drag_signals_density (d : Z) (x : Settings) : Settings :=
  {| sound_confirm := sound_confirm x; sound_click_beep := sound_click_beep x;
     gui_auto_remove_signals := gui_auto_remove_signals x;
     gui_persistent_buildingtools := gui_persistent_buildingtools x;
     gui_station_dragdrop := gui_station_dragdrop x;
     gui_station_numtracks := gui_station_numtracks x;
     gui_station_platlength := gui_station_platlength x;
     gui_drag_signals_density := d;
     gui_cycle_signal_types := gui_cycle_signal_types x;
     gui_signal_gui_mode := gui_signal_gui_mode x;
     gui_semaphore_build_before := gui_semaphore_build_before x;
     station_station_spread := station_station_spread x |}.

Definition SetWidgetDisabledState (w : Window) (i : Z) (b : bool) : Window :=
  {| lowered := lowered w;
     disabled := if b then {[i]} ∪ disabled w else disabled w ∖ {[i]} |}.

(** *** BuildRailStationWindow *)

(** [enum BuildRalStationHotkeys] *)
Definition BRASHK_FOCUS_FILTER_BOX : Z := 0.
Definition CM_BRASHK_ROTATE : Z := 1.

(** [OnClick]: the orientation buttons.  The cases of the other widgets of
    the station picker are left out. *)
Definition BuildRailStationWindow_OnClick (this : Window) (widget : Z) : M Window :=
  let c := GB widget 0 16 in
  if (c =? WID_BRAS_PLATFORM_DIR_X) || (c =? WID_BRAS_PLATFORM_DIR_Y) then
    o <- gets (fun s => orientation (_railstation (statics s)));;
    let this := RaiseWidget this (o + WID_BRAS_PLATFORM_DIR_X) in
    modify (fun s => set_statics (set_orientation (widget - WID_BRAS_PLATFORM_DIR_X) (statics s)) s);;;
    o <- gets (fun s => orientation (_railstation (statics s)));;
    let this := LowerWidget this (o + WID_BRAS_PLATFORM_DIR_X) in
    beep <- gets (fun s => sound_click_beep (settings s));;
    when beep (emit (EvSndPlayFx SND_15_BEEP));;;
    emit EvSetDirty;;;
    emit (EvCloseWindowById WC_SELECT_STATION 0);;;
    ret this
  else fault NotModelled.

Definition BuildRailStationWindow_OnHotkey (this : Window) (hotkey : Z) : M (EventState * Window) :=
  if hotkey =? BRASHK_FOCUS_FILTER_BOX then
    emit (EvSetFocusedWidget WID_BRAS_FILTER_EDITBOX);;;
    emit EvSetFocusedWindow;;;
    ret (ES_HANDLED, this)
  else if hotkey =? CM_BRASHK_ROTATE then
    o <- gets (fun s => orientation (_railstation (statics s)));;
    let this := RaiseWidget this (o + WID_BRAS_PLATFORM_DIR_X) in
    modify (fun s => set_statics (set_orientation (OtherAxis o) (statics s)) s);;;
    o <- gets (fun s => orientation (_railstation (statics s)));;
    let this := LowerWidget this (o + WID_BRAS_PLATFORM_DIR_X) in
    emit EvSetDirty;;;
    emit (EvCloseWindowById WC_SELECT_STATION 0);;;
    ret (ES_HANDLED, this)
  else ret (ES_NOT_HANDLED, this).

(** *** BuildRailDepotWindow *)

(** [enum class Hotkey : int { ROTATE }] *)
Definition BuildRailDepotWindow_Hotkey_ROTATE : Z := 0.

Definition BuildRailDepotWindow_OnClick (this : Window) (widget : Z) : M Window :=
  if (widget =? WID_BRAD_DEPOT_NE) || (widget =? WID_BRAD_DEPOT_SE) || (widget =? WID_BRAD_DEPOT_SW)
     || (widget =? WID_BRAD_DEPOT_NW) || (widget =? WID_BRAD_DEPOT_AUTO) then
    d <- gets (fun s => _build_depot_direction (statics s));;
    let this := RaiseWidget this (d + WID_BRAD_DEPOT_NE) in
    modify (fun s => set_statics (set_build_depot_direction (widget - WID_BRAD_DEPOT_NE) (statics s)) s);;;
    d <- gets (fun s => _build_depot_direction (statics s));;
    let this := LowerWidget this (d + WID_BRAD_DEPOT_NE) in
    beep <- gets (fun s => sound_click_beep (settings s));;
    when beep (emit (EvSndPlayFx SND_15_BEEP));;;
    emit EvSetDirty;;;
    ret this
  else ret this.

Definition BuildRailDepotWindow_OnHotkey (this : Window) (hotkey : Z) : M (EventState * Window) :=
  if hotkey =? BuildRailDepotWindow_Hotkey_ROTATE then
    d <- gets (fun s => _build_depot_direction (statics s));;
    this <- (if d <? DIAGDIR_END then
               let this := RaiseWidget this (d + WID_BRAD_DEPOT_NE) in
               modify (fun s => set_statics (set_build_depot_direction (ChangeDiagDir d DIAGDIRDIFF_90RIGHT) (statics s)) s);;;
               d <- gets (fun s => _build_depot_direction (statics s));;
               ret (LowerWidget this (d + WID_BRAD_DEPOT_NE))
             else
               emit EvRotateAutodetection;;; ret this);;
    emit EvSetDirty;;;
    ret (ES_HANDLED, this)
  else fault NotReached.

(** *** BuildSignalWindow *)

Definition BuildSignalWindow_OnInvalidateData (this : Window) : M Window :=
  st <- gets statics;;
  se <- gets settings;;
  let this := LowerWidget this
    ((if _cur_signal_variant st =? SIG_ELECTRIC then WID_BS_ELECTRIC_NORM else WID_BS_SEMAPHORE_NORM)
     + _cur_signal_type st) in
  let this := SetWidgetLoweredState this WID_BS_CONVERT (_convert_signal_button st) in
  let this := SetWidgetDisabledState this WID_BS_DRAG_SIGNALS_DENSITY_DECREASE
                (gui_drag_signals_density se =? 1) in
  let this := SetWidgetDisabledState this WID_BS_DRAG_SIGNALS_DENSITY_INCREASE
                (gui_drag_signals_density se =? 20) in
  ret this.

Definition is_signal_widget (widget : Z) : bool :=
  existsb (Z.eqb widget)
    [WID_BS_SEMAPHORE_NORM; WID_BS_SEMAPHORE_ENTRY; WID_BS_SEMAPHORE_EXIT;
     WID_BS_SEMAPHORE_COMBO; WID_BS_SEMAPHORE_PBS; WID_BS_SEMAPHORE_PBS_OWAY;
     WID_BS_ELECTRIC_NORM; WID_BS_ELECTRIC_ENTRY; WID_BS_ELECTRIC_EXIT;
     WID_BS_ELECTRIC_COMBO; WID_BS_ELECTRIC_PBS; WID_BS_ELECTRIC_PBS_OWAY].

(** [OnClick]; the cases of the switch are tried in the order they are
    written, which is the switch itself as the case labels are distinct. *)
Definition BuildSignalWindow_OnClick (this : Window) (widget : Z) : M Window :=
  this <-
    (if is_signal_widget widget then
       st <- gets statics;;
       let this := RaiseWidget this
         ((if _cur_signal_variant st =? SIG_ELECTRIC then WID_BS_ELECTRIC_NORM else WID_BS_SEMAPHORE_NORM)
          + _cur_signal_type st) in
       modify (fun s => set_statics
                 (set_cur_signal
                    (if widget >=? WID_BS_ELECTRIC_NORM then SIG_ELECTRIC else SIG_SEMAPHORE)
                    (uint32 (Z.rem (widget - WID_BS_SEMAPHORE_NORM) (SIGTYPE_LAST + 1)))
                    (statics s)) s);;;
       (* If 'remove' button of rail build toolbar is active, disable it. *)
       rbc <- gets (fun s => _remove_button_clicked (statics s));;
       tb <- gets toolbar;;
       (if rbc then
          match tb with
          | Some w => w <- ToggleRailButton_Remove w;; modify (set_toolbar (Some w))
          | None => ret tt
          end
        else ret tt);;;
       ret this
     else if widget =? WID_BS_CONVERT then
       modify (fun s => set_statics
                 (set_convert_signal_button (negb (_convert_signal_button (statics s))) (statics s)) s);;;
       ret this
     else if widget =? WID_BS_DRAG_SIGNALS_DENSITY_DECREASE then
       d <- gets (fun s => gui_drag_signals_density (settings s));;
       (if d >? 1 then
          modify (fun s => set_settings (set_drag_signals_density (uint8 (d - 1)) (settings s)) s);;;
          emit (EvSetWindowDirty WC_GAME_OPTIONS WN_GAME_OPTIONS_GAME_SETTINGS)
        else ret tt);;;
       ret this
     else if widget =? WID_BS_DRAG_SIGNALS_DENSITY_INCREASE then
       d <- gets (fun s => gui_drag_signals_density (settings s));;
       (if d <? 20 then
          modify (fun s => set_settings (set_drag_signals_density (uint8 (d + 1)) (settings s)) s);;;
          emit (EvSetWindowDirty WC_GAME_OPTIONS WN_GAME_OPTIONS_GAME_SETTINGS)
        else ret tt);;;
       ret this
     else ret this);;
  (* this->InvalidateData() *)
  emit EvSetDirty;;;
  BuildSignalWindow_OnInvalidateData this.

(** A run of clicks on the signal window. *)
Fixpoint BuildSignalWindow_clicks (this : Window) (widgets : list Z) : M Window :=
  match widgets with
  | [] => ret this
  | widget :: rest =>
      this <- BuildSignalWindow_OnClick this widget;;
      BuildSignalWindow_clicks this rest
  end.

End Program.

Arguments Ok {_ _ _} a s.
Arguments Stop {_ _ _} f.

(** ** Vocabulary of the properties *)

Section Vocabulary.
Context {Hdr : Headers} {Eng : Engine}.

(** The widgets of a group that are lowered, in the order of the group. *)
Definition lowered_among (w : Window) (group : list Z) : list Z :=
  List.filter (IsWidgetLowered w) group.

Definition station_dir_group : list Z :=
  [WID_BRAS_PLATFORM_DIR_X; WID_BRAS_PLATFORM_DIR_Y].

Definition depot_dir_group : list Z :=
  [WID_BRAD_DEPOT_NE; WID_BRAD_DEPOT_SE; WID_BRAD_DEPOT_SW; WID_BRAD_DEPOT_NW; WID_BRAD_DEPOT_AUTO].

(** One value is selected: of the orientation buttons exactly the one of
    [_railstation.orientation] is lowered. *)
Definition station_selected (this : Window) (s : State) : Prop :=
  lowered_among this station_dir_group =
    [orientation (_railstation (statics s)) + WID_BRAS_PLATFORM_DIR_X].

(** Of the depot direction buttons exactly the one of
    [_build_depot_direction] is lowered. *)
Definition depot_selected (this : Window) (s : State) : Prop :=
  lowered_among this depot_dir_group =
    [_build_depot_direction (statics s) + WID_BRAD_DEPOT_NE].

Definition density (s : State) : Z := gui_drag_signals_density (settings s).

(** The directions [HandleAutodirTerraform] has a case for. *)
Definition autodir_trackdirs : list Trackdir :=
  [TRACKDIR_X_NE; TRACKDIR_X_SW; TRACKDIR_Y_SE; TRACKDIR_Y_NW;
   TRACKDIR_LEFT_N; TRACKDIR_RIGHT_N; TRACKDIR_LEFT_S; TRACKDIR_RIGHT_S;
   TRACKDIR_UPPER_E; TRACKDIR_LOWER_E; TRACKDIR_UPPER_W; TRACKDIR_LOWER_W].


(** The track placement is tried at once, or rides on the last command. *)
Definition track_not_skipped (k : RailCallback) (added : list Event) : Prop :=
  (exists rest,
     added = EvDoCommand (tile (rc_rail_cmd k)) (p1 (rc_rail_cmd k)) (p2 (rc_rail_cmd k))
               (Z.lor DC_AUTO DC_NO_WATER) (cmd (rc_rail_cmd k)) :: rest) \/
  (exists before c, added = before ++ [EvDoCommandWithCallback c k]).

End Vocabulary.

(** ** A concrete host

    To run the definitions on inputs: sample values for the enumerators
    (numbered the way the facts of [Headers] ask for) and a small host on a
    256 x 256 map whose answers are read off a record. *)

#[refine] Instance sample_headers : Headers := {|
  CMD_BUILD_RAILROAD_TRACK := 0; CMD_REMOVE_RAILROAD_TRACK := 1;
  CMD_BUILD_SINGLE_RAIL := 2; CMD_REMOVE_SINGLE_RAIL := 3;
  CMD_BUILD_SIGNALS := 8; CMD_REMOVE_SIGNALS := 9; CMD_LEVEL_LAND := 100;
  CMD_MSG := fun x => Z.shiftl x 16;
  DC_AUTO := 2; DC_NO_WATER := 4;
  STR_ERROR_CAN_T_BUILD_RAILROAD_TRACK := 4113; STR_ERROR_CAN_T_REMOVE_RAILROAD_TRACK := 4114;
  STR_ERROR_CAN_T_REMOVE_SIGNALS_FROM := 4115; STR_ERROR_SIGNAL_CAN_T_CONVERT_SIGNALS_HERE := 4116;
  STR_ERROR_CAN_T_BUILD_SIGNALS_HERE := 4117; STR_ERROR_ALREADY_BUILT := 4118;
  SND_20_CONSTRUCTION_RAIL := 30; SND_15_BEEP := 19;
  INVALID_TILE := 2 ^ 32 - 1; MP_RAILWAY := 1; RAIL_TILE_DEPOT := 3; RAIL_TILE_SIGNALS := 1;
  LM_LEVEL := 0; LM_RAISE := 2;
  TRACK_X := 0; TRACK_Y := 1; TRACK_UPPER := 2; TRACK_LOWER := 3; TRACK_LEFT := 4; TRACK_RIGHT := 5;
  TRACK_BIT_UPPER := 4; TRACK_BIT_LOWER := 8; TRACK_BIT_LEFT := 16; TRACK_BIT_RIGHT := 32;
  DIAGDIR_NE := 0; DIAGDIR_SE := 1; DIAGDIR_SW := 2; DIAGDIR_NW := 3; DIAGDIR_END := 4;
  DIAGDIRDIFF_90RIGHT := 1;
  SIG_ELECTRIC := 0; SIG_SEMAPHORE := 1;
  SIGTYPE_NORMAL := 0; SIGTYPE_PBS := 4; SIGTYPE_PBS_ONEWAY := 5; SIGTYPE_LAST := 5;
  SIGNAL_CYCLE_ALL := 1; SIGNAL_GUI_ALL := 1; STAT_CLASS_DFLT := 0;
  WC_SELECT_STATION := 1; WC_BUILD_SIGNAL := 2; WC_BUILD_STATION := 3; WC_BUILD_DEPOT := 4;
  WC_BUILD_WAYPOINT := 5; WC_BUILD_BRIDGE := 6; WC_BUILD_TOOLBAR := 7; WC_GAME_OPTIONS := 8;
  WN_GAME_OPTIONS_GAME_SETTINGS := 0; TRANSPORT_RAIL := 0;
  WID_RAT_REMOVE := 17; WID_RAT_BUILD_STATION := 11;
  WID_BRAS_FILTER_EDITBOX := 1; WID_BRAS_PLATFORM_DIR_X := 2; WID_BRAS_PLATFORM_DIR_Y := 3;
  WID_BRAD_DEPOT_NE := 0; WID_BRAD_DEPOT_SE := 1; WID_BRAD_DEPOT_SW := 2; WID_BRAD_DEPOT_NW := 3;
  WID_BRAD_DEPOT_AUTO := 4;
  WID_BS_SEMAPHORE_NORM := 0; WID_BS_SEMAPHORE_ENTRY := 1; WID_BS_SEMAPHORE_EXIT := 2;
  WID_BS_SEMAPHORE_COMBO := 3; WID_BS_SEMAPHORE_PBS := 4; WID_BS_SEMAPHORE_PBS_OWAY := 5;
  WID_BS_ELECTRIC_NORM := 6; WID_BS_ELECTRIC_ENTRY := 7; WID_BS_ELECTRIC_EXIT := 8;
  WID_BS_ELECTRIC_COMBO := 9; WID_BS_ELECTRIC_PBS := 10; WID_BS_ELECTRIC_PBS_OWAY := 11;
  WID_BS_CONVERT := 12; WID_BS_DRAG_SIGNALS_DENSITY_DECREASE := 14;
  WID_BS_DRAG_SIGNALS_DENSITY_INCREASE := 15;
|}.
Proof. all: abstract (repeat split; (reflexivity || discriminate || lia)). Defined.

(** What the sample host keeps. *)
Record SampleWorld := {
  sw_height : TileIndex -> Z;
  (* a test run of CMD_LEVEL_LAND whose [tile] is this one succeeds *)
  sw_level_ok : TileIndex -> bool;
  (* what a test run of any other command answers *)
  sw_test : CommandCost;
  sw_exec_ok : bool;
  sw_tile_type : TileIndex -> Z;
  sw_trackbits : TileIndex -> Z;
  sw_fract : Z * Z;
  sw_endtile : TileIndex;
  sw_tunnel_endtile : TileIndex;
  sw_poly_dir : Trackdir;
  sw_estimate : bool;
}.

(** The lowest of the six track bits that is set, 255 (INVALID_TRACK) when
    there is none. *)
Definition sample_FindFirstTrack (bits : Z) : Z :=
  match List.find (fun i => Z.testbit bits i) [0; 1; 2; 3; 4; 5] with
  | Some i => i
  | None => 255
  end.

#[refine] Instance sample_engine : @Engine sample_headers := {|
  W := SampleWorld;
  TileX := fun t => Z.land t 255;
  TileY := fun t => Z.shiftr t 8;
  TILE_ADDXY := fun t x y => t + (y * 256 + x);
  TileOffsByDiagDir := fun d => nth (Z.to_nat d) [-1; 256; 1; -256] 0;
  TileHeight := sw_height;
  IsTileType := fun w t ty => sw_tile_type w t =? ty;
  GetRailTileType := fun w t => 0;
  GetTrackBits := sw_trackbits;
  GetTileTrackBits := sw_trackbits;
  DiagdirReachesTracks := fun d => nth (Z.to_nat d) [1 + 8 + 16; 2 + 4 + 16; 1 + 4 + 32; 2 + 8 + 32] 0;
  FindFirstTrack := sample_FindFirstTrack;
  GB := fun x s n => Z.land (Z.shiftr x s) (Z.ones n);
  SB := fun x s n d => Z.lor (Z.land x (Z.lnot (Z.shiftl (Z.ones n) s))) (Z.shiftl d s);
  ChangeDiagDir := fun d delta => (d + delta) mod 4;
  OtherAxis := fun a => Z.lxor a 1;
  _cur_year := fun _ => 1950;
  _tile_fract_coords := sw_fract;
  _rail_track_endtile := sw_endtile;
  _build_tunnel_endtile := sw_tunnel_endtile;
  _thd_cm_poly_dir := sw_poly_dir;
  _fn_mod := fun _ => false;
  _estimate_mod := sw_estimate;
  signal_window_open := fun _ => false;
  engine_DoCommand := fun w t a b flags c =>
    (if c =? 100 then {| Succeeded := sw_level_ok w t; GetErrorMessage := 0 |} else sw_test w, w);
  engine_DoCommandP := fun w c => (sw_exec_ok w, w);
  engine_DoCommandWithCallback := fun w c k => (sw_exec_ok w, w);
|}.
Proof.
  - abstract (intros d Hd; simpl in *; pose proof (Z.mod_pos_bound (d + 1) 4); lia).
  - abstract (unfold AXIS_X, AXIS_Y; intros a Ha;
              assert (a = 0 \/ a = 1) as [-> | ->] by lia;
              [change (Z.lxor 0 1) with 1 | change (Z.lxor 1 1) with 0]; lia).
  - abstract (intros x Hx; rewrite Z.shiftr_0_r, Z.land_ones by lia;
              apply Z.mod_small; exact Hx).
Defined.

Definition sample_world : SampleWorld := {|
  sw_height := fun t => if t =? 1 then 1 else 0;
  sw_level_ok := fun _ => false;
  sw_test := {| Succeeded := true; GetErrorMessage := 0 |};
  sw_exec_ok := true;
  sw_tile_type := fun _ => 1;
  sw_trackbits := fun _ => 60;
  sw_fract := (15, 0);
  sw_endtile := 7;
  sw_tunnel_endtile := 9;
  sw_poly_dir := TRACKDIR_LEFT_N;
  sw_estimate := false;
|}.

Definition sample_statics : Statics := {|
  _cur_railtype := 0; _remove_button_clicked := true; _cm_invert_remove := false;
  _build_depot_direction := 4; _convert_signal_button := false;
  _cur_signal_variant := 0; _cur_signal_type := 0;
  _railstation := {| orientation := 0; newstations := false; station_class := 0;
                     station_type := 0; station_count := 0 |};
|}.

Definition sample_settings : Settings := {|
  sound_confirm := true; sound_click_beep := true; gui_auto_remove_signals := false;
  gui_persistent_buildingtools := false; gui_station_dragdrop := true;
  gui_station_numtracks := 1; gui_station_platlength := 5; gui_drag_signals_density := 4;
  gui_cycle_signal_types := 0; gui_signal_gui_mode := 0; gui_semaphore_build_before := 1950;
  station_station_spread := 12;
|}.

Definition sample_window (l : list Z) : Window := {| lowered := list_to_set l; disabled := ∅ |}.

Definition sample_state : @State sample_headers sample_engine := {|
  world := sample_world; statics := sample_statics; settings := sample_settings;
  toolbar := Some (sample_window [17]); trace := [];
|}.

(** The same host with a tile that carries the two horizontal pieces only,
    clicked in its lower half. *)
Definition sample_world_horz : SampleWorld := {|
  sw_height := sw_height sample_world;
  sw_level_ok := sw_level_ok sample_world;
  sw_test := sw_test sample_world;
  sw_exec_ok := true;
  sw_tile_type := sw_tile_type sample_world;
  sw_trackbits := fun _ => 12;
  sw_fract := (9, 9);
  sw_endtile := 7;
  sw_tunnel_endtile := 9;
  sw_poly_dir := TRACKDIR_other 6;
  sw_estimate := false;
|}.

(** The same host where levelling succeeds at tile 258 and nowhere else. *)
Definition sample_world_level : SampleWorld := {|
  sw_height := sw_height sample_world;
  sw_level_ok := fun t => t =? 258;
  sw_test := sw_test sample_world;
  sw_exec_ok := true;
  sw_tile_type := sw_tile_type sample_world;
  sw_trackbits := sw_trackbits sample_world;
  sw_fract := (15, 0);
  sw_endtile := 7;
  sw_tunnel_endtile := 9;
  sw_poly_dir := TRACKDIR_X_NE;
  sw_estimate := false;
|}.

Definition sample_state_in (w : SampleWorld) : @State sample_headers sample_engine := {|
  world := w; statics := sample_statics; settings := sample_settings;
  toolbar := None; trace := [];
|}.

(** A track command from tile 0 to tile 257. *)
Definition sample_rail_cmd : CommandContainer :=
  @DoRailroadTrackCmd sample_headers sample_engine sample_state 0 257 4.

Definition failed_cost : CommandCost := {| Succeeded := false; GetErrorMessage := 4118 |}.

(** * The rest of the file

    Further functions of rail_gui.cpp, on the same state and trace.  What
    they need of the headers and of the host beyond [Headers] and [Engine] is
    in two more classes. *)

(** [struct StationSpec] (newgrf_station.h): the two byte-wide masks the
    file reads; bit n set means n + 1 platforms, or a length of n + 1, is not
    allowed. *)
Record StationSpec := {
  disallowed_platforms : Z;
  disallowed_lengths : Z;
}.

Definition UINT8_MAX : Z := 255.

(** Further enumerators of the headers.  As in [Headers], none is declared
    in rail_gui.cpp; they are parameters, and the facts about their numbering
    that the code relies on are stated with them. *)
Class HeadersExt {Hdr : Headers} := {
  (* tilehighlight_type.h *)
  HT_RAIL : Z;
  HT_POLY : Z;
  HT_DIR_MASK : Z;
  (* direction_type.h, road_type.h *)
  DIAGDIR_BEGIN : Z;
  ROAD_NONE : Z;
  (* widgets/rail_widget.h *)
  WID_RAT_BUILD_NS : Z;
  WID_RAT_BUILD_X : Z;
  WID_RAT_BUILD_EW : Z;
  WID_RAT_BUILD_Y : Z;
  WID_RAT_AUTORAIL : Z;
  WID_RAT_POLYRAIL : Z;
  WID_RAT_BUILD_WAYPOINT : Z;
  WID_RAT_BUILD_SIGNALS : Z;
  WID_BRAS_PLATFORM_NUM_BEGIN : Z;
  WID_BRAS_PLATFORM_NUM_1 : Z;
  WID_BRAS_PLATFORM_NUM_2 : Z;
  WID_BRAS_PLATFORM_NUM_3 : Z;
  WID_BRAS_PLATFORM_NUM_4 : Z;
  WID_BRAS_PLATFORM_NUM_5 : Z;
  WID_BRAS_PLATFORM_NUM_6 : Z;
  WID_BRAS_PLATFORM_NUM_7 : Z;
  WID_BRAS_PLATFORM_LEN_BEGIN : Z;
  WID_BRAS_PLATFORM_LEN_1 : Z;
  WID_BRAS_PLATFORM_LEN_2 : Z;
  WID_BRAS_PLATFORM_LEN_3 : Z;
  WID_BRAS_PLATFORM_LEN_4 : Z;
  WID_BRAS_PLATFORM_LEN_5 : Z;
  WID_BRAS_PLATFORM_LEN_6 : Z;
  WID_BRAS_PLATFORM_LEN_7 : Z;
  WID_BRAS_PLATFORM_DRAG_N_DROP : Z;

  DIAGDIR_BEGIN_value : DIAGDIR_BEGIN = 0;
  ROAD_NONE_value : ROAD_NONE = 0;
  (** The size buttons of the station picker follow their BEGIN marker one
      by one, which is what [widget - WID_BRAS_PLATFORM_NUM_BEGIN] relies on;
      the two rows and the drag-and-drop button do not overlap, and the
      numbers fit in 16 bits. *)
  station_num_widgets :
    0 <= WID_BRAS_PLATFORM_NUM_BEGIN /\
    WID_BRAS_PLATFORM_NUM_1 = WID_BRAS_PLATFORM_NUM_BEGIN + 1 /\
    WID_BRAS_PLATFORM_NUM_2 = WID_BRAS_PLATFORM_NUM_BEGIN + 2 /\
    WID_BRAS_PLATFORM_NUM_3 = WID_BRAS_PLATFORM_NUM_BEGIN + 3 /\
    WID_BRAS_PLATFORM_NUM_4 = WID_BRAS_PLATFORM_NUM_BEGIN + 4 /\
    WID_BRAS_PLATFORM_NUM_5 = WID_BRAS_PLATFORM_NUM_BEGIN + 5 /\
    WID_BRAS_PLATFORM_NUM_6 = WID_BRAS_PLATFORM_NUM_BEGIN + 6 /\
    WID_BRAS_PLATFORM_NUM_7 = WID_BRAS_PLATFORM_NUM_BEGIN + 7;
  station_len_widgets :
    WID_BRAS_PLATFORM_NUM_BEGIN + 7 <= WID_BRAS_PLATFORM_LEN_BEGIN /\
    WID_BRAS_PLATFORM_LEN_1 = WID_BRAS_PLATFORM_LEN_BEGIN + 1 /\
    WID_BRAS_PLATFORM_LEN_2 = WID_BRAS_PLATFORM_LEN_BEGIN + 2 /\
    WID_BRAS_PLATFORM_LEN_3 = WID_BRAS_PLATFORM_LEN_BEGIN + 3 /\
    WID_BRAS_PLATFORM_LEN_4 = WID_BRAS_PLATFORM_LEN_BEGIN + 4 /\
    WID_BRAS_PLATFORM_LEN_5 = WID_BRAS_PLATFORM_LEN_BEGIN + 5 /\
    WID_BRAS_PLATFORM_LEN_6 = WID_BRAS_PLATFORM_LEN_BEGIN + 6 /\
    WID_BRAS_PLATFORM_LEN_7 = WID_BRAS_PLATFORM_LEN_BEGIN + 7;
  station_drag_widget :
    WID_BRAS_PLATFORM_LEN_BEGIN + 7 < WID_BRAS_PLATFORM_DRAG_N_DROP /\
    WID_BRAS_PLATFORM_DRAG_N_DROP < 2 ^ 16;
  (** The twelve signal buttons are consecutive, the six semaphore ones
      first, which is what [(widget - WID_BS_SEMAPHORE_NORM) % (SIGTYPE_LAST + 1)]
      relies on; the other buttons of the signal window come after them. *)
  signal_widgets :
    WID_BS_SEMAPHORE_ENTRY = WID_BS_SEMAPHORE_NORM + 1 /\
    WID_BS_SEMAPHORE_EXIT = WID_BS_SEMAPHORE_NORM + 2 /\
    WID_BS_SEMAPHORE_COMBO = WID_BS_SEMAPHORE_NORM + 3 /\
    WID_BS_SEMAPHORE_PBS = WID_BS_SEMAPHORE_NORM + 4 /\
    WID_BS_SEMAPHORE_PBS_OWAY = WID_BS_SEMAPHORE_NORM + 5 /\
    WID_BS_ELECTRIC_NORM = WID_BS_SEMAPHORE_NORM + 6 /\
    WID_BS_ELECTRIC_ENTRY = WID_BS_SEMAPHORE_NORM + 7 /\
    WID_BS_ELECTRIC_EXIT = WID_BS_SEMAPHORE_NORM + 8 /\
    WID_BS_ELECTRIC_COMBO = WID_BS_SEMAPHORE_NORM + 9 /\
    WID_BS_ELECTRIC_PBS = WID_BS_SEMAPHORE_NORM + 10 /\
    WID_BS_ELECTRIC_PBS_OWAY = WID_BS_SEMAPHORE_NORM + 11;
  signal_other_widgets :
    WID_BS_SEMAPHORE_NORM + 11 < WID_BS_CONVERT /\
    WID_BS_SEMAPHORE_NORM + 11 < WID_BS_DRAG_SIGNALS_DENSITY_DECREASE /\
    WID_BS_SEMAPHORE_NORM + 11 < WID_BS_DRAG_SIGNALS_DENSITY_INCREASE /\
    WID_BS_CONVERT <> WID_BS_DRAG_SIGNALS_DENSITY_DECREASE /\
    WID_BS_CONVERT <> WID_BS_DRAG_SIGNALS_DENSITY_INCREASE /\
    WID_BS_DRAG_SIGNALS_DENSITY_DECREASE <> WID_BS_DRAG_SIGNALS_DENSITY_INCREASE;
  (** Six signal types, numbered from 0, and two variants. *)
  signal_types : SIGTYPE_LAST = 5 /\ SIG_ELECTRIC <> SIG_SEMAPHORE;
}.

(** Further observers of the host: the tile highlight, the station
    specifications, and the map accessors of [FindRailsToConnect]. *)
Class EngineExt {Hdr : Headers} {HdrX : HeadersExt} {Eng : Engine} := {
  (* the tile highlight, tilehighlight_type.h *)
  _thd_drawstyle : W -> Z;
  _thd_place_mode : W -> Z;
  _thd_cm_poly_terra : W -> bool;
  _thd_selstart : W -> Z * Z;
  _thd_selend : W -> Z * Z;
  TileVirtXY : Z -> Z -> TileIndex;
  (* core/bitmath_func.hpp *)
  HasBit : Z -> Z -> bool;
  (* StationClass::Get(class)->GetSpec(type); None is nullptr *)
  GetSpec : W -> Z -> Z -> option StationSpec;
  (* map_func.h, station_map.h, rail_map.h, road_func.h *)
  TileAddByDiagDir : TileIndex -> Z -> TileIndex;
  HasStationTileRail : W -> TileIndex -> bool;
  GetRailStationTrackBits : W -> TileIndex -> Z;
  IsPlainRail : W -> TileIndex -> bool;
  DiagDirToRoadBits : Z -> Z;

  (** [HasBit(x, y)] is [(x & (1 << y)) != 0]. *)
  HasBit_testbit : forall x y, 0 <= y -> HasBit x y = Z.testbit x y;
  (** Each of the four directions has road bits. *)
  DiagDirToRoadBits_nonzero :
    forall d, DIAGDIR_BEGIN <= d < DIAGDIR_END -> DiagDirToRoadBits d <> ROAD_NONE;
}.

Section Program_rest.
Context {Hdr : Headers} {Eng : Engine} {HdrX : HeadersExt} {EngX : EngineExt}.

Notation "x <- m ;; k" := (bind m (fun x => k))
  (at level 100, m at next level, right associativity).
Notation "m ;;; k" := (bind m (fun _ => k))
  (at level 100, right associativity).

(** ** Placing rail *)

(** The tail of [HandleAutodirPlacement]: save new snap points for the
    polyline tool. *)
Definition store_snap_point (start_tile : TileIndex) (track : Z) : M unit :=
  w <- gets world;;
  when (negb (_estimate_mod w) && negb (_rail_track_endtile w =? INVALID_TILE))
       (emit (EvStoreRailPlacementEndpoints start_tile (_rail_track_endtile w) track true)).

(** [HandleAutodirPlacement].  "When overbuilding existing tracks in
    polyline mode we want to move the snap point over the last overbuilt track
    piece.  In such case we don't want to show any errors to the user.  Don't
    execute the command right away, first check if overbuilding." *)
Definition HandleAutodirPlacement : M unit :=
  w <- gets world;;
  s <- gets (fun s => s);;
  let track := Z.land (_thd_drawstyle w) HT_DIR_MASK in (* 0..5 *)
  let start_tile := TileVirtXY (fst (_thd_selstart w)) (snd (_thd_selstart w)) in
  let end_tile := TileVirtXY (fst (_thd_selend w)) (snd (_thd_selend w)) in
  let c :=
    if negb (Z.land (_thd_drawstyle w) HT_RAIL =? 0)
    then GenericPlaceRailCmd s end_tile track (* one tile case *)
    else DoRailroadTrackCmd s start_tile end_tile track (* multitile selection *) in
  if _estimate_mod w || (Z.land (_thd_place_mode w) HT_POLY =? 0)
     || _remove_button_clicked (statics s) then
    ok <- DoCommandP c;;
    if negb ok then ret tt else store_snap_point start_tile track
  else if _thd_cm_poly_terra w then
    HandleAutodirTerraform start_tile end_tile track c;;;
    ret tt
  else
    r <- DoCommand (tile c) (p1 c) (p2 c) (Z.lor DC_AUTO DC_NO_WATER) (cmd c);;
    e <- gets (fun s => _rail_track_endtile (world s));;
    if negb (GetErrorMessage r =? STR_ERROR_ALREADY_BUILT) || (e =? INVALID_TILE) then
      ok <- DoCommandP c;;
      if negb ok then ret tt else store_snap_point start_tile track
    else store_snap_point start_tile track.

(** ** The remove button and the other buttons of the toolbar *)

(** The loop of [RailToolbar_CtrlChanged] over the widgets left to try. *)
Fixpoint RailToolbar_CtrlChanged_loop (w : Window) (widgets : list Z) : M (bool * Window) :=
  match widgets with
  | [] => ret (false, w)
  | i :: rest =>
      if ((i <=? WID_RAT_POLYRAIL) || (i >=? WID_RAT_BUILD_WAYPOINT)) && IsWidgetLowered w i then
        w <- ToggleRailButton_Remove w;;
        ret (true, w)
      else RailToolbar_CtrlChanged_loop w rest
  end.

(** Updates the Remove button because of Ctrl state change; the result is
    true iff the remove button was changed. *)
Definition RailToolbar_CtrlChanged (w : Window) : M (bool * Window) :=
  if IsWidgetDisabled w WID_RAT_REMOVE then ret (false, w)
  else
    (* allow ctrl to switch remove mode only for these widgets *)
    RailToolbar_CtrlChanged_loop w
      (seqZ WID_RAT_BUILD_NS (WID_RAT_BUILD_STATION - WID_RAT_BUILD_NS + 1)).

(** [BuildRailToolbarWindow::UpdateRemoveWidgetStatus] *)
Definition UpdateRemoveWidgetStatus (this : Window) (clicked_widget : Z) : Window :=
  if clicked_widget =? WID_RAT_REMOVE then
    (* If it is the removal button that has been clicked, do nothing,
       as it is up to the other buttons to drive removal status *)
    this
  else if existsb (Z.eqb clicked_widget)
            [WID_RAT_BUILD_NS; WID_RAT_BUILD_X; WID_RAT_BUILD_EW; WID_RAT_BUILD_Y;
             WID_RAT_AUTORAIL; WID_RAT_POLYRAIL; WID_RAT_BUILD_WAYPOINT;
             WID_RAT_BUILD_STATION; WID_RAT_BUILD_SIGNALS] then
    (* Removal button is enabled only if the rail/signal/waypoint/station
       button is still lowered.  Once raised, it has to be disabled *)
    SetWidgetDisabledState this WID_RAT_REMOVE (negb (IsWidgetLowered this clicked_widget))
  else
    (* When any other buttons than rail/signal/waypoint/station, raise and
       disable the removal button *)
    RaiseWidget (DisableWidget this WID_RAT_REMOVE) WID_RAT_REMOVE.

(** ** Rails around a tile *)

(** One turn of the loop of [FindRailsToConnect]. *)
Definition FindRailsToConnect_step (w : W) (t : TileIndex) (acc : Z * Z) (ddir : Z) : Z * Z :=
  let '(directed, passing) := acc in
  let cur_tile := TileAddByDiagDir t ddir in
  if HasStationTileRail w cur_tile then
    if negb (Z.land (GetRailStationTrackBits w cur_tile) (DiagdirReachesTracks ddir) =? 0)
    then (Z.lor directed (DiagDirToRoadBits ddir), passing)
    else (directed, passing)
  else if negb (IsTileType w cur_tile MP_RAILWAY) then (directed, passing)
  else if negb (IsPlainRail w cur_tile) then (directed, passing)
  else
    let passing := Z.lor passing (DiagDirToRoadBits ddir) in
    if negb (Z.land (GetTrackBits w cur_tile) (DiagdirReachesTracks ddir) =? 0)
    then (Z.lor directed (DiagDirToRoadBits ddir), passing)
    else (directed, passing).

Definition FindRailsToConnect (w : W) (t : TileIndex) : Z :=
  let '(directed, passing) :=
    fold_left (FindRailsToConnect_step w t)
      (seqZ DIAGDIR_BEGIN (DIAGDIR_END - DIAGDIR_BEGIN)) (ROAD_NONE, ROAD_NONE) in
  (* Prioritize track bits that head in this direction *)
  if negb (directed =? ROAD_NONE) then directed else passing.

(** ** The sizes of the station picker *)

Definition set_station_numtracks (n : Z) (x : Settings) : Settings :=
  {| sound_confirm := sound_confirm x; sound_click_beep := sound_click_beep x;
     gui_auto_remove_signals := gui_auto_remove_signals x;
     gui_persistent_buildingtools := gui_persistent_buildingtools x;
     gui_station_dragdrop := gui_station_dragdrop x;
     gui_station_numtracks := n;
     gui_station_platlength := gui_station_platlength x;
     gui_drag_signals_density := gui_drag_signals_density x;
     gui_cycle_signal_types := gui_cycle_signal_types x;
     gui_signal_gui_mode := gui_signal_gui_mode x;
     gui_semaphore_build_before := gui_semaphore_build_before x;
     station_station_spread := station_station_spread x |}.
Definition set_station_platlength (n : Z) (x : Settings) : Settings :=
  {| sound_confirm := sound_confirm x; sound_click_beep := sound_click_beep x;
     gui_auto_remove_signals := gui_auto_remove_signals x;
     gui_persistent_buildingtools := gui_persistent_buildingtools x;
     gui_station_dragdrop := gui_station_dragdrop x;
     gui_station_numtracks := gui_station_numtracks x;
     gui_station_platlength := n;
     gui_drag_signals_density := gui_drag_signals_density x;
     gui_cycle_signal_types := gui_cycle_signal_types x;
     gui_signal_gui_mode := gui_signal_gui_mode x;
     gui_semaphore_build_before := gui_semaphore_build_before x;
     station_station_spread := station_station_spread x |}.
Definition set_station_dragdrop (b : bool) (x : Settings) : Settings :=
  {| sound_confirm := sound_confirm x; sound_click_beep := sound_click_beep x;
     gui_auto_remove_signals := gui_auto_remove_signals x;
     gui_persistent_buildingtools := gui_persistent_buildingtools x;
     gui_station_dragdrop := b;
     gui_station_numtracks := gui_station_numtracks x;
     gui_station_platlength := gui_station_platlength x;
     gui_drag_signals_density := gui_drag_signals_density x;
     gui_cycle_signal_types := gui_cycle_signal_types x;
     gui_signal_gui_mode := gui_signal_gui_mode x;
     gui_semaphore_build_before := gui_semaphore_build_before x;
     station_station_spread := station_station_spread x |}.

(** [while (HasBit(mask, n - 1)) n++;] on [n], a byte of the settings: the
    value of [n] when the loop ends, or nothing when it has not ended within
    the fuel. *)
Fixpoint skip_disallowed (fuel : nat) (mask n : Z) : option Z :=
  match fuel with
  | O => None
  | S fuel => if HasBit mask (n - 1) then skip_disallowed fuel mask (uint8 (n + 1)) else Some n
  end.

(** One half of [CheckSelectedSize], for the number of tracks ([get], [set]
    and [first] are the setting and WID_BRAS_PLATFORM_NUM_BEGIN) or for the
    platform length.  A loop that has not ended when the fuel is spent stops
    the run. *)
Definition CheckSelectedSize_half (fuel : nat) (mask : Z) (get : Settings -> Z)
    (set : Z -> Settings -> Settings) (first : Z) (this : Window) : M Window :=
  n <- gets (fun s => get (settings s));;
  if HasBit mask (n - 1) then
    let this := RaiseWidget this (n + first) in
    modify (fun s => set_settings (set 1 (settings s)) s);;;
    if negb (mask =? UINT8_MAX) then
      match skip_disallowed fuel mask 1 with
      | Some n =>
          modify (fun s => set_settings (set n (settings s)) s);;;
          ret (LowerWidget this (n + first))
      | None => fault NotModelled
      end
    else ret this
  else ret this.

(** Verify whether the currently selected station size is allowed after
    selecting a new station class/type.  If not, change the station size
    variables. *)
Definition CheckSelectedSize (fuel : nat) (this : Window) (statspec : option StationSpec) : M Window :=
  match statspec with
  | None => ret this
  | Some spec =>
      dd <- gets (fun s => gui_station_dragdrop (settings s));;
      if dd then ret this
      else
        (* If current number of tracks is not allowed, make it as big as possible *)
        this <- CheckSelectedSize_half fuel (disallowed_platforms spec)
                  gui_station_numtracks set_station_numtracks WID_BRAS_PLATFORM_NUM_BEGIN this;;
        CheckSelectedSize_half fuel (disallowed_lengths spec)
          gui_station_platlength set_station_platlength WID_BRAS_PLATFORM_LEN_BEGIN this
  end.

(** [_railstation.newstations ? StationClass::Get(...)->GetSpec(...) : nullptr] *)
Definition current_statspec (s : State) : option StationSpec :=
  if newstations (_railstation (statics s))
  then GetSpec (world s) (station_class (_railstation (statics s)))
         (station_type (_railstation (statics s)))
  else None.

(** [for (uint i = 0; i < 7; i++) if (!HasBit(mask, i)) { ...; break; }]:
    the first i the loop stops at. *)
Definition first_allowed (mask : Z) : option Z :=
  List.find (fun i => negb (HasBit mask i)) [0; 1; 2; 3; 4; 5; 6].

(** "The previously selected number of platforms in invalid": the [if]
    with the [for] loop in it that the three size cases share, for the
    platform length ([mask] is [disallowed_lengths], [get], [set] and [first]
    are the setting and WID_BRAS_PLATFORM_LEN_BEGIN) or for the number of
    tracks.  When the selected size is not allowed, its button is raised and
    the first allowed one of 1..7 is taken, if there is one. *)
Definition reselect_size (statspec : option StationSpec) (mask : StationSpec -> Z)
    (get : Settings -> Z) (set : Z -> Settings -> Settings) (first : Z)
    (this : Window) : M Window :=
  n <- gets (fun s => get (settings s));;
  match statspec with
  | Some spec =>
      if HasBit (mask spec) (n - 1) then
        match first_allowed (mask spec) with
        | Some i =>
            modify (fun s => set_settings (set (uint8 (i + 1)) (settings s)) s);;;
            ret (RaiseWidget this (n + first))
        | None => ret this
        end
      else ret this
  | None => ret this
  end.

Definition is_num_widget (c : Z) : bool :=
  existsb (Z.eqb c)
    [WID_BRAS_PLATFORM_NUM_1; WID_BRAS_PLATFORM_NUM_2; WID_BRAS_PLATFORM_NUM_3;
     WID_BRAS_PLATFORM_NUM_4; WID_BRAS_PLATFORM_NUM_5; WID_BRAS_PLATFORM_NUM_6;
     WID_BRAS_PLATFORM_NUM_7].

Definition is_len_widget (c : Z) : bool :=
  existsb (Z.eqb c)
    [WID_BRAS_PLATFORM_LEN_1; WID_BRAS_PLATFORM_LEN_2; WID_BRAS_PLATFORM_LEN_3;
     WID_BRAS_PLATFORM_LEN_4; WID_BRAS_PLATFORM_LEN_5; WID_BRAS_PLATFORM_LEN_6;
     WID_BRAS_PLATFORM_LEN_7].

(** The end of the three size cases of the switch. *)
Definition size_click_done (this : Window) : M Window :=
  beep <- gets (fun s => sound_click_beep (settings s));;
  when beep (emit (EvSndPlayFx SND_15_BEEP));;;
  emit EvSetDirty;;;
  emit (EvCloseWindowById WC_SELECT_STATION 0);;;
  ret this.

(** [BuildRailStationWindow::OnClick]: the cases of the track number
    buttons, the platform length buttons and the drag-and-drop button.  The
    orientation buttons are in [BuildRailStationWindow_OnClick]; the other
    cases are left out. *)
Definition BuildRailStationWindow_OnClick_size (this : Window) (widget : Z) : M Window :=
  let c := GB widget 0 16 in
  if is_num_widget c then
    n <- gets (fun s => gui_station_numtracks (settings s));;
    let this := RaiseWidget this (n + WID_BRAS_PLATFORM_NUM_BEGIN) in
    let this := RaiseWidget this WID_BRAS_PLATFORM_DRAG_N_DROP in
    modify (fun s => set_settings
              (set_station_dragdrop false
                 (set_station_numtracks (uint8 (widget - WID_BRAS_PLATFORM_NUM_BEGIN)) (settings s))) s);;;
    statspec <- gets current_statspec;;
    this <- reselect_size statspec disallowed_lengths gui_station_platlength
              set_station_platlength WID_BRAS_PLATFORM_LEN_BEGIN this;;
    se <- gets settings;;
    let this := LowerWidget this (gui_station_numtracks se + WID_BRAS_PLATFORM_NUM_BEGIN) in
    let this := LowerWidget this (gui_station_platlength se + WID_BRAS_PLATFORM_LEN_BEGIN) in
    size_click_done this
  else if is_len_widget c then
    n <- gets (fun s => gui_station_platlength (settings s));;
    let this := RaiseWidget this (n + WID_BRAS_PLATFORM_LEN_BEGIN) in
    let this := RaiseWidget this WID_BRAS_PLATFORM_DRAG_N_DROP in
    modify (fun s => set_settings
              (set_station_dragdrop false
                 (set_station_platlength (uint8 (widget - WID_BRAS_PLATFORM_LEN_BEGIN)) (settings s))) s);;;
    statspec <- gets current_statspec;;
    this <- reselect_size statspec disallowed_platforms gui_station_numtracks
              set_station_numtracks WID_BRAS_PLATFORM_NUM_BEGIN this;;
    se <- gets settings;;
    let this := LowerWidget this (gui_station_numtracks se + WID_BRAS_PLATFORM_NUM_BEGIN) in
    let this := LowerWidget this (gui_station_platlength se + WID_BRAS_PLATFORM_LEN_BEGIN) in
    size_click_done this
  else if c =? WID_BRAS_PLATFORM_DRAG_N_DROP then
    modify (fun s => set_settings
              (set_station_dragdrop (xorb (gui_station_dragdrop (settings s)) true) (settings s)) s);;;
    let this := ToggleWidgetLoweredState this WID_BRAS_PLATFORM_DRAG_N_DROP in
    (* get the first allowed length/number of platforms *)
    statspec <- gets current_statspec;;
    this <- reselect_size statspec disallowed_lengths gui_station_platlength
              set_station_platlength WID_BRAS_PLATFORM_LEN_BEGIN this;;
    this <- reselect_size statspec disallowed_platforms gui_station_numtracks
              set_station_numtracks WID_BRAS_PLATFORM_NUM_BEGIN this;;
    se <- gets settings;;
    let this := SetWidgetLoweredState this
                  (gui_station_numtracks se + WID_BRAS_PLATFORM_NUM_BEGIN)
                  (negb (gui_station_dragdrop se)) in
    let this := SetWidgetLoweredState this
                  (gui_station_platlength se + WID_BRAS_PLATFORM_LEN_BEGIN)
                  (negb (gui_station_dragdrop se)) in
    size_click_done this
  else fault NotModelled.

(** ** The signal variant *)

(** Updates the current signal variant used in the signal GUI to the one
    adequate to current year.  [sigwin] is the window
    [FindWindowById(WC_BUILD_SIGNAL, 0)] finds. *)
Definition ResetSignalVariant (sigwin : option Window) : M (option Window) :=
  w <- gets world;;
  st <- gets statics;;
  se <- gets settings;;
  let new_variant :=
    if _cur_year w <? gui_semaphore_build_before se then SIG_SEMAPHORE else SIG_ELECTRIC in
  if negb (new_variant =? _cur_signal_variant st) then
    sigwin <- match sigwin with
              | Some win =>
                  emit EvSetDirty;;;
                  ret (Some (RaiseWidget win
                               ((if _cur_signal_variant st =? SIG_ELECTRIC
                                 then WID_BS_ELECTRIC_NORM else WID_BS_SEMAPHORE_NORM)
                                + _cur_signal_type st)))
              | None => ret None
              end;;
    modify (fun s => set_statics (set_cur_signal new_variant (_cur_signal_type (statics s)) (statics s)) s);;;
    ret sigwin
  else ret sigwin.

End Program_rest.


(** ** Vocabulary of the further properties *)

Section Vocabulary_rest.
Context {Hdr : Headers} {Eng : Engine} {HdrX : HeadersExt} {EngX : EngineExt}.

(** The track, the two tiles and the command of a drag of the autorail
    tools, as [HandleAutodirPlacement] reads them off the tile highlight. *)
Definition autodir_track (s : State) : Z :=
  Z.land (_thd_drawstyle (world s)) HT_DIR_MASK.
Definition autodir_start (s : State) : TileIndex :=
  TileVirtXY (fst (_thd_selstart (world s))) (snd (_thd_selstart (world s))).
Definition autodir_end (s : State) : TileIndex :=
  TileVirtXY (fst (_thd_selend (world s))) (snd (_thd_selend (world s))).
Definition autodir_command (s : State) : CommandContainer :=
  if negb (Z.land (_thd_drawstyle (world s)) HT_RAIL =? 0)
  then GenericPlaceRailCmd s (autodir_end s) (autodir_track s)
  else DoRailroadTrackCmd s (autodir_start s) (autodir_end s) (autodir_track s).

(** Every snap point among the events is the one of this drag: it starts at
    [start], is for [track], and its end is a tile. *)
Definition snap_points_of (start : TileIndex) (track : Z) (added : list Event) : Prop :=
  forall st e tr f,
    In (EvStoreRailPlacementEndpoints st e tr f) added ->
    st = start /\ tr = track /\ f = true /\ e <> INVALID_TILE.

(** The twelve signal buttons, and the one that stands for the current
    signal variant and type. *)
Definition signal_group : list Z :=
  [WID_BS_SEMAPHORE_NORM; WID_BS_SEMAPHORE_ENTRY; WID_BS_SEMAPHORE_EXIT;
   WID_BS_SEMAPHORE_COMBO; WID_BS_SEMAPHORE_PBS; WID_BS_SEMAPHORE_PBS_OWAY;
   WID_BS_ELECTRIC_NORM; WID_BS_ELECTRIC_ENTRY; WID_BS_ELECTRIC_EXIT;
   WID_BS_ELECTRIC_COMBO; WID_BS_ELECTRIC_PBS; WID_BS_ELECTRIC_PBS_OWAY].

Definition signal_button (s : State) : Z :=
  (if _cur_signal_variant (statics s) =? SIG_ELECTRIC
   then WID_BS_ELECTRIC_NORM else WID_BS_SEMAPHORE_NORM)
  + _cur_signal_type (statics s).

(** Of the signal buttons exactly the one of the current variant and type is
    lowered. *)
Definition signal_selected (this : Window) (s : State) : Prop :=
  lowered_among this signal_group = [signal_button s].

(** The buttons of the rail toolbar that Ctrl may switch to removing: the
    widgets from WID_RAT_BUILD_NS to WID_RAT_BUILD_STATION, those between
    WID_RAT_POLYRAIL and WID_RAT_BUILD_WAYPOINT left out. *)
Definition ctrl_tool (i : Z) : Prop :=
  WID_RAT_BUILD_NS <= i <= WID_RAT_BUILD_STATION /\
  (i <= WID_RAT_POLYRAIL \/ WID_RAT_BUILD_WAYPOINT <= i).

(** The buttons [UpdateRemoveWidgetStatus] lets the remove button go with. *)
Definition remove_tools : list Z :=
  [WID_RAT_BUILD_NS; WID_RAT_BUILD_X; WID_RAT_BUILD_EW; WID_RAT_BUILD_Y;
   WID_RAT_AUTORAIL; WID_RAT_POLYRAIL; WID_RAT_BUILD_WAYPOINT;
   WID_RAT_BUILD_STATION; WID_RAT_BUILD_SIGNALS].

(** A number of tracks, or a platform length, that a station
    specification's mask allows; how [CheckSelectedSize] settles one of the
    two sizes: an allowed one is kept, with every size disallowed it ends
    at 1, otherwise at the smallest allowed one. *)
Definition size_allowed (mask n : Z) : bool := negb (HasBit mask (n - 1)).

Definition size_settled (mask old new : Z) : Prop :=
  (size_allowed mask old = true -> new = old) /\
  (size_allowed mask old = false -> mask = UINT8_MAX -> new = 1) /\
  (size_allowed mask old = false -> mask <> UINT8_MAX ->
   1 <= new <= 8 /\ size_allowed mask new = true /\
   forall m, 1 <= m < new -> size_allowed mask m = false).

(** The size buttons of the station picker show the settings: the
    drag-and-drop button is lowered when drag and drop is on, and then no size
    button is; otherwise exactly the buttons of the number of tracks and of
    the platform length are. *)
Definition station_size_buttons (this : Window) (s : State) : Prop :=
  let se := settings s in
  1 <= gui_station_numtracks se <= 7 /\
  1 <= gui_station_platlength se <= 7 /\
  IsWidgetLowered this WID_BRAS_PLATFORM_DRAG_N_DROP = gui_station_dragdrop se /\
  (forall k, 1 <= k <= 7 ->
     IsWidgetLowered this (k + WID_BRAS_PLATFORM_NUM_BEGIN) =
     negb (gui_station_dragdrop se) && (k =? gui_station_numtracks se)) /\
  (forall k, 1 <= k <= 7 ->
     IsWidgetLowered this (k + WID_BRAS_PLATFORM_LEN_BEGIN) =
     negb (gui_station_dragdrop se) && (k =? gui_station_platlength se)).

(** What the size clicks do to a size the station specification does not
    allow: with no specification, or when the size is allowed, or when none of
    1..7 is, it stays; otherwise it becomes the smallest allowed of 1..7. *)
Definition size_reselected (spec : option Z) (old new : Z) : Prop :=
  match spec with
  | None => new = old
  | Some mask =>
      (size_allowed mask old = true -> new = old) /\
      (size_allowed mask old = false ->
       (forall m, 1 <= m <= 7 -> size_allowed mask m = false) -> new = old) /\
      (size_allowed mask old = false ->
       (exists m, 1 <= m <= 7 /\ size_allowed mask m = true) ->
       1 <= new <= 7 /\ size_allowed mask new = true /\
       forall m, 1 <= m < new -> size_allowed mask m = false)
  end.

(** The neighbour of [t] in direction [ddir] carries rail that reaches the
    edge towards [t]: a rail station tile, or plain rail on a railway tile.
    [passes_by]: the neighbour is a railway tile with plain rail and no rail
    station tile. *)
Definition heads_here (w : W) (t : TileIndex) (ddir : Z) : bool :=
  let cur_tile := TileAddByDiagDir t ddir in
  if HasStationTileRail w cur_tile
  then negb (Z.land (GetRailStationTrackBits w cur_tile) (DiagdirReachesTracks ddir) =? 0)
  else IsTileType w cur_tile MP_RAILWAY && IsPlainRail w cur_tile
       && negb (Z.land (GetTrackBits w cur_tile) (DiagdirReachesTracks ddir) =? 0).

Definition passes_by (w : W) (t : TileIndex) (ddir : Z) : bool :=
  let cur_tile := TileAddByDiagDir t ddir in
  negb (HasStationTileRail w cur_tile)
  && IsTileType w cur_tile MP_RAILWAY && IsPlainRail w cur_tile.

(** The road bits of a list of directions. *)
Definition road_bits_of (dirs : list Z) : Z :=
  fold_right (fun d bits => Z.lor (DiagDirToRoadBits d) bits) ROAD_NONE dirs.

End Vocabulary_rest.


(** ** A concrete host for the rest of the file

    The sample host again, with a tile highlight, a station specification
    and rail station tiles next to what it had. *)

#[refine] Instance sample_headers_ext : @HeadersExt sample_headers := {|
  HT_RAIL := 128; HT_POLY := 1024; HT_DIR_MASK := 7;
  DIAGDIR_BEGIN := 0; ROAD_NONE := 0;
  WID_RAT_BUILD_NS := 1; WID_RAT_BUILD_X := 2; WID_RAT_BUILD_EW := 3; WID_RAT_BUILD_Y := 4;
  WID_RAT_AUTORAIL := 5; WID_RAT_POLYRAIL := 6; WID_RAT_BUILD_WAYPOINT := 10;
  WID_RAT_BUILD_SIGNALS := 12;
  WID_BRAS_PLATFORM_NUM_BEGIN := 3;
  WID_BRAS_PLATFORM_NUM_1 := 4; WID_BRAS_PLATFORM_NUM_2 := 5; WID_BRAS_PLATFORM_NUM_3 := 6;
  WID_BRAS_PLATFORM_NUM_4 := 7; WID_BRAS_PLATFORM_NUM_5 := 8; WID_BRAS_PLATFORM_NUM_6 := 9;
  WID_BRAS_PLATFORM_NUM_7 := 10;
  WID_BRAS_PLATFORM_LEN_BEGIN := 10;
  WID_BRAS_PLATFORM_LEN_1 := 11; WID_BRAS_PLATFORM_LEN_2 := 12; WID_BRAS_PLATFORM_LEN_3 := 13;
  WID_BRAS_PLATFORM_LEN_4 := 14; WID_BRAS_PLATFORM_LEN_5 := 15; WID_BRAS_PLATFORM_LEN_6 := 16;
  WID_BRAS_PLATFORM_LEN_7 := 17;
  WID_BRAS_PLATFORM_DRAG_N_DROP := 18;
|}.
Proof. all: abstract (repeat split; (reflexivity || discriminate || lia)). Defined.

Record SampleWorldX := {
  sx_host : SampleWorld;
  sx_drawstyle : Z;
  sx_place_mode : Z;
  sx_poly_terra : bool;
  sx_selstart : Z * Z;
  sx_selend : Z * Z;
  sx_spec : option StationSpec;
  (* the track bits of the tiles that are rail station tiles *)
  sx_station : TileIndex -> option Z;
}.

Definition sx_with_host (w : SampleWorldX) (h : SampleWorld) : SampleWorldX :=
  {| sx_host := h; sx_drawstyle := sx_drawstyle w; sx_place_mode := sx_place_mode w;
     sx_poly_terra := sx_poly_terra w; sx_selstart := sx_selstart w; sx_selend := sx_selend w;
     sx_spec := sx_spec w; sx_station := sx_station w |}.

#[refine] Instance sample_engine_x : @Engine sample_headers | 100 := {|
  W := SampleWorldX;
  TileX := @TileX _ sample_engine;
  TileY := @TileY _ sample_engine;
  TILE_ADDXY := @TILE_ADDXY _ sample_engine;
  TileOffsByDiagDir := @TileOffsByDiagDir _ sample_engine;
  TileHeight := fun w => sw_height (sx_host w);
  IsTileType := fun w t ty => sw_tile_type (sx_host w) t =? ty;
  GetRailTileType := fun w t => 0;
  GetTrackBits := fun w => sw_trackbits (sx_host w);
  GetTileTrackBits := fun w => sw_trackbits (sx_host w);
  DiagdirReachesTracks := @DiagdirReachesTracks _ sample_engine;
  FindFirstTrack := sample_FindFirstTrack;
  GB := @GB _ sample_engine;
  SB := @SB _ sample_engine;
  ChangeDiagDir := @ChangeDiagDir _ sample_engine;
  OtherAxis := @OtherAxis _ sample_engine;
  _cur_year := fun _ => 1950;
  _tile_fract_coords := fun w => sw_fract (sx_host w);
  _rail_track_endtile := fun w => sw_endtile (sx_host w);
  _build_tunnel_endtile := fun w => sw_tunnel_endtile (sx_host w);
  _thd_cm_poly_dir := fun w => sw_poly_dir (sx_host w);
  _fn_mod := fun _ => false;
  _estimate_mod := fun w => sw_estimate (sx_host w);
  signal_window_open := fun _ => false;
  engine_DoCommand := fun w t a b flags c =>
    (if c =? 100 then {| Succeeded := sw_level_ok (sx_host w) t; GetErrorMessage := 0 |}
     else sw_test (sx_host w), w);
  engine_DoCommandP := fun w c => (sw_exec_ok (sx_host w), w);
  engine_DoCommandWithCallback := fun w c k => (sw_exec_ok (sx_host w), w);
|}.
Proof.
  - abstract (exact (@ChangeDiagDir_range _ sample_engine)).
  - abstract (exact (@OtherAxis_range _ sample_engine)).
  - abstract (exact (@GB_low16 _ sample_engine)).
Defined.

#[refine] Instance sample_engine_ext : @EngineExt sample_headers sample_headers_ext sample_engine_x :=
  @Build_EngineExt sample_headers sample_headers_ext sample_engine_x
    (* _thd.drawstyle, place_mode, cm_poly_terra, selstart, selend *)
    sx_drawstyle sx_place_mode sx_poly_terra sx_selstart sx_selend
    (* TileVirtXY *)
    (fun x y => Z.shiftl (Z.shiftr y 4) 8 + Z.shiftr x 4)
    (* HasBit *)
    Z.testbit
    (* GetSpec *)
    (fun w _ _ => sx_spec w)
    (* TileAddByDiagDir *)
    (fun t d => t + nth (Z.to_nat d) [-1; 256; 1; -256] 0)
    (* HasStationTileRail, GetRailStationTrackBits, IsPlainRail *)
    (fun w t => bool_decide (is_Some (sx_station w t)))
    (fun w t => default 0 (sx_station w t))
    (fun _ _ => true)
    (* DiagDirToRoadBits *)
    (fun d => Z.shiftl 1 (Z.lxor 3 d))
    _ _.
Proof.
  - abstract reflexivity.
  - abstract (intros d Hd; simpl in Hd;
              assert (d = 0 \/ d = 1 \/ d = 2 \/ d = 3) as [-> | [-> | [-> | ->]]] by lia;
              discriminate).
Defined.

(** A polyline drag from tile 0 to tile 257 over track that is there
    already: the test run answers "already built" and moves the end of the
    track to tile 7. *)
Definition sample_world_x : SampleWorldX := {|
  sx_host := {|
    sw_height := sw_height sample_world;
    sw_level_ok := fun _ => false;
    sw_test := failed_cost;
    sw_exec_ok := true;
    sw_tile_type := fun t => if t =? 256 then 1 else 0;
    sw_trackbits := fun _ => 1;
    sw_fract := (15, 0);
    sw_endtile := 7;
    sw_tunnel_endtile := 9;
    sw_poly_dir := TRACKDIR_LEFT_N;
    sw_estimate := false |};
  sx_drawstyle := 4;
  sx_place_mode := 1024 + 128;
  sx_poly_terra := false;
  sx_selstart := (0, 0);
  sx_selend := (16, 16);
  (* only eight platforms are allowed; a length of five is not *)
  sx_spec := Some {| disallowed_platforms := 127; disallowed_lengths := 16 |};
  sx_station := fun t => if t =? 1 then Some 1 else None;
|}.

Definition sample_statics_x : Statics := {|
  _cur_railtype := 2; _remove_button_clicked := false; _cm_invert_remove := false;
  _build_depot_direction := 4; _convert_signal_button := false;
  _cur_signal_variant := 0; _cur_signal_type := 0;
  _railstation := {| orientation := 0; newstations := true; station_class := 1;
                     station_type := 0; station_count := 1 |};
|}.

Definition sample_settings_x : Settings := {|
  sound_confirm := true; sound_click_beep := false; gui_auto_remove_signals := true;
  gui_persistent_buildingtools := true; gui_station_dragdrop := false;
  gui_station_numtracks := 2; gui_station_platlength := 5; gui_drag_signals_density := 4;
  gui_cycle_signal_types := 0; gui_signal_gui_mode := 0; gui_semaphore_build_before := 1950;
  station_station_spread := 12;
|}.

Definition sample_state_x : @State sample_headers sample_engine_x :=
  @Build_State sample_headers sample_engine_x
    sample_world_x sample_statics_x sample_settings_x None [].

(** * Properties *)

Section Properties.
Context {Hdr : Headers} {Eng : Engine}.

(** Steps through the monad. *)
Ltac step :=
  unfold bind, ret, gets, modify, emit, when, fault; simpl.

Lemma trace_log (e : Event) (s : State) : trace (log e s) = trace s ++ [e].
Proof. reflexivity. Qed.

Lemma index_lookup {A} (table : list A) (i : Z) (x : A) (s : State) :
  0 <= i -> table !! Z.to_nat i = Some x -> index table i s = Ok x s.
Proof.
  intros Hi Hx. unfold index.
  destruct (i <? 0) eqn:Hneg; [apply Z.ltb_lt in Hneg; lia |].
  rewrite Hx. reflexivity.
Qed.

Lemma PlaceExtraDepotRail_ok (t dir track : Z) (s : State) :
  exists s', PlaceExtraDepotRail t dir track s = Ok tt s'.
Proof.
  unfold PlaceExtraDepotRail, DoCommandP. step.
  destruct (GetRailTileType (world s) t =? RAIL_TILE_DEPOT); [eauto |].
  destruct ((GetRailTileType (world s) t =? RAIL_TILE_SIGNALS) && _); [eauto |].
  destruct (Z.land _ _ =? 0); [eauto |].
  destruct (engine_DoCommandP _ _) as [r w']. eauto.
Qed.

(** C5.  When the result reports failure, the four callbacks that are given
    a result do none of their success actions: [CcPlaySound_CONSTRUCTION_RAIL],
    [CcRailDepot] and [CcStation] leave the state and the trace as they were
    (no sound, no extra depot rail, no endpoints stored, no tool reset), and
    [CcBuildRailTunnel] does one thing only, it puts the red error square on
    [_build_tunnel_endtile].  The [rail_callback] lambda, the callback chained
    to a level command, is not like them: what it does is the same whatever
    outcome it is given.  It tests the track command, submits it unless the
    test says the track is built already and names an end tile, and stores
    the rail-placement endpoints unless the submission failed, estimate mode
    is on or no end tile is known; the outcome only shows in its answer,
    which is false when it is given false. *)
Theorem callbacks_on_failure (cb : CommandCallback) (result : CommandCost)
    (t : TileIndex) (a b c : Z) (m : M unit) (s : State) (k : RailCallback) :
  let rc := rc_rail_cmd k in
  let flags := Z.lor DC_AUTO DC_NO_WATER in
  let test := engine_DoCommand (world s) (tile rc) (p1 rc) (p2 rc) flags (cmd rc) in
  let overbuilt :=
    (GetErrorMessage (fst test) =? STR_ERROR_ALREADY_BUILT)
    && negb (_rail_track_endtile (snd test) =? INVALID_TILE) in
  let submit := engine_DoCommandP (snd test) rc in
  let stored w :=
    if negb (rc_estimate k) && negb (_rail_track_endtile w =? INVALID_TILE)
    then [EvStoreRailPlacementEndpoints (rc_start_tile k) (_rail_track_endtile w) (rc_track k) true]
    else [] in
  (Succeeded result = false ->
   run_callback cb result t a b c = Some m ->
   m s = Ok tt (match cb with
                | cb_CcBuildRailTunnel => log (EvSetRedErrorSquare (_build_tunnel_endtile (world s))) s
                | _ => s
                end)) /\
  (exists s',
     (forall res, rail_callback k res s = Ok ((overbuilt || fst submit) && res) s') /\
     rail_callback k false s = Ok false s' /\
     trace s' = trace s ++
       EvDoCommand (tile rc) (p1 rc) (p2 rc) flags (cmd rc)
       :: (if overbuilt then stored (snd test)
           else EvDoCommandP rc :: (if fst submit then stored (snd submit) else []))).
Proof.
  intros rc flags test overbuilt submit stored. split.
  - intros Hfail Hcb.
    destruct cb; simpl in Hcb; inversion Hcb; subst m; clear Hcb.
    + unfold CcPlaySound_CONSTRUCTION_RAIL. step. rewrite Hfail. reflexivity.
    + unfold CcRailDepot, Failed. rewrite Hfail. reflexivity.
    + unfold CcStation, Failed. rewrite Hfail. reflexivity.
    + unfold CcBuildRailTunnel. step. rewrite Hfail. reflexivity.
  - subst stored submit overbuilt.
    unfold rail_callback, DoCommand, DoCommandP. step.
    fold rc. fold flags. fold test. destruct test as [r w1]. simpl.
    destruct (GetErrorMessage r =? STR_ERROR_ALREADY_BUILT);
      destruct (_rail_track_endtile w1 =? INVALID_TILE) eqn:Hend; simpl.
    2: { rewrite Hend.
         destruct (rc_estimate k); simpl;
           eexists; (split; [intros res; destruct res; reflexivity |]);
           (split; [reflexivity |]); simpl; rewrite <- ?app_assoc; reflexivity. }
    all: destruct (engine_DoCommandP w1 rc) as [ok w2]; simpl;
      destruct ok; simpl;
      [destruct (rc_estimate k); simpl;
       [| destruct (_rail_track_endtile w2 =? INVALID_TILE); simpl] |];
      eexists; (split; [intros res; destruct res; reflexivity |]);
      (split; [reflexivity |]); simpl; rewrite <- ?app_assoc; reflexivity.
Qed.

(** C9.  For a depot direction 0..3 the indices dir, dir + 4 and dir + 8 lie
    inside both twelve-element tables, and [CcRailDepot] called with such a
    [p2] never reads past one of them: it runs to its end. *)
Theorem CcRailDepot_tables_in_bounds (dir : Z) :
  0 <= dir <= 3 ->
  length _place_depot_extra_track = 12%nat /\
  length _place_depot_extra_dir = 12%nat /\
  (forall k, In k [0; 4; 8] ->
     is_Some (_place_depot_extra_track !! Z.to_nat (dir + k)) /\
     is_Some (_place_depot_extra_dir !! Z.to_nat (dir + k))) /\
  (forall result t a c s, exists s', CcRailDepot result t a dir c s = Ok tt s').
Proof.
  intros Hdir.
  assert (dir = 0 \/ dir = 1 \/ dir = 2 \/ dir = 3) as Hcases.
  { lia. }
  split; [reflexivity |]. split; [reflexivity |]. split.
  - intros k Hk. simpl in Hk.
    destruct Hk as [<- | [<- | [<- | []]]];
      destruct Hcases as [-> | [-> | [-> | ->]]]; split; eexists; reflexivity.
  - intros result t a c s. unfold CcRailDepot.
    destruct (Failed result); [eexists; reflexivity |].
    step.
    destruct (sound_confirm (settings s)); simpl;
      (destruct (gui_persistent_buildingtools (settings s)); simpl);
      (destruct (IsTileType _ _ _); [| eauto]);
      destruct Hcases as [-> | [-> | [-> | ->]]]; simpl;
      repeat match goal with
         | |- context [PlaceExtraDepotRail ?x ?y ?z ?st] =>
             let s' := fresh "s" in
             let H := fresh "H" in
             destruct (PlaceExtraDepotRail_ok x y z st) as [s' H]; rewrite H; simpl
         end; eauto.
Qed.


(** *** The remove toggle *)

Lemma IsWidgetLowered_toggle_other (w : Window) (r i : Z) :
  i <> r -> IsWidgetLowered (ToggleWidgetLoweredState w r) i = IsWidgetLowered w i.
Proof.
  intros Hne. unfold ToggleWidgetLoweredState, SetWidgetLoweredState, IsWidgetLowered.
  destruct (negb _); simpl; apply bool_decide_ext; set_solver.
Qed.

Lemma IsWidgetLowered_toggle_same (w : Window) (r : Z) :
  IsWidgetLowered (ToggleWidgetLoweredState w r) r = negb (IsWidgetLowered w r).
Proof.
  unfold ToggleWidgetLoweredState, SetWidgetLoweredState.
  destruct (IsWidgetLowered w r) eqn:Hl; simpl; unfold IsWidgetLowered; simpl.
  - apply bool_decide_eq_false. set_solver.
  - apply bool_decide_eq_true. set_solver.
Qed.

Lemma ToggleRailButton_Remove_run (w : Window) (s : State) :
  let b := negb (IsWidgetLowered w WID_RAT_REMOVE) in
  ToggleRailButton_Remove w s =
    Ok (ToggleWidgetLoweredState w WID_RAT_REMOVE)
       (log (EvSetSelectionRed b)
          (set_statics (set_remove_button_clicked b (statics s))
             (log (EvSetWidgetDirty WID_RAT_REMOVE)
                (log (EvCloseWindowById WC_SELECT_STATION 0) s)))).
Proof.
  unfold ToggleRailButton_Remove. step.
  rewrite IsWidgetLowered_toggle_same. reflexivity.
Qed.

(** C4.  The single-rail and the railroad-track command records carry the
    remove opcode when [_remove_button_clicked] is set and the build opcode
    when it is clear, with the same tile, p1 and p2 either way.  Toggling
    the remove button sets the flag to the new state of that button, leaves
    every other widget of the toolbar as lowered or raised as it was, and
    leaves the other variables, the settings and the world alone; it does
    three things more: it closes the station selection window, redraws the
    button and sets the selection colour.  The click proc of the button does
    nothing when the button is disabled; otherwise it toggles as said, then
    beeps when the click beep is on, and, when the station tool is lowered,
    sets the selection size (1 x 1 for removal, the station's size for
    building) or, with drag and drop, the sizing limit (none for removal,
    the station spread for building). *)
Theorem remove_toggle_changes_opcode_only (s : State) (t : TileIndex) (c : Z)
    (start_tile end_tile : TileIndex) (track : Z) (w : Window) :
  let on := set_statics (set_remove_button_clicked true (statics s)) s in
  let off := set_statics (set_remove_button_clicked false (statics s)) s in
  let now := negb (IsWidgetLowered w WID_RAT_REMOVE) in
  let w' := ToggleWidgetLoweredState w WID_RAT_REMOVE in
  let toggled := [EvCloseWindowById WC_SELECT_STATION 0;
                  EvSetWidgetDirty WID_RAT_REMOVE;
                  EvSetSelectionRed now] in
  let se := settings s in
  let beep := if sound_click_beep se then [EvSndPlayFx SND_15_BEEP] else [] in
  let station :=
    if IsWidgetLowered w' WID_RAT_BUILD_STATION then
      [if now then
         if gui_station_dragdrop se then EvVpSetPlaceSizingLimit (-1)
         else EvSetTileSelectSize 1 1
       else
         if gui_station_dragdrop se then EvVpSetPlaceSizingLimit (station_station_spread se)
         else if orientation (_railstation (statics s)) =? 0
              then EvSetTileSelectSize (gui_station_platlength se) (gui_station_numtracks se)
              else EvSetTileSelectSize (gui_station_numtracks se) (gui_station_platlength se)]
    else [] in
  (cmd (GenericPlaceRailCmd on t c) =
     Z.lor CMD_REMOVE_SINGLE_RAIL (CMD_MSG STR_ERROR_CAN_T_REMOVE_RAILROAD_TRACK) /\
   cmd (GenericPlaceRailCmd off t c) =
     Z.lor CMD_BUILD_SINGLE_RAIL (CMD_MSG STR_ERROR_CAN_T_BUILD_RAILROAD_TRACK) /\
   tile (GenericPlaceRailCmd on t c) = tile (GenericPlaceRailCmd off t c) /\
   p1 (GenericPlaceRailCmd on t c) = p1 (GenericPlaceRailCmd off t c) /\
   p2 (GenericPlaceRailCmd on t c) = p2 (GenericPlaceRailCmd off t c)) /\
  (cmd (DoRailroadTrackCmd on start_tile end_tile track) =
     Z.lor CMD_REMOVE_RAILROAD_TRACK (CMD_MSG STR_ERROR_CAN_T_REMOVE_RAILROAD_TRACK) /\
   cmd (DoRailroadTrackCmd off start_tile end_tile track) =
     Z.lor CMD_BUILD_RAILROAD_TRACK (CMD_MSG STR_ERROR_CAN_T_BUILD_RAILROAD_TRACK) /\
   tile (DoRailroadTrackCmd on start_tile end_tile track) =
     tile (DoRailroadTrackCmd off start_tile end_tile track) /\
   p1 (DoRailroadTrackCmd on start_tile end_tile track) =
     p1 (DoRailroadTrackCmd off start_tile end_tile track) /\
   p2 (DoRailroadTrackCmd on start_tile end_tile track) =
     p2 (DoRailroadTrackCmd off start_tile end_tile track)) /\
  (exists s',
     ToggleRailButton_Remove w s = Ok w' s' /\
     (forall i, i <> WID_RAT_REMOVE -> IsWidgetLowered w' i = IsWidgetLowered w i) /\
     IsWidgetLowered w' WID_RAT_REMOVE = now /\
     disabled w' = disabled w /\
     statics s' = set_remove_button_clicked now (statics s) /\
     _remove_button_clicked (statics s') = IsWidgetLowered w' WID_RAT_REMOVE /\
     settings s' = settings s /\ world s' = world s /\
     trace s' = trace s ++ toggled) /\
  (IsWidgetDisabled w WID_RAT_REMOVE = true ->
   BuildRailClick_Remove w s = Ok w s) /\
  (IsWidgetDisabled w WID_RAT_REMOVE = false ->
   exists s',
     BuildRailClick_Remove w s = Ok w' s' /\
     statics s' = set_remove_button_clicked now (statics s) /\
     _remove_button_clicked (statics s') = IsWidgetLowered w' WID_RAT_REMOVE /\
     settings s' = settings s /\ world s' = world s /\
     trace s' = trace s ++ toggled ++ beep ++ station).
Proof.
  intros on off now w' toggled se beep station.
  assert (Hsame : IsWidgetLowered w' WID_RAT_REMOVE = now)
    by apply IsWidgetLowered_toggle_same.
  split; [repeat split |]. split; [repeat split |]. split; [| split].
  - eexists. split; [apply ToggleRailButton_Remove_run |].
    split; [intros i Hi; apply IsWidgetLowered_toggle_other; exact Hi |].
    split; [exact Hsame |].
    split; [unfold w', ToggleWidgetLoweredState, SetWidgetLoweredState; destruct (negb _); reflexivity |].
    split; [reflexivity |].
    split; [simpl; symmetry; exact Hsame |].
    split; [reflexivity |]. split; [reflexivity |].
    simpl. rewrite <- !app_assoc. reflexivity.
  - intros Hdis. unfold BuildRailClick_Remove. rewrite Hdis. reflexivity.
  - intros Hdis. unfold BuildRailClick_Remove. rewrite Hdis.
    unfold bind at 1. rewrite ToggleRailButton_Remove_run.
    fold w' now. subst toggled beep station se.
    step.
    destruct (sound_click_beep (settings s)); simpl;
      (destruct (IsWidgetLowered w' WID_RAT_BUILD_STATION); simpl;
       [destruct now; simpl;
        (destruct (gui_station_dragdrop (settings s)); simpl;
         [| try destruct (orientation _ =? 0); simpl]) |]);
      eexists; (split; [reflexivity |]);
      (split; [reflexivity |]); (split; [simpl; symmetry; exact Hsame |]);
      (split; [reflexivity |]); (split; [reflexivity |]);
      simpl; rewrite <- ?app_assoc; reflexivity.
Qed.

(** C6.  Whatever tool was active, after [OnPlaceObjectAbort] no widget of
    the rail toolbar is lowered, and the remove button is raised and
    disabled. *)
Theorem OnPlaceObjectAbort_terminal_state (this : Window) (s : State) :
  exists this' s',
    BuildRailToolbarWindow_OnPlaceObjectAbort this s = Ok this' s' /\
    (forall i, IsWidgetLowered this' i = false) /\
    IsWidgetLowered this' WID_RAT_REMOVE = false /\
    IsWidgetDisabled this' WID_RAT_REMOVE = true.
Proof.
  unfold BuildRailToolbarWindow_OnPlaceObjectAbort. step.
  destruct (IsWidgetLowered this WID_RAT_BUILD_STATION); simpl;
    (eexists _, _; split; [reflexivity |]);
    (split; [intros i; apply bool_decide_eq_false; simpl; set_solver |]);
    (split; [apply bool_decide_eq_false; simpl; set_solver |]);
    apply bool_decide_eq_true; simpl; set_solver.
Qed.


(** *** The density of dragged signals *)

Lemma BuildSignalWindow_OnInvalidateData_state (this : Window) (s : State) :
  exists this', BuildSignalWindow_OnInvalidateData this s = Ok this' s.
Proof. unfold BuildSignalWindow_OnInvalidateData. step. eauto. Qed.

Lemma BuildSignalWindow_OnClick_density (this : Window) (widget : Z) (s : State) :
  exists this' s',
    BuildSignalWindow_OnClick this widget s = Ok this' s' /\
    (density s' = density s \/
     (widget = WID_BS_DRAG_SIGNALS_DENSITY_DECREASE /\ density s > 1 /\
      density s' = uint8 (density s - 1)) \/
     (widget = WID_BS_DRAG_SIGNALS_DENSITY_INCREASE /\ density s < 20 /\
      density s' = uint8 (density s + 1))).
Proof.
  unfold BuildSignalWindow_OnClick, BuildSignalWindow_OnInvalidateData, density.
  destruct (is_signal_widget widget).
  { unfold ToggleRailButton_Remove. step.
    destruct (_remove_button_clicked (statics s)); simpl;
      [destruct (toolbar s) as [w |]; simpl |];
      eexists _, _; (split; [reflexivity | left; reflexivity]). }
  destruct (widget =? WID_BS_CONVERT).
  { step. eexists _, _. split; [reflexivity | left; reflexivity]. }
  destruct (widget =? WID_BS_DRAG_SIGNALS_DENSITY_DECREASE) eqn:Hdec.
  { apply Z.eqb_eq in Hdec. step.
    destruct (gui_drag_signals_density (settings s) >? 1) eqn:Hgt; simpl.
    - eexists _, _. split; [reflexivity |]. right; left.
      split; [exact Hdec |]. split; [apply Z.gtb_lt in Hgt; lia | reflexivity].
    - eexists _, _. split; [reflexivity | left; reflexivity]. }
  destruct (widget =? WID_BS_DRAG_SIGNALS_DENSITY_INCREASE) eqn:Hinc.
  { apply Z.eqb_eq in Hinc. step.
    destruct (gui_drag_signals_density (settings s) <? 20) eqn:Hlt; simpl.
    - eexists _, _. split; [reflexivity |]. right; right.
      split; [exact Hinc |]. split; [apply Z.ltb_lt in Hlt; lia | reflexivity].
    - eexists _, _. split; [reflexivity | left; reflexivity]. }
  step. eexists _, _. split; [reflexivity | left; reflexivity].
Qed.

(** C10.  A click on the signal window leaves the drag-signals density as it
    is, or takes one off it (the decrease button, and only when it is above
    1), or adds one to it (the increase button, and only when it is below
    20); so a density in 1..20 is in 1..20 after any run of clicks. *)
Theorem drag_signals_density_stays_in_range (widgets : list Z) (this : Window) (s : State) :
  1 <= density s <= 20 ->
  (forall widget, exists this' s',
     BuildSignalWindow_OnClick this widget s = Ok this' s' /\
     (density s' = density s \/
      (widget = WID_BS_DRAG_SIGNALS_DENSITY_DECREASE /\ density s > 1 /\
       density s' = density s - 1) \/
      (widget = WID_BS_DRAG_SIGNALS_DENSITY_INCREASE /\ density s < 20 /\
       density s' = density s + 1))) /\
  (exists this' s',
     BuildSignalWindow_clicks this widgets s = Ok this' s' /\ 1 <= density s' <= 20).
Proof.
  intros Hd. split.
  - intros widget.
    destruct (BuildSignalWindow_OnClick_density this widget s) as (this' & s' & Hrun & Hstep).
    exists this', s'. split; [exact Hrun |].
    destruct Hstep as [Heq | [(Hw & Hgt & Heq) | (Hw & Hlt & Heq)]].
    + left; exact Heq.
    + right; left. repeat split; try assumption.
      rewrite Heq. unfold uint8. apply Z.mod_small. lia.
    + right; right. repeat split; try assumption.
      rewrite Heq. unfold uint8. apply Z.mod_small. lia.
  - revert this s Hd. induction widgets as [| widget rest IH]; intros this s Hd.
    + exists this, s. split; [reflexivity | exact Hd].
    + destruct (BuildSignalWindow_OnClick_density this widget s) as (this' & s' & Hrun & Hstep).
      assert (Hd' : 1 <= density s' <= 20).
      { destruct Hstep as [Heq | [(_ & Hgt & Heq) | (_ & Hlt & Heq)]]; rewrite Heq; [lia | |];
          unfold uint8; rewrite Z.mod_small; lia. }
      destruct (IH this' s' Hd') as (this'' & s'' & Hrest & Hd'').
      exists this'', s''. split; [| exact Hd''].
      simpl. unfold bind. rewrite Hrun. exact Hrest.
Qed.


(** *** Signals on parallel tracks *)

Lemma land_lor_eq_0 (a b c : Z) :
  Z.land (Z.lor a b) c = 0 -> Z.land a c = 0 /\ Z.land b c = 0.
Proof.
  rewrite Z.land_lor_distr_l. intros Hz. apply Z.lor_eq_0_iff in Hz. exact Hz.
Qed.

Lemma TRACK_BIT_VERT_nonzero : TRACK_BIT_VERT <> 0.
Proof.
  unfold TRACK_BIT_VERT. intros Hz. apply Z.lor_eq_0_iff in Hz.
  destruct track_bits_nonzero as (_ & _ & Hl & _). tauto.
Qed.

Lemma TRACK_BIT_HORZ_nonzero : TRACK_BIT_HORZ <> 0.
Proof.
  unfold TRACK_BIT_HORZ. intros Hz. apply Z.lor_eq_0_iff in Hz.
  destruct track_bits_nonzero as (Hu & _). tauto.
Qed.

(** Any vertical piece on the tile: the side of the tile decides. *)
Lemma chosen_trackbits_vert (trackbits x y : Z) :
  Z.land trackbits TRACK_BIT_VERT <> 0 ->
  chosen_trackbits trackbits x y = if x <=? y then TRACK_BIT_RIGHT else TRACK_BIT_LEFT.
Proof.
  intros Hv. unfold chosen_trackbits.
  destruct (Z.eqb_spec (Z.land trackbits TRACK_BIT_VERT) 0) as [Hz | _]; [contradiction |].
  simpl.
  destruct (land_lor_eq_0 _ _ _ track_bits_vert_horz) as [Hl Hr].
  fold TRACK_BIT_HORZ in Hl, Hr.
  destruct (x <=? y); [rewrite Hr | rewrite Hl]; reflexivity.
Qed.

(** No vertical piece and some horizontal piece: the half of the tile
    decides. *)
Lemma chosen_trackbits_horz (trackbits x y : Z) :
  Z.land trackbits TRACK_BIT_VERT = 0 ->
  Z.land trackbits TRACK_BIT_HORZ <> 0 ->
  chosen_trackbits trackbits x y = if x + y <=? 15 then TRACK_BIT_UPPER else TRACK_BIT_LOWER.
Proof.
  intros Hv Hh. unfold chosen_trackbits. rewrite Hv. simpl.
  destruct (Z.eqb_spec (Z.land trackbits TRACK_BIT_HORZ) 0) as [Hz | _]; [contradiction |].
  reflexivity.
Qed.

(** C8, as the code has it.  On a tile that carries both vertical track
    pieces [GenericPlaceSignals] goes on with the track of TRACK_BIT_RIGHT
    when the fractional x is at most the fractional y and with that of
    TRACK_BIT_LEFT otherwise; on a tile that carries both horizontal pieces
    and no vertical piece it goes on with the track of TRACK_BIT_UPPER when
    x + y is at most 15 and with that of TRACK_BIT_LOWER otherwise. *)
Theorem GenericPlaceSignals_parallel_tracks (t : TileIndex) (s : State) :
  let trackbits := GetTileTrackBits (world s) t in
  let x := fst (_tile_fract_coords (world s)) in
  let y := snd (_tile_fract_coords (world s)) in
  (Z.land trackbits TRACK_BIT_VERT = TRACK_BIT_VERT ->
   chosen_trackbits trackbits x y = (if x <=? y then TRACK_BIT_RIGHT else TRACK_BIT_LEFT) /\
   GenericPlaceSignals t s =
     GenericPlaceSignals_track t
       (FindFirstTrack (if x <=? y then TRACK_BIT_RIGHT else TRACK_BIT_LEFT)) s) /\
  (Z.land trackbits TRACK_BIT_HORZ = TRACK_BIT_HORZ ->
   Z.land trackbits TRACK_BIT_VERT = 0 ->
   chosen_trackbits trackbits x y = (if x + y <=? 15 then TRACK_BIT_UPPER else TRACK_BIT_LOWER) /\
   GenericPlaceSignals t s =
     GenericPlaceSignals_track t
       (FindFirstTrack (if x + y <=? 15 then TRACK_BIT_UPPER else TRACK_BIT_LOWER)) s).
Proof.
  intros trackbits x y.
  assert (Hrun : GenericPlaceSignals t s =
                 GenericPlaceSignals_track t (FindFirstTrack (chosen_trackbits trackbits x y)) s).
  { unfold GenericPlaceSignals, trackbits, x, y. unfold bind at 1. unfold gets at 1.
    destruct (_tile_fract_coords (world s)) as [fx fy]. reflexivity. }
  split.
  - intros Hv.
    assert (Hc : chosen_trackbits trackbits x y = if x <=? y then TRACK_BIT_RIGHT else TRACK_BIT_LEFT).
    { apply chosen_trackbits_vert. rewrite Hv. apply TRACK_BIT_VERT_nonzero. }
    split; [exact Hc | rewrite Hrun, Hc; reflexivity].
  - intros Hh Hv.
    assert (Hc : chosen_trackbits trackbits x y =
                 if x + y <=? 15 then TRACK_BIT_UPPER else TRACK_BIT_LOWER).
    { apply chosen_trackbits_horz; [exact Hv |]. rewrite Hh. apply TRACK_BIT_HORZ_nonzero. }
    split; [exact Hc | rewrite Hrun, Hc; reflexivity].
Qed.

(** *** One value selected *)

Lemma IsWidgetLowered_select (this : Window) (old new g : Z) :
  IsWidgetLowered (LowerWidget (RaiseWidget this old) new) g =
  (g =? new) || (IsWidgetLowered this g && negb (g =? old)).
Proof.
  unfold IsWidgetLowered, LowerWidget, RaiseWidget. simpl.
  destruct (Z.eqb_spec g new) as [-> | Hn]; simpl.
  - apply bool_decide_eq_true. set_solver.
  - destruct (Z.eqb_spec g old) as [-> | Ho]; simpl.
    + rewrite andb_false_r. apply bool_decide_eq_false. set_solver.
    + rewrite andb_true_r. apply bool_decide_ext. set_solver.
Qed.

Lemma filter_none {A} (f : A -> bool) (l : list A) :
  (forall x, In x l -> f x = false) -> List.filter f l = [].
Proof.
  induction l as [| a l IH]; intros Hf; [reflexivity |].
  simpl. rewrite (Hf a (or_introl eq_refl)). apply IH.
  intros x Hx. apply Hf. right. exact Hx.
Qed.

Lemma filter_only (f : Z -> bool) (l : list Z) (x : Z) :
  NoDup l -> In x l -> (forall g, In g l -> f g = (g =? x)) -> List.filter f l = [x].
Proof.
  induction 1 as [| a l Ha Hl IH]; intros Hx Hf; [destruct Hx |].
  simpl. rewrite (Hf a (or_introl eq_refl)).
  destruct (Z.eqb_spec a x) as [-> | Hne].
  - f_equal. apply filter_none. intros g Hg.
    rewrite (Hf g (or_intror Hg)). apply Z.eqb_neq. intros ->.
    apply Ha. apply list_elem_of_In. exact Hg.
  - apply IH.
    + destruct Hx as [Hx | Hx]; [contradiction | exact Hx].
    + intros g Hg. apply Hf. right. exact Hg.
Qed.

Lemma filter_only_inv (f : Z -> bool) (l : list Z) (x : Z) :
  List.filter f l = [x] -> In x l /\ (forall g, In g l -> f g = (g =? x)).
Proof.
  intros Hfl.
  assert (Hx : In x (List.filter f l)) by (rewrite Hfl; left; reflexivity).
  apply filter_In in Hx. destruct Hx as [Hx Hfx]. split; [exact Hx |].
  intros g Hg. destruct (Z.eqb_spec g x) as [-> | Hne]; [exact Hfx |].
  destruct (f g) eqn:Hfg; [| reflexivity].
  assert (Hin : In g (List.filter f l)) by (apply filter_In; split; assumption).
  rewrite Hfl in Hin. destruct Hin as [Heq | []]. congruence.
Qed.

(** Raising the old button and lowering the new one keeps the group at one
    lowered button. *)
Lemma lowered_among_select (this : Window) (group : list Z) (old new : Z) :
  NoDup group -> In new group ->
  lowered_among this group = [old] ->
  lowered_among (LowerWidget (RaiseWidget this old) new) group = [new].
Proof.
  intros Hnd Hnew Hold. unfold lowered_among in *.
  apply filter_only_inv in Hold. destruct Hold as [_ Hf].
  apply filter_only; [exact Hnd | exact Hnew |].
  intros g Hg. rewrite IsWidgetLowered_select, (Hf g Hg).
  destruct (g =? new), (g =? old); reflexivity.
Qed.

Lemma lowered_among_singleton_in (this : Window) (group : list Z) (x : Z) :
  lowered_among this group = [x] -> In x group.
Proof. intros Hx. apply filter_only_inv in Hx. tauto. Qed.

Lemma station_dir_group_NoDup : NoDup station_dir_group.
Proof.
  unfold station_dir_group. destruct station_dir_widgets as (_ & Hy & _).
  repeat constructor; rewrite ?list_elem_of_In; simpl; lia.
Qed.

Lemma depot_dir_group_NoDup : NoDup depot_dir_group.
Proof.
  unfold depot_dir_group. destruct depot_dir_widgets as (H1 & H2 & H3 & H4).
  repeat constructor; rewrite ?list_elem_of_In; simpl; lia.
Qed.

Lemma station_dir_group_range (o : Z) :
  In (o + WID_BRAS_PLATFORM_DIR_X) station_dir_group <-> AXIS_X <= o <= AXIS_Y.
Proof.
  unfold station_dir_group, AXIS_X, AXIS_Y. destruct station_dir_widgets as (_ & Hy & _).
  simpl. lia.
Qed.

Lemma depot_dir_group_range (d : Z) :
  In (d + WID_BRAD_DEPOT_NE) depot_dir_group <-> 0 <= d <= DIAGDIR_END.
Proof.
  unfold depot_dir_group. destruct depot_dir_widgets as (H1 & H2 & H3 & H4).
  destruct diagdir_values as (_ & _ & _ & _ & He). simpl. lia.
Qed.


Lemma BuildRailStationWindow_OnClick_run (this : Window) (widget : Z) (s : State) :
  In widget station_dir_group ->
  exists s',
    BuildRailStationWindow_OnClick this widget s =
      Ok (LowerWidget
            (RaiseWidget this (orientation (_railstation (statics s)) + WID_BRAS_PLATFORM_DIR_X))
            widget) s' /\
    statics s' = set_orientation (widget - WID_BRAS_PLATFORM_DIR_X) (statics s).
Proof.
  intros Hw. unfold BuildRailStationWindow_OnClick.
  destruct station_dir_widgets as (H0 & Hy & Hlt).
  assert (Hcase : widget = WID_BRAS_PLATFORM_DIR_X \/ widget = WID_BRAS_PLATFORM_DIR_Y).
  { unfold station_dir_group in Hw. simpl in Hw.
    destruct Hw as [<- | [<- | []]]; [left | right]; reflexivity. }
  rewrite GB_low16 by lia.
  assert (Hsw : (widget =? WID_BRAS_PLATFORM_DIR_X) || (widget =? WID_BRAS_PLATFORM_DIR_Y) = true).
  { destruct Hcase as [-> | ->]; rewrite Z.eqb_refl; [reflexivity | apply orb_true_r]. }
  rewrite Hsw. step. rewrite Z.sub_add.
  destruct (sound_click_beep (settings s)); simpl; eexists; split; reflexivity.
Qed.

Lemma BuildRailDepotWindow_OnClick_run (this : Window) (widget : Z) (s : State) :
  In widget depot_dir_group ->
  exists s',
    BuildRailDepotWindow_OnClick this widget s =
      Ok (LowerWidget
            (RaiseWidget this (_build_depot_direction (statics s) + WID_BRAD_DEPOT_NE))
            widget) s' /\
    statics s' = set_build_depot_direction (widget - WID_BRAD_DEPOT_NE) (statics s).
Proof.
  intros Hw. unfold BuildRailDepotWindow_OnClick.
  assert (Hsw : (widget =? WID_BRAD_DEPOT_NE) || (widget =? WID_BRAD_DEPOT_SE)
                || (widget =? WID_BRAD_DEPOT_SW) || (widget =? WID_BRAD_DEPOT_NW)
                || (widget =? WID_BRAD_DEPOT_AUTO) = true).
  { unfold depot_dir_group in Hw. simpl in Hw.
    destruct Hw as [<- | [<- | [<- | [<- | [<- | []]]]]]; rewrite Z.eqb_refl;
      rewrite ?orb_true_r; reflexivity. }
  rewrite Hsw. step. rewrite Z.sub_add.
  destruct (sound_click_beep (settings s)); simpl; eexists; split; reflexivity.
Qed.

(** C7.  With one value selected before (of the buttons of the group
    exactly the one of the selection variable lowered), a click on an
    orientation button or on a depot direction button sets the variable to
    the enumerator of the clicked button, leaves exactly the clicked button
    of the group lowered, so that the button selected before is raised when
    it is another one, and one value is selected again; the rotate hotkeys
    of the two windows move the variable on and keep one value selected. *)
Theorem one_value_selected :
  (forall this widget s,
     station_selected this s -> In widget station_dir_group ->
     exists this' s',
       BuildRailStationWindow_OnClick this widget s = Ok this' s' /\
       orientation (_railstation (statics s')) = widget - WID_BRAS_PLATFORM_DIR_X /\
       (widget = WID_BRAS_PLATFORM_DIR_X -> orientation (_railstation (statics s')) = AXIS_X) /\
       (widget = WID_BRAS_PLATFORM_DIR_Y -> orientation (_railstation (statics s')) = AXIS_Y) /\
       lowered_among this' station_dir_group = [widget] /\
       (orientation (_railstation (statics s)) + WID_BRAS_PLATFORM_DIR_X <> widget ->
        IsWidgetLowered this' (orientation (_railstation (statics s)) + WID_BRAS_PLATFORM_DIR_X) = false) /\
       station_selected this' s') /\
  (forall this s,
     station_selected this s ->
     exists this' s',
       BuildRailStationWindow_OnHotkey this CM_BRASHK_ROTATE s = Ok (ES_HANDLED, this') s' /\
       orientation (_railstation (statics s')) = OtherAxis (orientation (_railstation (statics s))) /\
       station_selected this' s') /\
  (forall this widget s,
     depot_selected this s -> In widget depot_dir_group ->
     exists this' s',
       BuildRailDepotWindow_OnClick this widget s = Ok this' s' /\
       _build_depot_direction (statics s') = widget - WID_BRAD_DEPOT_NE /\
       (widget = WID_BRAD_DEPOT_NE -> _build_depot_direction (statics s') = DIAGDIR_NE) /\
       (widget = WID_BRAD_DEPOT_SE -> _build_depot_direction (statics s') = DIAGDIR_SE) /\
       (widget = WID_BRAD_DEPOT_SW -> _build_depot_direction (statics s') = DIAGDIR_SW) /\
       (widget = WID_BRAD_DEPOT_NW -> _build_depot_direction (statics s') = DIAGDIR_NW) /\
       (widget = WID_BRAD_DEPOT_AUTO -> _build_depot_direction (statics s') = DIAGDIR_END) /\
       lowered_among this' depot_dir_group = [widget] /\
       (_build_depot_direction (statics s) + WID_BRAD_DEPOT_NE <> widget ->
        IsWidgetLowered this' (_build_depot_direction (statics s) + WID_BRAD_DEPOT_NE) = false) /\
       depot_selected this' s') /\
  (forall this s,
     depot_selected this s ->
     exists this' s',
       BuildRailDepotWindow_OnHotkey this BuildRailDepotWindow_Hotkey_ROTATE s
         = Ok (ES_HANDLED, this') s' /\
       _build_depot_direction (statics s') =
         (if _build_depot_direction (statics s) <? DIAGDIR_END
          then ChangeDiagDir (_build_depot_direction (statics s)) DIAGDIRDIFF_90RIGHT
          else _build_depot_direction (statics s)) /\
       depot_selected this' s').
Proof.
  split; [| split; [| split]].
  - intros this widget s Hsel Hw.
    destruct (BuildRailStationWindow_OnClick_run this widget s Hw) as (s' & Hrun & Hst).
    assert (Hnew : lowered_among
                     (LowerWidget
                        (RaiseWidget this (orientation (_railstation (statics s)) + WID_BRAS_PLATFORM_DIR_X))
                        widget) station_dir_group = [widget]).
    { apply lowered_among_select; [apply station_dir_group_NoDup | exact Hw | exact Hsel]. }
    eexists _, s'. split; [exact Hrun |]. rewrite Hst. simpl.
    destruct station_dir_widgets as (H0 & Hy & Hlt).
    split; [reflexivity |].
    split; [intros ->; unfold AXIS_X; lia |].
    split; [intros ->; unfold AXIS_Y; lia |].
    split; [exact Hnew |].
    split.
    + intros Hne. apply filter_only_inv in Hnew. destruct Hnew as [_ Hf].
      rewrite (Hf _ (lowered_among_singleton_in _ _ _ Hsel)).
      apply Z.eqb_neq. exact Hne.
    + unfold station_selected. rewrite Hst. simpl. rewrite Z.sub_add. exact Hnew.
  - intros this s Hsel.
    pose proof (lowered_among_singleton_in _ _ _ Hsel) as Hold.
    apply station_dir_group_range in Hold.
    pose proof (OtherAxis_range _ Hold) as Hrange.
    apply station_dir_group_range in Hrange.
    unfold BuildRailStationWindow_OnHotkey.
    change (CM_BRASHK_ROTATE =? BRASHK_FOCUS_FILTER_BOX) with false.
    change (CM_BRASHK_ROTATE =? CM_BRASHK_ROTATE) with true.
    step. eexists _, _. split; [reflexivity |].
    split; [reflexivity |].
    unfold station_selected.
    apply lowered_among_select; [apply station_dir_group_NoDup | exact Hrange | exact Hsel].
  - intros this widget s Hsel Hw.
    destruct (BuildRailDepotWindow_OnClick_run this widget s Hw) as (s' & Hrun & Hst).
    assert (Hnew : lowered_among
                     (LowerWidget
                        (RaiseWidget this (_build_depot_direction (statics s) + WID_BRAD_DEPOT_NE))
                        widget) depot_dir_group = [widget]).
    { apply lowered_among_select; [apply depot_dir_group_NoDup | exact Hw | exact Hsel]. }
    eexists _, s'. split; [exact Hrun |]. rewrite Hst. simpl.
    destruct depot_dir_widgets as (H1 & H2 & H3 & H4).
    destruct diagdir_values as (V0 & V1 & V2 & V3 & V4).
    split; [reflexivity |].
    split; [intros ->; lia |].
    split; [intros ->; lia |].
    split; [intros ->; lia |].
    split; [intros ->; lia |].
    split; [intros ->; lia |].
    split; [exact Hnew |].
    split.
    + intros Hne. apply filter_only_inv in Hnew. destruct Hnew as [_ Hf].
      rewrite (Hf _ (lowered_among_singleton_in _ _ _ Hsel)).
      apply Z.eqb_neq. exact Hne.
    + unfold depot_selected. rewrite Hst. simpl. rewrite Z.sub_add. exact Hnew.
  - intros this s Hsel.
    pose proof (lowered_among_singleton_in _ _ _ Hsel) as Hold.
    apply depot_dir_group_range in Hold.
    unfold BuildRailDepotWindow_OnHotkey.
    change (BuildRailDepotWindow_Hotkey_ROTATE =? BuildRailDepotWindow_Hotkey_ROTATE) with true.
    step.
    destruct (Z.ltb_spec (_build_depot_direction (statics s)) DIAGDIR_END) as [Hlt | Hge]; simpl.
    + eexists _, _. split; [reflexivity |]. split; [reflexivity |].
      unfold depot_selected.
      apply lowered_among_select; [apply depot_dir_group_NoDup | | exact Hsel].
      apply depot_dir_group_range.
      pose proof (ChangeDiagDir_range (_build_depot_direction (statics s))) as Hr.
      simpl. lia.
    + eexists _, _. split; [reflexivity |]. split; [reflexivity |]. exact Hsel.
Qed.


(** *** The autodirection terraform heuristic *)

(** What [rail_callback] does: it tests the rail command, submits it unless
    the test says "already built" with an end tile known, and stores the
    snap point. *)
Lemma rail_callback_run (k : RailCallback) (res : bool) (st : State) :
  let c := rc_rail_cmd k in
  let test := engine_DoCommand (world st) (tile c) (p1 c) (p2 c) (Z.lor DC_AUTO DC_NO_WATER) (cmd c) in
  exists b st' rest,
    rail_callback k res st = Ok b st' /\
    trace st' = trace st ++
      EvDoCommand (tile c) (p1 c) (p2 c) (Z.lor DC_AUTO DC_NO_WATER) (cmd c) :: rest /\
    (In (EvDoCommandP c) rest <->
     negb (GetErrorMessage (fst test) =? STR_ERROR_ALREADY_BUILT)
     || (_rail_track_endtile (snd test) =? INVALID_TILE) = true).
Proof.
  intros c test. unfold rail_callback, DoCommand, DoCommandP. step.
  fold c. fold test. destruct test as [r w1]. simpl.
  destruct (negb (GetErrorMessage r =? STR_ERROR_ALREADY_BUILT) || (_rail_track_endtile w1 =? INVALID_TILE));
    simpl.
  - destruct (engine_DoCommandP w1 c) as [ok w2]. simpl.
    destruct ok; simpl.
    + destruct (negb (rc_estimate k) && negb (_rail_track_endtile w2 =? INVALID_TILE)); simpl;
        eexists _, _, _; (split; [reflexivity |]); simpl; rewrite <- ?app_assoc; simpl;
        (split; [reflexivity |]); split; auto; intros _; left; reflexivity.
    + eexists _, _, _; (split; [reflexivity |]); simpl; rewrite <- ?app_assoc; simpl;
        (split; [reflexivity |]); split; auto; intros _; left; reflexivity.
  - destruct (negb (rc_estimate k) && negb (_rail_track_endtile w1 =? INVALID_TILE)); simpl;
      eexists _, _, _; (split; [reflexivity |]); simpl; rewrite <- ?app_assoc; simpl;
      (split; [reflexivity |]); split; try discriminate; simpl; intros Hin.
    + destruct Hin as [Hin | []]. discriminate Hin.
    + destruct Hin.
Qed.

Lemma DoCommand_run (t : TileIndex) (a b flags c : Z) (s : State) :
  DoCommand t a b flags c s =
    Ok (fst (engine_DoCommand (world s) t a b flags c))
       (set_world (snd (engine_DoCommand (world s) t a b flags c))
          (log (EvDoCommand t a b flags c) s)).
Proof. unfold DoCommand. destruct (engine_DoCommand _ _ _ _ _ _). reflexivity. Qed.

Lemma DoCommandWithCallback_run (c : CommandContainer) (k : RailCallback) (s : State) :
  exists b s', DoCommandWithCallback c k s = Ok b s' /\
               trace s' = trace s ++ [EvDoCommandWithCallback c k].
Proof.
  unfold DoCommandWithCallback. destruct (engine_DoCommandWithCallback _ _ _).
  eexists _, _. split; reflexivity.
Qed.

(** The shape of a run of [DoAutodirTerraform]: the two test runs, then the
    rail callback at once, or one or two level commands of which the last
    carries the rail callback. *)
Lemma DoAutodirTerraform_run (diagonal : bool) (start_tile end_tile : TileIndex) (track : Z)
    (rail_cmd : CommandContainer) (s1 e1 s2 e2 : TileIndex) (s : State) :
  let k := {| rc_rail_cmd := rail_cmd; rc_start_tile := start_tile; rc_end_tile := end_tile;
              rc_track := track; rc_estimate := _estimate_mod (world s) |} in
  let diag_flag := if diagonal then 1 else 0 in
  let p2_1 := level_p2 (TileHeight (world s) s1 <? TileHeight (world s) s2) diag_flag in
  let p2_2 := level_p2 (TileHeight (world s) s2 <? TileHeight (world s) s1) diag_flag in
  let flags := Z.lor DC_AUTO DC_NO_WATER in
  forall r1 sA r2 sB,
    DoCommand e1 s1 p2_1 flags CMD_LEVEL_LAND s = Ok r1 sA ->
    DoCommand e2 s2 p2_2 flags CMD_LEVEL_LAND sA = Ok r2 sB ->
    DoAutodirTerraform diagonal start_tile end_tile track rail_cmd s1 e1 s2 e2 s =
      (if negb (Succeeded r1) && negb (Succeeded r2) then rail_callback k true sB
       else if negb (Succeeded r2)
            then DoCommandWithCallback (mkcmd e1 s1 p2_1 CMD_LEVEL_LAND cb_CcTerraform) k sB
       else if Succeeded r1
            then bind (DoCommandP (mkcmd e1 s1 p2_1 CMD_LEVEL_LAND cb_CcTerraform))
                   (fun _ => DoCommandWithCallback (mkcmd e2 s2 p2_2 CMD_LEVEL_LAND cb_CcTerraform) k) sB
       else DoCommandWithCallback (mkcmd e2 s2 p2_2 CMD_LEVEL_LAND cb_CcTerraform) k sB) /\
    trace sB = trace s ++ [EvDoCommand e1 s1 p2_1 flags CMD_LEVEL_LAND;
                           EvDoCommand e2 s2 p2_2 flags CMD_LEVEL_LAND].
Proof.
  intros k diag_flag p2_1 p2_2 flags r1 sA r2 sB H1 H2.
  split.
  - unfold DoAutodirTerraform. unfold bind at 1. unfold gets at 1.
    fold k. fold diag_flag. fold p2_1. fold p2_2. fold flags.
    unfold bind at 1. rewrite H1. unfold bind at 1. rewrite H2.
    destruct (Succeeded r1), (Succeeded r2); simpl; try reflexivity.
    unfold bind, ret. destruct (DoCommandP _ sB); reflexivity.
  - rewrite DoCommand_run in H1. inversion H1; subst r1 sA; clear H1.
    rewrite DoCommand_run in H2. inversion H2; subst r2 sB; clear H2.
    simpl. rewrite <- app_assoc. reflexivity.
Qed.


Lemma DoCommandP_run (c : CommandContainer) (s : State) :
  exists b s', DoCommandP c s = Ok b s' /\ trace s' = trace s ++ [EvDoCommandP c].
Proof.
  unfold DoCommandP. destruct (engine_DoCommandP _ _).
  eexists _, _. split; reflexivity.
Qed.

Lemma DoAutodirTerraform_trace (diagonal : bool) (start_tile end_tile : TileIndex) (track : Z)
    (rail_cmd : CommandContainer) (s1 e1 s2 e2 : TileIndex) (s : State) :
  let k := {| rc_rail_cmd := rail_cmd; rc_start_tile := start_tile; rc_end_tile := end_tile;
              rc_track := track; rc_estimate := _estimate_mod (world s) |} in
  let diag_flag := if diagonal then 1 else 0 in
  let p2_1 := level_p2 (TileHeight (world s) s1 <? TileHeight (world s) s2) diag_flag in
  let p2_2 := level_p2 (TileHeight (world s) s2 <? TileHeight (world s) s1) diag_flag in
  let flags := Z.lor DC_AUTO DC_NO_WATER in
  exists b s' added,
    DoAutodirTerraform diagonal start_tile end_tile track rail_cmd s1 e1 s2 e2 s = Ok b s' /\
    trace s' = trace s ++ EvDoCommand e1 s1 p2_1 flags CMD_LEVEL_LAND
                       :: EvDoCommand e2 s2 p2_2 flags CMD_LEVEL_LAND :: added /\
    track_not_skipped k added.
Proof.
  intros k diag_flag p2_1 p2_2 flags. subst diag_flag.
  pose proof (DoCommand_run e1 s1 p2_1 flags CMD_LEVEL_LAND s) as H1.
  set (r1 := fst _) in H1. set (sA := set_world _ _) in H1.
  pose proof (DoCommand_run e2 s2 p2_2 flags CMD_LEVEL_LAND sA) as H2.
  set (r2 := fst _) in H2. set (sB := set_world _ _) in H2.
  destruct (DoAutodirTerraform_run diagonal start_tile end_tile track rail_cmd s1 e1 s2 e2 s
              r1 sA r2 sB H1 H2) as [Hrun HsB].
  fold k p2_1 p2_2 flags in Hrun, HsB. rewrite Hrun.
  destruct (Succeeded r1), (Succeeded r2); cbn [negb andb].
  - unfold bind.
    destruct (DoCommandP_run (mkcmd e1 s1 p2_1 CMD_LEVEL_LAND cb_CcTerraform) sB) as (b1 & sC & -> & HsC).
    destruct (DoCommandWithCallback_run (mkcmd e2 s2 p2_2 CMD_LEVEL_LAND cb_CcTerraform) k sC)
      as (b & s' & -> & Hs').
    eexists b, s', _. split; [reflexivity |]. split.
    + rewrite Hs', HsC, HsB. rewrite <- !app_assoc. reflexivity.
    + right. exists [EvDoCommandP (mkcmd e1 s1 p2_1 CMD_LEVEL_LAND cb_CcTerraform)]. eexists. reflexivity.
  - destruct (DoCommandWithCallback_run (mkcmd e1 s1 p2_1 CMD_LEVEL_LAND cb_CcTerraform) k sB)
      as (b & s' & -> & Hs').
    eexists b, s', _. split; [reflexivity |]. split.
    + rewrite Hs', HsB. rewrite <- !app_assoc. reflexivity.
    + right. exists []. eexists. reflexivity.
  - destruct (DoCommandWithCallback_run (mkcmd e2 s2 p2_2 CMD_LEVEL_LAND cb_CcTerraform) k sB)
      as (b & s' & -> & Hs').
    eexists b, s', _. split; [reflexivity |]. split.
    + rewrite Hs', HsB. rewrite <- !app_assoc. reflexivity.
    + right. exists []. eexists. reflexivity.
  - destruct (rail_callback_run k true sB) as (b & s' & rest & -> & Hs' & _).
    eexists b, s', _. split; [reflexivity |]. split.
    + rewrite Hs', HsB. rewrite <- !app_assoc. reflexivity.
    + left. exists rest. reflexivity.
Qed.

(** C1.  After the two test runs of the level commands: if both fail,
    [DoAutodirTerraform] runs the rail callback at once, which tries the
    track command; if exactly one succeeds, it submits that one level
    command, and nothing else, with the rail callback chained to it; the
    rail callback tests the track command and submits it unless the test
    answers "already built" with an end tile known; and in every case the
    track placement is tried at once or chained to the last command
    submitted. *)
Theorem DoAutodirTerraform_places_track (diagonal : bool) (start_tile end_tile : TileIndex)
    (track : Z) (rail_cmd : CommandContainer) (s1 e1 s2 e2 : TileIndex)
    (s sA sB : State) (r1 r2 : CommandCost) :
  let k := {| rc_rail_cmd := rail_cmd; rc_start_tile := start_tile; rc_end_tile := end_tile;
              rc_track := track; rc_estimate := _estimate_mod (world s) |} in
  let diag_flag := if diagonal then 1 else 0 in
  let p2_1 := level_p2 (TileHeight (world s) s1 <? TileHeight (world s) s2) diag_flag in
  let p2_2 := level_p2 (TileHeight (world s) s2 <? TileHeight (world s) s1) diag_flag in
  let flags := Z.lor DC_AUTO DC_NO_WATER in
  let level1 := mkcmd e1 s1 p2_1 CMD_LEVEL_LAND cb_CcTerraform in
  let level2 := mkcmd e2 s2 p2_2 CMD_LEVEL_LAND cb_CcTerraform in
  let rail_test := EvDoCommand (tile rail_cmd) (p1 rail_cmd) (p2 rail_cmd) flags (cmd rail_cmd) in
  let run := DoAutodirTerraform diagonal start_tile end_tile track rail_cmd s1 e1 s2 e2 s in
  DoCommand e1 s1 p2_1 flags CMD_LEVEL_LAND s = Ok r1 sA ->
  DoCommand e2 s2 p2_2 flags CMD_LEVEL_LAND sA = Ok r2 sB ->
  (Succeeded r1 = false -> Succeeded r2 = false ->
   run = rail_callback k true sB /\
   exists b s' rest, run = Ok b s' /\ trace s' = trace sB ++ rail_test :: rest) /\
  (Succeeded r1 = true -> Succeeded r2 = false ->
   exists b s', run = Ok b s' /\ trace s' = trace sB ++ [EvDoCommandWithCallback level1 k]) /\
  (Succeeded r1 = false -> Succeeded r2 = true ->
   exists b s', run = Ok b s' /\ trace s' = trace sB ++ [EvDoCommandWithCallback level2 k]) /\
  (forall res st,
     exists b st' rest,
       rail_callback k res st = Ok b st' /\
       trace st' = trace st ++ rail_test :: rest /\
       (In (EvDoCommandP rail_cmd) rest <->
        negb (GetErrorMessage (fst (engine_DoCommand (world st) (tile rail_cmd) (p1 rail_cmd)
                                      (p2 rail_cmd) flags (cmd rail_cmd)))
              =? STR_ERROR_ALREADY_BUILT)
        || (_rail_track_endtile (snd (engine_DoCommand (world st) (tile rail_cmd) (p1 rail_cmd)
                                        (p2 rail_cmd) flags (cmd rail_cmd)))
            =? INVALID_TILE) = true)) /\
  (exists b s' added,
     run = Ok b s' /\ trace s' = trace sB ++ added /\ track_not_skipped k added).
Proof.
  intros k diag_flag p2_1 p2_2 flags level1 level2 rail_test run H1 H2. subst diag_flag.
  destruct (DoAutodirTerraform_run diagonal start_tile end_tile track rail_cmd s1 e1 s2 e2 s
              r1 sA r2 sB H1 H2) as [Hrun HsB].
  fold k p2_1 p2_2 flags level1 level2 run in Hrun, HsB.
  split; [| split; [| split; [| split]]].
  - intros F1 F2. rewrite F1, F2 in Hrun. simpl in Hrun.
    split; [exact Hrun |]. rewrite Hrun.
    destruct (rail_callback_run k true sB) as (b & s' & rest & Hcb & Hs' & _).
    exists b, s', rest. split; [exact Hcb | exact Hs'].
  - intros F1 F2. rewrite F1, F2 in Hrun. simpl in Hrun. rewrite Hrun.
    apply DoCommandWithCallback_run.
  - intros F1 F2. rewrite F1, F2 in Hrun. simpl in Hrun. rewrite Hrun.
    apply DoCommandWithCallback_run.
  - intros res st. apply (rail_callback_run k res st).
  - destruct (DoAutodirTerraform_trace diagonal start_tile end_tile track rail_cmd s1 e1 s2 e2 s)
      as (b & s' & added & Hok & Htr & Hns).
    fold k p2_1 p2_2 flags run in Hok, Htr, Hns.
    exists b, s', added. split; [exact Hok |]. split; [| exact Hns].
    rewrite Htr, HsB. rewrite <- app_assoc. reflexivity.
Qed.



Lemma autodir_trackdirs_In (d : Trackdir) :
  In d autodir_trackdirs <-> (forall raw, d <> TRACKDIR_other raw).
Proof.
  unfold autodir_trackdirs. split.
  - intros Hin raw ->. simpl in Hin. intuition discriminate.
  - intros Hd. destruct d; simpl; try tauto. exfalso. apply (Hd raw). reflexivity.
Qed.



(* One case of [HandleAutodirTerraform]: the call it makes and the two test
   runs that call starts with. *)
Ltac autodir_case Hd :=
  let Hrun := fresh "Hrun" in
  match goal with
  | |- ?run = DoAutodirTerraform ?dg ?st ?en ?tr ?c ?s1 ?e1 ?s2 ?e2 ?s /\ _ =>
      assert (Hrun : run = DoAutodirTerraform dg st en tr c s1 e1 s2 e2 s)
        by (unfold HandleAutodirTerraform; unfold bind at 1; unfold gets at 1;
            rewrite Hd; reflexivity);
      split; [exact Hrun |];
      let r := fresh "r" in let s' := fresh "s'" in let added := fresh "added" in
      let Hok := fresh "Hok" in let Htr := fresh "Htr" in
      destruct (DoAutodirTerraform_trace dg st en tr c s1 e1 s2 e2 s)
        as (r & s' & added & Hok & Htr & _);
      exists r, s', added; split; [rewrite Hrun; exact Hok | exact Htr]
  end.

(** C3.  [HandleAutodirTerraform] has a case for twelve directions.  In each
    it computes two corner pairs, (s1, e1) and (s2, e2), from the start and
    the end tile of the drag, and calls [DoAutodirTerraform] on them: the run
    is that call, and it starts with the test runs of the two level commands
    from s1 to e1 and from s2 to e2.  The corners are, direction by
    direction, those listed below; for the eight directions along neither
    axis the end corners depend on whether the end tile lies on the diagonal
    (x - y) or the antidiagonal (x + y) of the start tile.  For any other
    value of the poly-direction it issues no command, changes nothing and
    returns true. *)
Theorem HandleAutodirTerraform_directions (start_tile end_tile : TileIndex) (track : Z)
    (rail_cmd : CommandContainer) (s : State) :
  let eq := uint32 (TileX end_tile - TileY end_tile) =? uint32 (TileX start_tile - TileY start_tile) in
  let ez := uint32 (TileX end_tile + TileY end_tile) =? uint32 (TileX start_tile + TileY start_tile) in
  let b := Z.b2z in
  let flags := Z.lor DC_AUTO DC_NO_WATER in
  let dir := _thd_cm_poly_dir (world s) in
  let run := HandleAutodirTerraform start_tile end_tile track rail_cmd s in
  let heuristic_on (diagonal : bool) (s1 e1 s2 e2 : TileIndex) :=
    run = DoAutodirTerraform diagonal start_tile end_tile track rail_cmd s1 e1 s2 e2 s /\
    exists r s' added,
      run = Ok r s' /\
      trace s' = trace s ++
        EvDoCommand e1 s1
          (level_p2 (TileHeight (world s) s1 <? TileHeight (world s) s2) (if diagonal then 1 else 0))
          flags CMD_LEVEL_LAND
        :: EvDoCommand e2 s2
             (level_p2 (TileHeight (world s) s2 <? TileHeight (world s) s1) (if diagonal then 1 else 0))
             flags CMD_LEVEL_LAND
        :: added in
  length autodir_trackdirs = 12%nat /\
  NoDup autodir_trackdirs /\
  (dir = TRACKDIR_X_NE ->
   heuristic_on false (TILE_ADDXY start_tile 1 0) end_tile
                      (TILE_ADDXY start_tile 1 1) (TILE_ADDXY end_tile 0 1)) /\
  (dir = TRACKDIR_X_SW ->
   heuristic_on false start_tile (TILE_ADDXY end_tile 1 0)
                      (TILE_ADDXY start_tile 0 1) (TILE_ADDXY end_tile 1 1)) /\
  (dir = TRACKDIR_Y_SE ->
   heuristic_on false start_tile (TILE_ADDXY end_tile 0 1)
                      (TILE_ADDXY start_tile 1 0) (TILE_ADDXY end_tile 1 1)) /\
  (dir = TRACKDIR_Y_NW ->
   heuristic_on false (TILE_ADDXY start_tile 0 1) end_tile
                      (TILE_ADDXY start_tile 1 1) (TILE_ADDXY end_tile 1 0)) /\
  (dir = TRACKDIR_LEFT_N ->
   heuristic_on true (TILE_ADDXY start_tile 1 0) (TILE_ADDXY end_tile (b eq) 0)
                     (TILE_ADDXY start_tile 1 1) (TILE_ADDXY end_tile 0 (b (negb eq)))) /\
  (dir = TRACKDIR_RIGHT_N ->
   heuristic_on true (TILE_ADDXY start_tile 0 1) (TILE_ADDXY end_tile 0 (b eq))
                     (TILE_ADDXY start_tile 1 1) (TILE_ADDXY end_tile (b (negb eq)) 0)) /\
  (dir = TRACKDIR_LEFT_S ->
   heuristic_on true (TILE_ADDXY start_tile 1 0) (TILE_ADDXY end_tile 1 (b (negb eq)))
                     start_tile (TILE_ADDXY end_tile (b eq) 1)) /\
  (dir = TRACKDIR_RIGHT_S ->
   heuristic_on true (TILE_ADDXY start_tile 0 1) (TILE_ADDXY end_tile (b (negb eq)) 1)
                     start_tile (TILE_ADDXY end_tile 1 (b eq))) /\
  (dir = TRACKDIR_UPPER_E ->
   heuristic_on true start_tile (TILE_ADDXY end_tile 0 (b (negb ez)))
                     (TILE_ADDXY start_tile 1 0) (TILE_ADDXY end_tile (b (negb ez)) 1)) /\
  (dir = TRACKDIR_LOWER_E ->
   heuristic_on true (TILE_ADDXY start_tile 1 1) (TILE_ADDXY end_tile (b ez) 1)
                     (TILE_ADDXY start_tile 1 0) (TILE_ADDXY end_tile 0 (b ez))) /\
  (dir = TRACKDIR_UPPER_W ->
   heuristic_on true start_tile (TILE_ADDXY end_tile (b (negb ez)) 0)
                     (TILE_ADDXY start_tile 0 1) (TILE_ADDXY end_tile 1 (b (negb ez)))) /\
  (dir = TRACKDIR_LOWER_W ->
   heuristic_on true (TILE_ADDXY start_tile 1 1) (TILE_ADDXY end_tile 1 (b ez))
                     (TILE_ADDXY start_tile 0 1) (TILE_ADDXY end_tile (b ez) 0)) /\
  (In dir autodir_trackdirs <-> forall raw, dir <> TRACKDIR_other raw) /\
  (~ In dir autodir_trackdirs -> run = Ok true s).
Proof.
  intros eq ez b flags dir run heuristic_on.
  subst heuristic_on run dir flags. cbv beta.
  split; [reflexivity |]. split.
  { unfold autodir_trackdirs.
    repeat (apply NoDup_cons; split; [rewrite list_elem_of_In; simpl; intuition discriminate |]).
    apply NoDup_nil. exact I. }
  do 12 (split; [intros Hd; autodir_case Hd |]).
  split; [apply autodir_trackdirs_In |].
  intros Hnot.
  unfold HandleAutodirTerraform. unfold bind at 1. unfold gets at 1.
  destruct (_thd_cm_poly_dir (world s)) eqn:Hd;
    try (exfalso; apply Hnot; unfold autodir_trackdirs; simpl; tauto).
  reflexivity.
Qed.

End Properties.

(** * The properties on the sample host *)

Lemma callbacks_on_failure_witness :
  CcBuildRailTunnel failed_cost 5 0 0 0 sample_state =
    Ok tt (log (EvSetRedErrorSquare 9) sample_state) /\
  CcRailDepot failed_cost 5 0 1 0 sample_state = Ok tt sample_state.
Proof.
  split.
  - destruct (callbacks_on_failure cb_CcBuildRailTunnel failed_cost 5 0 0 0
                (CcBuildRailTunnel failed_cost 5 0 0 0) sample_state
                {| rc_rail_cmd := sample_rail_cmd; rc_start_tile := 0; rc_end_tile := 257;
                   rc_track := 4; rc_estimate := false |}) as [Hfour _].
    exact (Hfour eq_refl eq_refl).
  - destruct (callbacks_on_failure cb_CcRailDepot failed_cost 5 0 1 0
                (CcRailDepot failed_cost 5 0 1 0) sample_state
                {| rc_rail_cmd := sample_rail_cmd; rc_start_tile := 0; rc_end_tile := 257;
                   rc_track := 4; rc_estimate := false |}) as [Hfour _].
    exact (Hfour eq_refl eq_refl).
Defined.

(** Given the outcome false, that is after a level command that failed, the
    [rail_callback] lambda still submits the track command and stores the
    rail-placement endpoints. *)
Lemma rail_callback_after_failure_counterexample :
  exists s',
    rail_callback {| rc_rail_cmd := sample_rail_cmd; rc_start_tile := 0; rc_end_tile := 257;
                     rc_track := 4; rc_estimate := false |} false sample_state = Ok false s' /\
    trace s' = [EvDoCommand 0 257 256 6 (Z.lor 1 (Z.shiftl 4114 16));
                EvDoCommandP sample_rail_cmd;
                EvStoreRailPlacementEndpoints 0 7 4 true].
Proof.
  eexists. split; reflexivity.
Defined.

(** A click on the lowered remove button while the station tool is lowered:
    besides the flag, now clear, and the selection colour, the station
    selection window is closed, the click beep is played and the sizing
    limit of the selection is set to the station spread; the toggle alone
    closes the station selection window too. *)
Lemma remove_click_counterexample :
  (exists s',
     BuildRailClick_Remove (sample_window [11; 17]) sample_state =
       Ok (ToggleWidgetLoweredState (sample_window [11; 17]) 17) s' /\
     _remove_button_clicked (statics sample_state) = true /\
     _remove_button_clicked (statics s') = false /\
     trace s' = [EvCloseWindowById 1 0;
                 EvSetWidgetDirty 17;
                 EvSetSelectionRed false;
                 EvSndPlayFx 19;
                 EvVpSetPlaceSizingLimit 12]) /\
  (exists s',
     ToggleRailButton_Remove (sample_window [11; 17]) sample_state =
       Ok (ToggleWidgetLoweredState (sample_window [11; 17]) 17) s' /\
     trace s' = [EvCloseWindowById 1 0;
                 EvSetWidgetDirty 17;
                 EvSetSelectionRed false]).
Proof.
  split.
  - eexists. split; [reflexivity |]. split; [reflexivity |]. split; reflexivity.
  - eexists. split.
    + exact (@ToggleRailButton_Remove_run sample_headers sample_engine
               (sample_window [11; 17]) sample_state).
    + reflexivity.
Defined.

Lemma CcRailDepot_tables_in_bounds_witness :
  exists s', CcRailDepot {| Succeeded := true; GetErrorMessage := 0 |} 300 0 3 0 sample_state = Ok tt s'.
Proof.
  assert (Hdir : 0 <= 3 <= 3) by lia.
  destruct (CcRailDepot_tables_in_bounds 3 Hdir) as (_ & _ & _ & Hrun).
  apply Hrun.
Defined.

Lemma drag_signals_density_stays_in_range_witness :
  exists this' s',
    BuildSignalWindow_clicks (sample_window []) [15; 15; 14; 0] sample_state = Ok this' s' /\
    1 <= density s' <= 20.
Proof.
  assert (Hd : 1 <= density sample_state <= 20) by (unfold density; simpl; lia).
  destruct (drag_signals_density_stays_in_range [15; 15; 14; 0] (sample_window []) sample_state Hd)
    as [_ Hrun].
  exact Hrun.
Defined.

(** A tile with all four diagonal pieces, clicked at (15, 0): it carries both
    horizontal pieces and 15 + 0 is at most 15, yet the signal goes on the
    left piece, not on the upper one. *)
Lemma GenericPlaceSignals_horizontal_counterexample :
  GetTileTrackBits (world (sample_state_in sample_world)) 0 = 60 /\
  _tile_fract_coords (world (sample_state_in sample_world)) = (15, 0) /\
  Z.land 60 TRACK_BIT_HORZ = TRACK_BIT_HORZ /\
  chosen_trackbits 60 15 0 = TRACK_BIT_LEFT /\
  chosen_trackbits 60 15 0 <> (if 15 + 0 <=? 15 then TRACK_BIT_UPPER else TRACK_BIT_LOWER) /\
  exists s',
    GenericPlaceSignals 0 (sample_state_in sample_world) = Ok tt s' /\
    trace s' = [EvDoCommandP
                  (mkcmd 0 TRACK_LEFT 0
                     (Z.lor CMD_REMOVE_SIGNALS (CMD_MSG STR_ERROR_CAN_T_REMOVE_SIGNALS_FROM))
                     cb_CcPlaySound_CONSTRUCTION_RAIL)].
Proof.
  split; [reflexivity |]. split; [reflexivity |]. split; [reflexivity |].
  split; [reflexivity |]. split; [discriminate |].
  exists (log (EvDoCommandP
                 (mkcmd 0 TRACK_LEFT 0
                    (Z.lor CMD_REMOVE_SIGNALS (CMD_MSG STR_ERROR_CAN_T_REMOVE_SIGNALS_FROM))
                    cb_CcPlaySound_CONSTRUCTION_RAIL))
            (sample_state_in sample_world)).
  split; reflexivity.
Defined.

Lemma GenericPlaceSignals_parallel_tracks_witness :
  chosen_trackbits 60 15 0 = TRACK_BIT_LEFT /\
  chosen_trackbits 12 9 9 = TRACK_BIT_LOWER.
Proof.
  split.
  - destruct (GenericPlaceSignals_parallel_tracks 0 sample_state) as [Hv _].
    destruct (Hv eq_refl) as [Hc _]. exact Hc.
  - destruct (GenericPlaceSignals_parallel_tracks 0 (sample_state_in sample_world_horz)) as [_ Hh].
    destruct (Hh eq_refl eq_refl) as [Hc _]. exact Hc.
Defined.

Lemma one_value_selected_witness :
  (exists this' s',
     BuildRailStationWindow_OnClick (sample_window [2]) 3 sample_state = Ok this' s' /\
     orientation (_railstation (statics s')) = AXIS_Y /\
     lowered_among this' station_dir_group = [3]) /\
  (exists this' s',
     BuildRailDepotWindow_OnClick (sample_window [4]) 1 sample_state = Ok this' s' /\
     _build_depot_direction (statics s') = DIAGDIR_SE /\
     lowered_among this' depot_dir_group = [1]).
Proof.
  destruct (@one_value_selected sample_headers sample_engine) as (Hsc & _ & Hdc & _).
  split.
  - assert (Hsel : station_selected (sample_window [2]) sample_state) by reflexivity.
    assert (Hin : In 3 station_dir_group) by (right; left; reflexivity).
    destruct (Hsc (sample_window [2]) 3 sample_state Hsel Hin)
      as (this' & s' & Hrun & _ & _ & Hy & Hl & _).
    exists this', s'. split; [exact Hrun |]. split; [exact (Hy eq_refl) | exact Hl].
  - assert (Hsel : depot_selected (sample_window [4]) sample_state) by reflexivity.
    assert (Hin : In 1 depot_dir_group) by (right; left; reflexivity).
    destruct (Hdc (sample_window [4]) 1 sample_state Hsel Hin)
      as (this' & s' & Hrun & _ & _ & Hse & _ & _ & _ & Hl & _).
    exists this', s'. split; [exact Hrun |]. split; [exact (Hse eq_refl) | exact Hl].
Defined.

Lemma DoAutodirTerraform_places_track_witness :
  (exists b s' rest,
     DoAutodirTerraform true 0 257 4 sample_rail_cmd 1 258 257 257 sample_state = Ok b s' /\
     trace s' = [EvDoCommand 258 1 1 6 100; EvDoCommand 257 257 5 6 100]
                ++ EvDoCommand 0 257 256 6 (Z.lor 1 (Z.shiftl 4114 16)) :: rest) /\
  (exists b s',
     DoAutodirTerraform true 0 257 4 sample_rail_cmd 1 258 257 257
       (sample_state_in sample_world_level) = Ok b s' /\
     trace s' = [EvDoCommand 258 1 1 6 100; EvDoCommand 257 257 5 6 100]
                ++ [EvDoCommandWithCallback (mkcmd 258 1 1 100 cb_CcTerraform)
                      {| rc_rail_cmd := sample_rail_cmd; rc_start_tile := 0; rc_end_tile := 257;
                         rc_track := 4; rc_estimate := false |}]).
Proof.
  split.
  - edestruct (DoAutodirTerraform_places_track true 0 257 4 sample_rail_cmd 1 258 257 257 sample_state)
      as (Hboth & _); [reflexivity | reflexivity |].
    destruct (Hboth eq_refl eq_refl) as (_ & b & s' & rest & Hrun & Htr).
    exists b, s', rest. split; [exact Hrun | exact Htr].
  - edestruct (DoAutodirTerraform_places_track true 0 257 4 sample_rail_cmd 1 258 257 257
                 (sample_state_in sample_world_level))
      as (_ & Hone & _); [reflexivity | reflexivity |].
    destruct (Hone eq_refl eq_refl) as (b & s' & Hrun & Htr).
    exists b, s'. split; [exact Hrun | exact Htr].
Defined.


Lemma HandleAutodirTerraform_directions_witness :
  (HandleAutodirTerraform 0 257 4 sample_rail_cmd sample_state =
     DoAutodirTerraform true 0 257 4 sample_rail_cmd 1 258 257 257 sample_state /\
   exists r s' added,
     HandleAutodirTerraform 0 257 4 sample_rail_cmd sample_state = Ok r s' /\
     trace s' = EvDoCommand 258 1 1 6 100 :: EvDoCommand 257 257 5 6 100 :: added) /\
  HandleAutodirTerraform 0 257 4 sample_rail_cmd (sample_state_in sample_world_horz) =
    Ok true (sample_state_in sample_world_horz).
Proof.
  split.
  - destruct (HandleAutodirTerraform_directions 0 257 4 sample_rail_cmd sample_state)
      as (_ & _ & _ & _ & _ & _ & Hleft_n & _).
    exact (Hleft_n eq_refl).
  - destruct (HandleAutodirTerraform_directions 0 257 4 sample_rail_cmd
                (sample_state_in sample_world_horz))
      as (_ & _ & _ & _ & _ & _ & _ & _ & _ & _ & _ & _ & _ & _ & _ & Hout).
    apply Hout. simpl. intuition discriminate.
Defined.

(** * Further properties *)

Section Properties_rest.
Context {Hdr : Headers} {Eng : Engine} {HdrX : HeadersExt} {EngX : EngineExt}.

Ltac step :=
  unfold bind, ret, gets, modify, emit, when, fault; simpl.

(* Reads of a state that was just written. *)
Ltac red_state :=
  cbv beta;
  cbn [world statics settings toolbar trace set_world set_statics set_settings set_toolbar
       log fst snd negb andb orb].

(* A run that ends in a given state after adding the events of [l]. *)
Tactic Notation "events_are" uconstr(l) :=
  eexists _, l; split; [reflexivity|];
  split; [simpl; rewrite <- ?app_assoc, ?app_nil_r; reflexivity|];
  repeat split; try discriminate; auto; unfold not; intros; simpl in *;
  intuition (try discriminate; try congruence).
Ltac events :=
  first [ solve [events_are (@nil Event)] | solve [events_are [_]]
        | solve [events_are [_; _]] | solve [events_are [_; _; _]] ].

(** ** The parameters of the track commands *)

Lemma land_shiftl_small (a b k : Z) :
  0 <= k -> 0 <= a < 2 ^ k -> Z.land a (Z.shiftl b k) = 0.
Proof.
  intros Hk Ha. apply Z.bits_inj'. intros n Hn.
  rewrite Z.land_spec, Z.bits_0.
  destruct (Z.lt_ge_cases n k) as [Hlt | Hge].
  - rewrite Z.shiftl_spec_low by exact Hlt. apply andb_false_r.
  - assert (Z.testbit a n = false) as ->; [|reflexivity].
    destruct (Z.eq_dec a 0) as [-> | Hne]; [apply Z.bits_0|].
    apply Z.bits_above_log2; [lia|].
    apply Z.lt_le_trans with k; [|exact Hge].
    apply Z.log2_lt_pow2; lia.
Qed.

Lemma lor_shiftl_add (a b k : Z) :
  0 <= k -> 0 <= a < 2 ^ k -> Z.lor a (Z.shiftl b k) = a + b * 2 ^ k.
Proof.
  intros Hk Ha.
  pose proof (Z.add_lor_land a (Z.shiftl b k)) as H.
  rewrite (land_shiftl_small a b k Hk Ha), Z.shiftl_mul_pow2 in H by exact Hk.
  rewrite Z.shiftl_mul_pow2 by exact Hk. lia.
Qed.

Lemma DoRailroadTrackCmd_p2_sum (s : State) (start_tile end_tile track : Z) :
  0 <= _cur_railtype (statics s) < 2 ^ 6 ->
  0 <= track < 2 ^ 3 ->
  p2 (DoRailroadTrackCmd s start_tile end_tile track) =
    _cur_railtype (statics s) + track * 2 ^ 6
    + Z.b2z (gui_auto_remove_signals (settings s)) * 2 ^ 11.
Proof.
  intros Hrt Htr. simpl. unfold uint32.
  set (rt := _cur_railtype (statics s)) in *.
  set (b := Z.b2z (gui_auto_remove_signals (settings s))).
  assert (0 <= b <= 1) as Hb by (subst b; destruct (gui_auto_remove_signals _); simpl; lia).
  rewrite !Z.shiftl_mul_pow2 by lia.
  rewrite (Z.mod_small rt), (Z.mod_small track), (Z.mod_small b) by lia.
  rewrite (Z.mod_small (track * 2 ^ 6)), (Z.mod_small (b * 2 ^ 11)) by lia.
  rewrite <- (Z.shiftl_mul_pow2 track 6), <- (Z.shiftl_mul_pow2 b 11) by lia.
  rewrite (lor_shiftl_add rt track 6) by lia.
  rewrite (lor_shiftl_add (rt + track * 2 ^ 6) b 11) by lia.
  rewrite !Z.shiftl_mul_pow2 by lia. reflexivity.
Qed.

(** X1.  [DoRailroadTrackCmd] packs three fields into [p2] that do not
    overlap: for a rail type below 64 and a track below 8, the low six bits
    read back the rail type, the three bits from bit 6 read back the track,
    bit 11 is the auto-remove-signals setting, and no other bit is set. *)
Theorem DoRailroadTrackCmd_p2_fields (s : State) (start_tile end_tile track : Z) :
  0 <= _cur_railtype (statics s) < 2 ^ 6 ->
  0 <= track < 2 ^ 3 ->
  let c := DoRailroadTrackCmd s start_tile end_tile track in
  tile c = start_tile /\ p1 c = end_tile /\
  Z.land (p2 c) (Z.ones 6) = _cur_railtype (statics s) /\
  Z.land (Z.shiftr (p2 c) 6) (Z.ones 3) = track /\
  Z.testbit (p2 c) 11 = gui_auto_remove_signals (settings s) /\
  Z.land (Z.shiftr (p2 c) 9) (Z.ones 2) = 0 /\
  Z.shiftr (p2 c) 12 = 0.
Proof.
  intros Hrt Htr c. subst c.
  rewrite (DoRailroadTrackCmd_p2_sum s start_tile end_tile track Hrt Htr).
  split; [reflexivity|]. split; [reflexivity|].
  set (rt := _cur_railtype (statics s)) in *.
  rewrite Z.testbit_odd, !Z.land_ones, !Z.shiftr_div_pow2 by lia.
  destruct (gui_auto_remove_signals (settings s));
    change (2 ^ 6) with 64 in *; change (2 ^ 3) with 8 in *; change (2 ^ 11) with 2048;
    change (2 ^ 9) with 512; change (2 ^ 12) with 4096; change (2 ^ 2) with 4;
    cbn [Z.b2z].
  all: repeat split.
  all: try (Z.div_mod_to_equations; lia).
  - replace ((rt + track * 64 + 1 * 2048) / 2048) with 1 by (Z.div_mod_to_equations; lia).
    reflexivity.
  - replace ((rt + track * 64 + 0 * 2048) / 2048) with 0 by (Z.div_mod_to_equations; lia).
    reflexivity.
Qed.

(** X2.  [GenericPlaceRailCmd] keeps the track and the auto-remove-signals
    flag apart in [p2]: for a track below 8, the low three bits read back the
    track, bit 3 is the setting, and no other bit is set. *)
Theorem GenericPlaceRailCmd_p2_fields (s : State) (t track : Z) :
  0 <= track < 2 ^ 3 ->
  let c := GenericPlaceRailCmd s t track in
  tile c = t /\ p1 c = _cur_railtype (statics s) /\
  Z.land (p2 c) (Z.ones 3) = track /\
  Z.testbit (p2 c) 3 = gui_auto_remove_signals (settings s) /\
  Z.shiftr (p2 c) 4 = 0.
Proof.
  intros Htr c. subst c. unfold GenericPlaceRailCmd, uint32. cbn [tile p1 p2].
  set (b := Z.b2z (gui_auto_remove_signals (settings s))).
  assert (0 <= b <= 1) as Hb by (subst b; destruct (gui_auto_remove_signals _); simpl; lia).
  rewrite (Z.mod_small b) by lia.
  rewrite (Z.shiftl_mul_pow2 b 3), (Z.mod_small (b * 2 ^ 3)) by lia.
  rewrite <- (Z.shiftl_mul_pow2 b 3), (lor_shiftl_add track b 3) by lia.
  split; [reflexivity|]. split; [reflexivity|].
  rewrite Z.testbit_odd, !Z.land_ones, !Z.shiftr_div_pow2 by lia.
  subst b. destruct (gui_auto_remove_signals (settings s));
    change (2 ^ 3) with 8 in *; change (2 ^ 4) with 16; cbn [Z.b2z].
  all: repeat split.
  all: try (Z.div_mod_to_equations; lia).
  - replace ((track + 1 * 8) / 8) with 1 by (Z.div_mod_to_equations; lia).
    reflexivity.
  - replace ((track + 0 * 8) / 8) with 0 by (Z.div_mod_to_equations; lia).
    reflexivity.
Qed.


(** ** The callbacks on success *)

Lemma PlaceExtraDepotRail_run (t dir track : Z) (s : State) :
  let c := mkcmd t (_cur_railtype (statics s))
             (uint32 (Z.lor track (Z.shiftl (Z.b2z (gui_auto_remove_signals (settings s))) 3)))
             CMD_BUILD_SINGLE_RAIL cb_nullptr in
  exists s' cmds,
    PlaceExtraDepotRail t dir track s = Ok tt s' /\
    (cmds = [] \/ cmds = [c]) /\
    trace s' = trace s ++ map EvDoCommandP cmds /\
    statics s' = statics s /\ settings s' = settings s /\
    (cmds = [] -> s' = s) /\
    (GetRailTileType (world s) t = RAIL_TILE_DEPOT -> cmds = []).
Proof.
  intros c. unfold PlaceExtraDepotRail. step.
  destruct (GetRailTileType (world s) t =? RAIL_TILE_DEPOT) eqn:Hd.
  { exists s, []. simpl. rewrite app_nil_r. repeat split; auto. }
  destruct ((GetRailTileType (world s) t =? RAIL_TILE_SIGNALS)
            && negb (gui_auto_remove_signals (settings s))).
  { exists s, []. simpl. rewrite app_nil_r. repeat split; auto. }
  destruct (Z.land (GetTrackBits (world s) t) (DiagdirReachesTracks dir) =? 0).
  { exists s, []. simpl. rewrite app_nil_r. repeat split; auto. }
  unfold DoCommandP. fold c.
  destruct (engine_DoCommandP (world s) c) as [r w'].
  eexists _, [c]. simpl. repeat split; auto.
  - discriminate.
  - intros He. apply Z.eqb_neq in Hd. contradiction.
Qed.

Lemma CcRailDepot_success_run (result : CommandCost) (t : TileIndex) (a dir c : Z) (s : State) :
  Succeeded result = true ->
  0 <= dir <= 3 ->
  let front := uint32 (t + TileOffsByDiagDir dir) in
  exists s' cmds,
    CcRailDepot result t a dir c s = Ok tt s' /\
    trace s' = trace s
               ++ (if sound_confirm (settings s)
                   then [EvSndPlayTileFx SND_20_CONSTRUCTION_RAIL t] else [])
               ++ (if gui_persistent_buildingtools (settings s)
                   then [] else [EvResetObjectToPlace])
               ++ map EvDoCommandP cmds /\
    (length cmds <= 3)%nat /\
    (forall x, In x cmds ->
       tile x = front /\ p1 x = _cur_railtype (statics s) /\
       cmd x = CMD_BUILD_SINGLE_RAIL /\ callback x = cb_nullptr /\
       exists k track,
         In k [0; 4; 8] /\ _place_depot_extra_track !! Z.to_nat (dir + k) = Some track /\
         p2 x = uint32 (Z.lor track
                          (Z.shiftl (Z.b2z (gui_auto_remove_signals (settings s))) 3))) /\
    (IsTileType (world s) front MP_RAILWAY = false -> cmds = []) /\
    (GetRailTileType (world s) front = RAIL_TILE_DEPOT -> cmds = []).
Proof.
  intros Hok Hdir front.
  unfold CcRailDepot, Failed. rewrite Hok. cbn [negb].
  set (pre := (if sound_confirm (settings s)
               then [EvSndPlayTileFx SND_20_CONSTRUCTION_RAIL t] else [])
              ++ (if gui_persistent_buildingtools (settings s)
                  then [] else [EvResetObjectToPlace])).
  assert (exists s0,
            trace s0 = trace s ++ pre /\ statics s0 = statics s /\
            settings s0 = settings s /\ world s0 = world s /\
            forall (k : M unit),
              bind (gets (fun s => sound_confirm (settings s)))
                (fun sc => bind (when sc (emit (EvSndPlayTileFx SND_20_CONSTRUCTION_RAIL t)))
                   (fun _ => bind (gets (fun s => gui_persistent_buildingtools (settings s)))
                      (fun pb => bind (when (negb pb) (emit EvResetObjectToPlace))
                         (fun _ => k)))) s = k s0) as (s0 & Htr0 & Hst0 & Hse0 & Hw0 & Hrun0).
  { subst pre. unfold bind, gets, when, emit, modify, ret.
    destruct (sound_confirm (settings s)) eqn:Hsc; cbn [settings log negb];
      destruct (gui_persistent_buildingtools (settings s)) eqn:Hpb; cbn [negb].
    - exists (log (EvSndPlayTileFx SND_20_CONSTRUCTION_RAIL t) s). repeat split; reflexivity.
    - exists (log EvResetObjectToPlace (log (EvSndPlayTileFx SND_20_CONSTRUCTION_RAIL t) s)).
      simpl. rewrite <- app_assoc. repeat split; reflexivity.
    - exists s. rewrite app_nil_r. repeat split; reflexivity.
    - exists (log EvResetObjectToPlace s). repeat split; reflexivity. }
  rewrite Hrun0. fold front.
  unfold bind at 1. unfold gets at 1.
  rewrite Hw0.
  destruct (IsTileType (world s) front MP_RAILWAY) eqn:Hrail.
  2:{ exists s0, []. unfold ret. cbn [map]. rewrite app_nil_r. fold pre. rewrite <- Htr0.
      split; [reflexivity|]. split; [reflexivity|]. split; [simpl; lia|].
      split; [intros x []|]. split; reflexivity. }
  assert (dir = 0 \/ dir = 1 \/ dir = 2 \/ dir = 3) as Hcases by lia.
  assert (exists d0 t0 d1 t1 d2 t2,
            _place_depot_extra_dir !! Z.to_nat dir = Some d0 /\
            _place_depot_extra_track !! Z.to_nat dir = Some t0 /\
            _place_depot_extra_dir !! Z.to_nat (dir + 4) = Some d1 /\
            _place_depot_extra_track !! Z.to_nat (dir + 4) = Some t1 /\
            _place_depot_extra_dir !! Z.to_nat (dir + 8) = Some d2 /\
            _place_depot_extra_track !! Z.to_nat (dir + 8) = Some t2)
    as (d0 & t0 & d1 & t1 & d2 & t2 & Hd0 & Ht0 & Hd1 & Ht1 & Hd2 & Ht2).
  { destruct Hcases as [-> | [-> | [-> | ->]]]; do 6 eexists; repeat split; reflexivity. }
  unfold bind at 1. rewrite (index_lookup _ dir _ s0 ltac:(lia) Hd0).
  unfold bind at 1. rewrite (index_lookup _ dir _ s0 ltac:(lia) Ht0).
  destruct (PlaceExtraDepotRail_run front d0 t0 s0)
    as (sA & cA & HrA & HcA & HtrA & HstA & HseA & HnilA & HdepA).
  unfold bind at 1. rewrite HrA.
  unfold bind at 1. rewrite (index_lookup _ (dir + 4) _ sA ltac:(lia) Hd1).
  unfold bind at 1. rewrite (index_lookup _ (dir + 4) _ sA ltac:(lia) Ht1).
  destruct (PlaceExtraDepotRail_run front d1 t1 sA)
    as (sB & cB & HrB & HcB & HtrB & HstB & HseB & HnilB & HdepB).
  unfold bind at 1. rewrite HrB.
  unfold bind at 1. rewrite (index_lookup _ (dir + 8) _ sB ltac:(lia) Hd2).
  unfold bind at 1. rewrite (index_lookup _ (dir + 8) _ sB ltac:(lia) Ht2).
  destruct (PlaceExtraDepotRail_run front d2 t2 sB)
    as (sC & cC & HrC & HcC & HtrC & HstC & HseC & HnilC & HdepC).
  rewrite HrC.
  replace dir with (dir + 0) in Ht0 by lia.
  exists sC, (cA ++ cB ++ cC).
  split; [reflexivity|].
  rewrite HstB, HstA, Hst0, HseB, HseA, Hse0 in *.
  split.
  { rewrite HtrC, HtrB, HtrA, Htr0. subst pre.
    rewrite !map_app, <- !app_assoc. reflexivity. }
  split.
  { rewrite !length_app.
    destruct HcA as [-> | ->], HcB as [-> | ->], HcC as [-> | ->]; simpl; lia. }
  split.
  { intros x Hx. apply in_app_or in Hx. destruct Hx as [Hx | Hx].
    - destruct HcA as [-> | ->]; [destruct Hx|].
      destruct Hx as [<- | []]. repeat split.
      exists 0, t0. repeat split; simpl; auto.
    - apply in_app_or in Hx. destruct Hx as [Hx | Hx].
      + destruct HcB as [-> | ->]; [destruct Hx|].
        destruct Hx as [<- | []]. repeat split.
        exists 4, t1. repeat split; simpl; auto.
      + destruct HcC as [-> | ->]; [destruct Hx|].
        destruct Hx as [<- | []]. repeat split.
        exists 8, t2. repeat split; simpl; auto. }
  split; [discriminate|].
  intros Hdep.
  assert (cA = []) as HA by (apply HdepA; rewrite Hw0; exact Hdep).
  assert (sA = s0) as -> by (apply HnilA, HA).
  assert (cB = []) as HB by (apply HdepB; rewrite Hw0; exact Hdep).
  assert (sB = s0) as -> by (apply HnilB, HB).
  assert (cC = []) as HC by (apply HdepC; rewrite Hw0; exact Hdep).
  rewrite HA, HB, HC. reflexivity.
Qed.

(** X3.  After a depot was built, [CcRailDepot] submits nothing but
    single-rail builds on the tile in front of the depot, with the current
    rail type and no callback, each for a track of the depot's column of
    [_place_depot_extra_track], and at most three of them; none at all when
    that tile is not a railway tile or is a depot itself. *)
Theorem CcRailDepot_extra_rails (result : CommandCost) (t : TileIndex) (a dir c : Z) (s : State) :
  Succeeded result = true ->
  0 <= dir <= 3 ->
  let front := uint32 (t + TileOffsByDiagDir dir) in
  exists s' cmds,
    CcRailDepot result t a dir c s = Ok tt s' /\
    trace s' = trace s
               ++ (if sound_confirm (settings s)
                   then [EvSndPlayTileFx SND_20_CONSTRUCTION_RAIL t] else [])
               ++ (if gui_persistent_buildingtools (settings s)
                   then [] else [EvResetObjectToPlace])
               ++ map EvDoCommandP cmds /\
    (length cmds <= 3)%nat /\
    (forall x, In x cmds ->
       tile x = front /\ p1 x = _cur_railtype (statics s) /\
       cmd x = CMD_BUILD_SINGLE_RAIL /\ callback x = cb_nullptr /\
       exists k track,
         In k [0; 4; 8] /\ _place_depot_extra_track !! Z.to_nat (dir + k) = Some track /\
         p2 x = uint32 (Z.lor track
                          (Z.shiftl (Z.b2z (gui_auto_remove_signals (settings s))) 3))) /\
    (IsTileType (world s) front MP_RAILWAY = false -> cmds = []) /\
    (GetRailTileType (world s) front = RAIL_TILE_DEPOT -> cmds = []).
Proof. exact (CcRailDepot_success_run result t a dir c s). Qed.


(** X4.  What the four command callbacks leave alone: with persistent
    building tools on none of them resets the tool, with the confirm sound
    off none of them plays a sound, and [CcStation] resets the tool only for
    the default station of the default class. *)
Theorem callbacks_keep_tool_and_silence (cb : CommandCallback) (result : CommandCost)
    (t : TileIndex) (a b c : Z) (m : M unit) (s : State) :
  run_callback cb result t a b c = Some m ->
  (cb = cb_CcRailDepot -> 0 <= b <= 3) ->
  exists s' added,
    m s = Ok tt s' /\ trace s' = trace s ++ added /\
    (gui_persistent_buildingtools (settings s) = true -> ~ In EvResetObjectToPlace added) /\
    (sound_confirm (settings s) = false ->
     forall snd tile, ~ In (EvSndPlayTileFx snd tile) added) /\
    (cb = cb_CcStation -> In EvResetObjectToPlace added ->
     station_class (_railstation (statics s)) = STAT_CLASS_DFLT /\
     station_type (_railstation (statics s)) = 0).
Proof.
  intros Hcb Hdir.
  assert (forall e : Event, trace s ++ [e] = trace s ++ [e]) as _ by reflexivity.
  destruct cb; simpl in Hcb; try discriminate; injection Hcb as <-.
  - (* CcPlaySound_CONSTRUCTION_RAIL *)
    unfold CcPlaySound_CONSTRUCTION_RAIL. step.
    destruct (Succeeded result), (sound_confirm (settings s)); simpl; events.
  - (* CcRailDepot *)
    destruct (Succeeded result) eqn:Hok.
    + destruct (CcRailDepot_success_run result t a b c s Hok (Hdir eq_refl))
        as (s' & cmds & Hrun & Htr & _).
      eexists s', _. split; [exact Hrun|]. split; [exact Htr|].
      repeat split.
      * intros Hpb Hin. rewrite Hpb in Hin.
        apply in_app_or in Hin. destruct Hin as [Hin | Hin].
        -- destruct (sound_confirm (settings s)); simpl in Hin; intuition discriminate.
        -- simpl in Hin. apply in_map_iff in Hin. destruct Hin as (x & Hx & _). discriminate.
      * intros Hsc snd tile Hin. rewrite Hsc in Hin. simpl in Hin.
        apply in_app_or in Hin. destruct Hin as [Hin | Hin].
        -- destruct (gui_persistent_buildingtools (settings s)); simpl in Hin;
             intuition discriminate.
        -- apply in_map_iff in Hin. destruct Hin as (x & Hx & _). discriminate.
      * discriminate.
      * discriminate.
    + unfold CcRailDepot, Failed. rewrite Hok. simpl. unfold ret. events.
  - (* CcStation *)
    unfold CcStation, Failed. destruct (Succeeded result); cbn [negb].
    2:{ unfold ret. events. }
    unfold bind, gets, when, emit, modify, ret.
    destruct (sound_confirm (settings s)) eqn:Hsc; cbn [settings statics log];
      destruct (station_class (_railstation (statics s)) =? STAT_CLASS_DFLT) eqn:Hcl;
      destruct (station_type (_railstation (statics s)) =? 0) eqn:Hty;
      destruct (gui_persistent_buildingtools (settings s)) eqn:Hpb; cbn [negb andb].
    all: try apply Z.eqb_eq in Hcl; try apply Z.eqb_eq in Hty.
    all: events.
  - (* CcBuildRailTunnel *)
    unfold CcBuildRailTunnel. unfold bind, gets, when, emit, modify, ret.
    destruct (Succeeded result); cbn [settings world log].
    2:{ events. }
    destruct (sound_confirm (settings s)) eqn:Hsc; cbn [settings world log];
      destruct (gui_persistent_buildingtools (settings s)) eqn:Hpb; cbn [negb].
    all: events.
Qed.


(** ** The track command of the polyline tool *)

Ltac rail_callback_case :=
  split; [reflexivity|];
  split; [simpl; rewrite <- ?app_assoc; reflexivity|];
  repeat split; auto; try discriminate; eauto;
  intros; simpl in *; intuition (try discriminate; try congruence).

Lemma rail_callback_cases (k : RailCallback) (res : bool) (st : State) :
  let c := rc_rail_cmd k in
  let flags := Z.lor DC_AUTO DC_NO_WATER in
  let test := engine_DoCommand (world st) (tile c) (p1 c) (p2 c) flags (cmd c) in
  let overbuilt :=
    (GetErrorMessage (fst test) =? STR_ERROR_ALREADY_BUILT)
    && negb (_rail_track_endtile (snd test) =? INVALID_TILE) in
  exists b st' rest,
    rail_callback k res st = Ok b st' /\
    trace st' = trace st ++ EvDoCommand (tile c) (p1 c) (p2 c) flags (cmd c) :: rest /\
    (b = res \/ (b = false /\ rest = [EvDoCommandP c])) /\
    (overbuilt = true ->
     b = res /\
     rest = if rc_estimate k then []
            else [EvStoreRailPlacementEndpoints (rc_start_tile k)
                    (_rail_track_endtile (snd test)) (rc_track k) true]) /\
    (overbuilt = false -> exists rest', rest = EvDoCommandP c :: rest') /\
    (forall s e tr f,
       In (EvStoreRailPlacementEndpoints s e tr f) rest ->
       rc_estimate k = false /\ e <> INVALID_TILE /\
       s = rc_start_tile k /\ tr = rc_track k /\ f = true).
Proof.
  intros c flags test overbuilt.
  unfold rail_callback, DoCommand, DoCommandP, bind, gets, when, emit, modify, ret.
  fold c. fold flags. fold test.
  destruct test as [r w1] eqn:Htest. subst overbuilt. red_state.
  destruct (GetErrorMessage r =? STR_ERROR_ALREADY_BUILT) eqn:Herr;
    destruct (_rail_track_endtile w1 =? INVALID_TILE) eqn:Hend; red_state.
  2: destruct (rc_estimate k) eqn:Hest; red_state.
  1,4-5: destruct (engine_DoCommandP w1 c) as [ok w2] eqn:Hsub; red_state;
         destruct ok; red_state;
         [destruct (rc_estimate k) eqn:Hest; red_state;
          [|destruct (_rail_track_endtile w2 =? INVALID_TILE) eqn:Hend2; red_state]|].
  all: rewrite ?Hend; red_state.
  all: try apply Z.eqb_neq in Hend; try apply Z.eqb_neq in Hend2.
  all: first
    [ solve [eexists _, _, []; rail_callback_case]
    | solve [eexists _, _, [_]; rail_callback_case]
    | solve [eexists _, _, [_; _]; rail_callback_case] ].
Qed.




Lemma DoAutodirTerraform_snap_points (diagonal : bool) (start_tile end_tile : TileIndex)
    (track : Z) (rail_cmd : CommandContainer) (s1 e1 s2 e2 : TileIndex) (s : State) :
  exists b s' added,
    DoAutodirTerraform diagonal start_tile end_tile track rail_cmd s1 e1 s2 e2 s = Ok b s' /\
    trace s' = trace s ++ added /\
    snap_points_of start_tile track added.
Proof.
  pose proof (DoAutodirTerraform_run diagonal start_tile end_tile track rail_cmd
                s1 e1 s2 e2 s) as Hrun.
  cbv zeta in Hrun.
  set (k := {| rc_rail_cmd := rail_cmd; rc_start_tile := start_tile; rc_end_tile := end_tile;
               rc_track := track; rc_estimate := _estimate_mod (world s) |}) in *.
  set (p2_1 := level_p2 (TileHeight (world s) s1 <? TileHeight (world s) s2)
                 (if diagonal then 1 else 0)) in *.
  set (p2_2 := level_p2 (TileHeight (world s) s2 <? TileHeight (world s) s1)
                 (if diagonal then 1 else 0)) in *.
  set (flags := Z.lor DC_AUTO DC_NO_WATER) in *.
  pose proof (DoCommand_run e1 s1 p2_1 flags CMD_LEVEL_LAND s) as H1.
  set (sA := set_world _ _) in H1.
  pose proof (DoCommand_run e2 s2 p2_2 flags CMD_LEVEL_LAND sA) as H2.
  set (sB := set_world _ _) in H2.
  destruct (Hrun _ _ _ _ H1 H2) as [-> HtrB]. clear Hrun.
  set (tests := [EvDoCommand e1 s1 p2_1 flags CMD_LEVEL_LAND;
                 EvDoCommand e2 s2 p2_2 flags CMD_LEVEL_LAND]) in *.
  assert (forall st e tr f, ~ In (EvStoreRailPlacementEndpoints st e tr f) tests) as Htests.
  { intros st e tr f [Hin | [Hin | []]]; discriminate. }
  assert (forall b s' c,
            DoCommandWithCallback c k sB = Ok b s' ->
            trace s' = trace sB ++ [EvDoCommandWithCallback c k] ->
            exists added,
              trace s' = trace s ++ added /\ snap_points_of start_tile track added) as Hlast.
  { intros b s' c _ Htr. exists (tests ++ [EvDoCommandWithCallback c k]).
    split; [rewrite Htr, HtrB, <- app_assoc; reflexivity|].
    intros st e tr f Hin. apply in_app_or in Hin. destruct Hin as [Hin | [Hin | []]].
    - destruct (Htests _ _ _ _ Hin).
    - discriminate. }
  destruct (negb (Succeeded (fst (engine_DoCommand (world s) e1 s1 p2_1 flags CMD_LEVEL_LAND)))
            && negb (Succeeded (fst (engine_DoCommand (world sA) e2 s2 p2_2 flags CMD_LEVEL_LAND)))).
  { destruct (rail_callback_cases k true sB) as (b & s' & rest & Hr & Htr & _ & _ & _ & Hst).
    exists b, s'. eexists. split; [exact Hr|].
    split; [rewrite Htr, HtrB, <- app_assoc; reflexivity|].
    intros st e tr f Hin.
    apply in_app_or in Hin. destruct Hin as [Hin | [Hin | Hin]].
    - destruct (Htests _ _ _ _ Hin).
    - discriminate.
    - destruct (Hst _ _ _ _ Hin) as (_ & He & -> & -> & ->). repeat split; auto. }
  destruct (negb (Succeeded (fst (engine_DoCommand (world sA) e2 s2 p2_2 flags CMD_LEVEL_LAND)))).
  { destruct (DoCommandWithCallback_run (mkcmd e1 s1 p2_1 CMD_LEVEL_LAND cb_CcTerraform) k sB)
      as (b & s' & Hr & Htr).
    destruct (Hlast _ _ _ Hr Htr) as (added & Ha & Hsp).
    exists b, s', added. auto. }
  destruct (Succeeded (fst (engine_DoCommand (world s) e1 s1 p2_1 flags CMD_LEVEL_LAND))).
  - unfold bind.
    destruct (DoCommandP_run (mkcmd e1 s1 p2_1 CMD_LEVEL_LAND cb_CcTerraform) sB)
      as (b0 & s0 & Hr0 & Htr0).
    rewrite Hr0.
    destruct (DoCommandWithCallback_run (mkcmd e2 s2 p2_2 CMD_LEVEL_LAND cb_CcTerraform) k s0)
      as (b & s' & Hr & Htr).
    exists b, s'. eexists. split; [exact Hr|].
    split; [rewrite Htr, Htr0, HtrB, <- !app_assoc; reflexivity|].
    intros st e tr f Hin.
    apply in_app_or in Hin. destruct Hin as [Hin | [Hin | [Hin | []]]].
    + destruct (Htests _ _ _ _ Hin).
    + discriminate.
    + discriminate.
  - destruct (DoCommandWithCallback_run (mkcmd e2 s2 p2_2 CMD_LEVEL_LAND cb_CcTerraform) k sB)
      as (b & s' & Hr & Htr).
    destruct (Hlast _ _ _ Hr Htr) as (added & Ha & Hsp).
    exists b, s', added. auto.
Qed.

Lemma HandleAutodirTerraform_snap_points (start_tile end_tile : TileIndex) (track : Z)
    (rail_cmd : CommandContainer) (s : State) :
  exists b s' added,
    HandleAutodirTerraform start_tile end_tile track rail_cmd s = Ok b s' /\
    trace s' = trace s ++ added /\
    snap_points_of start_tile track added.
Proof.
  unfold HandleAutodirTerraform. unfold bind at 1. unfold gets at 1.
  destruct (_thd_cm_poly_dir (world s)); try apply DoAutodirTerraform_snap_points.
  exists true, s, []. unfold ret. rewrite app_nil_r.
  split; [reflexivity|]. split; [reflexivity|]. intros st e tr f [].
Qed.


Lemma store_snap_point_run (start_tile : TileIndex) (track : Z) (s : State) :
  exists rest,
    store_snap_point start_tile track s =
      Ok tt {| world := world s; statics := statics s; settings := settings s;
               toolbar := toolbar s; trace := trace s ++ rest |} /\
    rest = (if negb (_estimate_mod (world s)) && negb (_rail_track_endtile (world s) =? INVALID_TILE)
            then [EvStoreRailPlacementEndpoints start_tile (_rail_track_endtile (world s)) track true]
            else []) /\
    snap_points_of start_tile track rest.
Proof.
  unfold store_snap_point, bind, gets, when, emit, modify, ret, log.
  destruct (_estimate_mod (world s)); cbn [negb andb].
  - exists []. rewrite app_nil_r.
    split; [destruct s; reflexivity|]. split; [reflexivity|]. intros ? ? ? ? [].
  - destruct (_rail_track_endtile (world s) =? INVALID_TILE) eqn:He; cbn [negb].
    + exists []. rewrite app_nil_r.
      split; [destruct s; reflexivity|]. split; [reflexivity|]. intros ? ? ? ? [].
    + eexists. split; [reflexivity|]. split; [reflexivity|].
      apply Z.eqb_neq in He.
      intros st e tr f [Hin | []]. injection Hin as <- <- <- <-. repeat split; auto.
Qed.

Lemma HandleAutodirPlacement_submit (c : CommandContainer) (start_tile : TileIndex)
    (track : Z) (s : State) :
  exists s' rest,
    bind (DoCommandP c)
      (fun ok => if negb ok then ret tt else store_snap_point start_tile track) s = Ok tt s' /\
    trace s' = trace s ++ EvDoCommandP c :: rest /\
    (fst (engine_DoCommandP (world s) c) = false -> rest = []) /\
    snap_points_of start_tile track rest.
Proof.
  unfold bind, DoCommandP.
  destruct (engine_DoCommandP (world s) c) as [ok w'] eqn:Hsub.
  destruct ok; cbn [negb fst].
  - destruct (store_snap_point_run start_tile track
                (set_world w' (log (EvDoCommandP c) s))) as (rest & Hr & _ & Hsp).
    rewrite Hr. eexists _, rest. split; [reflexivity|].
    cbn [trace set_world log]. rewrite <- app_assoc.
    split; [reflexivity|]. split; [discriminate|]. exact Hsp.
  - eexists _, []. unfold ret. split; [reflexivity|].
    split; [reflexivity|]. split; [reflexivity|]. intros ? ? ? ? [].
Qed.


(** X7.  Whatever way [HandleAutodirPlacement] takes, the terraforming one
    included, it ends, and every snap point it stores starts at the start
    tile of the drag, is for the track of the drag, and ends at a tile: none
    ends at INVALID_TILE. *)
Theorem HandleAutodirPlacement_snap_points (s : State) :
  exists s' added,
    HandleAutodirPlacement s = Ok tt s' /\
    trace s' = trace s ++ added /\
    snap_points_of (autodir_start s) (autodir_track s) added.
Proof.
  unfold HandleAutodirPlacement. unfold bind at 1. unfold gets at 1.
  unfold bind at 1. unfold gets at 1.
  fold (autodir_track s) (autodir_start s) (autodir_end s). fold (autodir_command s).
  set (c := autodir_command s).
  destruct (_estimate_mod (world s) || (Z.land (_thd_place_mode (world s)) HT_POLY =? 0)
            || _remove_button_clicked (statics s)).
  { destruct (HandleAutodirPlacement_submit c (autodir_start s) (autodir_track s) s)
      as (s' & rest & Hr & Htr & _ & Hsp).
    exists s', (EvDoCommandP c :: rest). split; [exact Hr|]. split; [exact Htr|].
    intros st e tr f [Hin | Hin]; [discriminate|]. exact (Hsp _ _ _ _ Hin). }
  destruct (_thd_cm_poly_terra (world s)).
  { destruct (HandleAutodirTerraform_snap_points (autodir_start s) (autodir_end s)
                (autodir_track s) c s) as (b & s' & added & Hr & Htr & Hsp).
    exists s', added. unfold bind. rewrite Hr. unfold ret. auto. }
  unfold bind at 1. rewrite DoCommand_run.
  set (flags := Z.lor DC_AUTO DC_NO_WATER).
  set (test := engine_DoCommand (world s) (tile c) (p1 c) (p2 c) flags (cmd c)).
  set (s1 := set_world (snd test) (log (EvDoCommand (tile c) (p1 c) (p2 c) flags (cmd c)) s)).
  unfold bind at 1. unfold gets at 1.
  destruct (negb (GetErrorMessage (fst test) =? STR_ERROR_ALREADY_BUILT)
            || (_rail_track_endtile (world s1) =? INVALID_TILE)).
  - destruct (HandleAutodirPlacement_submit c (autodir_start s) (autodir_track s) s1)
      as (s' & rest & Hr & Htr & _ & Hsp).
    eexists s', (_ :: _ :: rest). split; [exact Hr|].
    split; [rewrite Htr; subst s1; cbn [trace set_world log]; rewrite <- app_assoc; reflexivity|].
    intros st e tr f [Hin | [Hin | Hin]]; try discriminate. exact (Hsp _ _ _ _ Hin).
  - destruct (store_snap_point_run (autodir_start s) (autodir_track s) s1)
      as (rest & Hr & _ & Hsp).
    rewrite Hr. eexists _, (_ :: rest). split; [reflexivity|].
    split; [subst s1; cbn [trace set_world log]; rewrite <- app_assoc; reflexivity|].
    intros st e tr f [Hin | Hin]; [discriminate|]. exact (Hsp _ _ _ _ Hin).
Qed.


(** ** The signal window *)

Lemma signal_group_offsets (widget : Z) :
  In widget signal_group <->
  exists j, 0 <= j <= 11 /\ widget = WID_BS_SEMAPHORE_NORM + j.
Proof.
  destruct signal_widgets as (E1 & E2 & E3 & E4 & E5 & E6 & E7 & E8 & E9 & E10 & E11).
  unfold signal_group. rewrite E1, E2, E3, E4, E5, E6, E7, E8, E9, E10, E11. split.
  - intros Hin. simpl in Hin.
    destruct Hin as [<- | Hin]; [exists 0; lia|].
    repeat (destruct Hin as [<- | Hin]; [eexists; split; [|reflexivity]; lia|]).
    destruct Hin.
  - intros (j & Hj & ->). simpl.
    assert (j = 0 \/ j = 1 \/ j = 2 \/ j = 3 \/ j = 4 \/ j = 5 \/ j = 6 \/ j = 7 \/
            j = 8 \/ j = 9 \/ j = 10 \/ j = 11) as Hc by lia.
    repeat (destruct Hc as [-> | Hc]; [rewrite ?Z.add_0_r; tauto|]).
    subst j. tauto.
Qed.

Lemma signal_group_NoDup : NoDup signal_group.
Proof.
  destruct signal_widgets as (E1 & E2 & E3 & E4 & E5 & E6 & E7 & E8 & E9 & E10 & E11).
  unfold signal_group. rewrite E1, E2, E3, E4, E5, E6, E7, E8, E9, E10, E11.
  repeat constructor; rewrite ?list_elem_of_In; simpl; lia.
Qed.


Lemma IsWidgetLowered_Lower (w : Window) (i g : Z) :
  IsWidgetLowered (LowerWidget w i) g = (g =? i) || IsWidgetLowered w g.
Proof.
  unfold IsWidgetLowered, LowerWidget. cbn [lowered].
  destruct (Z.eqb_spec g i) as [-> | Hn]; cbn [orb].
  - apply bool_decide_eq_true. set_solver.
  - apply bool_decide_ext. set_solver.
Qed.

Lemma IsWidgetLowered_Raise (w : Window) (i g : Z) :
  IsWidgetLowered (RaiseWidget w i) g = negb (g =? i) && IsWidgetLowered w g.
Proof.
  unfold IsWidgetLowered, RaiseWidget. cbn [lowered].
  destruct (Z.eqb_spec g i) as [-> | Hn]; cbn [negb andb].
  - apply bool_decide_eq_false. set_solver.
  - apply bool_decide_ext. set_solver.
Qed.

Lemma IsWidgetLowered_SetLowered (w : Window) (i g : Z) (b : bool) :
  IsWidgetLowered (SetWidgetLoweredState w i b) g =
  if g =? i then b else IsWidgetLowered w g.
Proof.
  unfold SetWidgetLoweredState.
  destruct b; rewrite ?IsWidgetLowered_Lower, ?IsWidgetLowered_Raise;
    destruct (g =? i); reflexivity.
Qed.

Lemma IsWidgetLowered_Toggle (w : Window) (i g : Z) :
  IsWidgetLowered (ToggleWidgetLoweredState w i) g =
  if g =? i then negb (IsWidgetLowered w i) else IsWidgetLowered w g.
Proof. unfold ToggleWidgetLoweredState. apply IsWidgetLowered_SetLowered. Qed.

Lemma IsWidgetLowered_SetDisabled (w : Window) (i g : Z) (b : bool) :
  IsWidgetLowered (SetWidgetDisabledState w i b) g = IsWidgetLowered w g.
Proof. reflexivity. Qed.

Lemma IsWidgetDisabled_SetDisabled (w : Window) (i g : Z) (b : bool) :
  IsWidgetDisabled (SetWidgetDisabledState w i b) g =
  if g =? i then b else IsWidgetDisabled w g.
Proof.
  unfold IsWidgetDisabled, SetWidgetDisabledState. cbn [disabled].
  destruct (Z.eqb_spec g i) as [-> | Hn], b.
  - apply bool_decide_eq_true. set_solver.
  - apply bool_decide_eq_false. set_solver.
  - apply bool_decide_ext. set_solver.
  - apply bool_decide_ext. set_solver.
Qed.

Lemma IsWidgetDisabled_SetLowered (w : Window) (i g : Z) (b : bool) :
  IsWidgetDisabled (SetWidgetLoweredState w i b) g = IsWidgetDisabled w g.
Proof. destruct b; reflexivity. Qed.

Lemma lowered_among_only (this : Window) (group : list Z) (x : Z) :
  NoDup group -> In x group ->
  (forall g, In g group -> IsWidgetLowered this g = (g =? x)) ->
  lowered_among this group = [x].
Proof. intros Hnd Hx Hg. unfold lowered_among. apply filter_only; assumption. Qed.

(** What a click on one of the signal buttons computes, with the window as
    [OnInvalidateData] leaves it. *)
Lemma BuildSignalWindow_OnClick_signal (this : Window) (widget : Z) (s : State) :
  is_signal_widget widget = true ->
  let variant := if widget >=? WID_BS_ELECTRIC_NORM then SIG_ELECTRIC else SIG_SEMAPHORE in
  let type := uint32 (Z.rem (widget - WID_BS_SEMAPHORE_NORM) (SIGTYPE_LAST + 1)) in
  exists s',
    BuildSignalWindow_OnClick this widget s =
      Ok (SetWidgetDisabledState
            (SetWidgetDisabledState
               (SetWidgetLoweredState
                  (LowerWidget (RaiseWidget this (signal_button s)) (signal_button s'))
                  WID_BS_CONVERT (_convert_signal_button (statics s)))
               WID_BS_DRAG_SIGNALS_DENSITY_DECREASE (gui_drag_signals_density (settings s) =? 1))
            WID_BS_DRAG_SIGNALS_DENSITY_INCREASE (gui_drag_signals_density (settings s) =? 20))
         s' /\
    _cur_signal_variant (statics s') = variant /\
    _cur_signal_type (statics s') = type /\
    _convert_signal_button (statics s') = _convert_signal_button (statics s) /\
    settings s' = settings s /\ world s' = world s /\
    (_remove_button_clicked (statics s) = false ->
     toolbar s' = toolbar s /\ _remove_button_clicked (statics s') = false /\
     trace s' = trace s ++ [EvSetDirty]) /\
    (toolbar s = None ->
     toolbar s' = None /\
     _remove_button_clicked (statics s') = _remove_button_clicked (statics s) /\
     trace s' = trace s ++ [EvSetDirty]) /\
    (forall w, _remove_button_clicked (statics s) = true -> toolbar s = Some w ->
     toolbar s' = Some (ToggleWidgetLoweredState w WID_RAT_REMOVE) /\
     _remove_button_clicked (statics s') = negb (IsWidgetLowered w WID_RAT_REMOVE) /\
     trace s' = trace s ++ [EvCloseWindowById WC_SELECT_STATION 0;
                            EvSetWidgetDirty WID_RAT_REMOVE;
                            EvSetSelectionRed (negb (IsWidgetLowered w WID_RAT_REMOVE));
                            EvSetDirty]).
Proof.
  intros Hsig variant type.
  unfold BuildSignalWindow_OnClick, BuildSignalWindow_OnInvalidateData. rewrite Hsig.
  fold variant. fold type.
  unfold bind, gets, modify, emit, ret. red_state.
  assert (_remove_button_clicked (set_cur_signal variant type (statics s))
          = _remove_button_clicked (statics s)) as -> by reflexivity.
  destruct (_remove_button_clicked (statics s)) eqn:Hrbc.
  - destruct (toolbar s) as [w |] eqn:Htb.
    + rewrite (ToggleRailButton_Remove_run w). cbv zeta. red_state.
      eexists. split; [reflexivity|].
      cbn [statics settings world toolbar trace set_statics set_toolbar log set_cur_signal
           set_remove_button_clicked _cur_signal_variant _cur_signal_type
           _convert_signal_button _remove_button_clicked].
      repeat split; try discriminate.
      all: match goal with H : Some _ = Some _ |- _ => injection H as <- end.
      all: rewrite <- ?app_assoc; reflexivity.
    + eexists. split; [reflexivity|].
      cbn [statics settings world toolbar trace set_statics set_toolbar log set_cur_signal
           _cur_signal_variant _cur_signal_type _convert_signal_button _remove_button_clicked].
      repeat split; try discriminate; auto.
  - eexists. split; [reflexivity|].
    cbn [statics settings world toolbar trace set_statics set_toolbar log set_cur_signal
         _cur_signal_variant _cur_signal_type _convert_signal_button _remove_button_clicked].
    repeat split; try discriminate; auto.
Qed.


Lemma signal_group_is_signal_widget (widget : Z) :
  In widget signal_group -> is_signal_widget widget = true.
Proof.
  intros Hin. unfold is_signal_widget. apply existsb_exists.
  exists widget. split; [exact Hin | apply Z.eqb_refl].
Qed.

(** X8.  A click on one of the twelve signal buttons selects the variant
    and the type the button stands for, so that the button computed from the
    two is the clicked one again; and when exactly the button of the current
    signal was lowered before, exactly the clicked one is lowered after. *)
Theorem signal_button_click_round_trip (this : Window) (widget : Z) (s : State) :
  In widget signal_group ->
  exists this' s',
    BuildSignalWindow_OnClick this widget s = Ok this' s' /\
    _cur_signal_variant (statics s') =
      (if widget <? WID_BS_ELECTRIC_NORM then SIG_SEMAPHORE else SIG_ELECTRIC) /\
    _cur_signal_type (statics s') = (widget - WID_BS_SEMAPHORE_NORM) mod 6 /\
    0 <= _cur_signal_type (statics s') <= SIGTYPE_LAST /\
    signal_button s' = widget /\
    (signal_selected this s -> signal_selected this' s').
Proof.
  intros Hin.
  pose proof (signal_group_is_signal_widget widget Hin) as Hsig.
  destruct (BuildSignalWindow_OnClick_signal this widget s Hsig)
    as (s' & Hrun & Hvar & Hty & _).
  destruct signal_types as [Hlast Hne].
  destruct signal_widgets as (E1 & E2 & E3 & E4 & E5 & E6 & E7 & E8 & E9 & E10 & E11).
  destruct signal_other_widgets as (Hconv & _).
  apply signal_group_offsets in Hin. destruct Hin as (j & Hj & Hw).
  assert (_cur_signal_type (statics s') = j mod 6) as Hty'.
  { rewrite Hty, Hlast, Hw. replace (WID_BS_SEMAPHORE_NORM + j - WID_BS_SEMAPHORE_NORM) with j by lia.
    assert (j = 0 \/ j = 1 \/ j = 2 \/ j = 3 \/ j = 4 \/ j = 5 \/ j = 6 \/ j = 7 \/
            j = 8 \/ j = 9 \/ j = 10 \/ j = 11) as Hc by lia.
    repeat (destruct Hc as [-> | Hc]; [reflexivity|]). subst j. reflexivity. }
  assert (_cur_signal_variant (statics s') =
          if j <? 6 then SIG_SEMAPHORE else SIG_ELECTRIC) as Hvar'.
  { rewrite Hvar, Hw, E6.
    destruct (Z.ltb_spec j 6), (Z.geb_spec (WID_BS_SEMAPHORE_NORM + j) (WID_BS_SEMAPHORE_NORM + 6));
      try reflexivity; lia. }
  assert (signal_button s' = widget) as Hbtn.
  { unfold signal_button. rewrite Hvar', Hty', Hw, E6.
    destruct (Z.ltb_spec j 6).
    - destruct (Z.eqb_spec SIG_SEMAPHORE SIG_ELECTRIC) as [Heq | _]; [congruence|].
      rewrite Z.mod_small by lia. reflexivity.
    - rewrite Z.eqb_refl.
      replace j with (j - 6 + 1 * 6) at 1 by lia.
      rewrite Z.mod_add, Z.mod_small by lia. lia. }
  eexists _, s'. split; [exact Hrun|].
  split.
  { rewrite Hvar', Hw, E6.
    destruct (Z.ltb_spec j 6), (Z.ltb_spec (WID_BS_SEMAPHORE_NORM + j) (WID_BS_SEMAPHORE_NORM + 6));
      try reflexivity; lia. }
  split.
  { rewrite Hty', Hw. f_equal. lia. }
  split.
  { rewrite Hty', Hlast. pose proof (Z.mod_pos_bound j 6). lia. }
  split; [exact Hbtn|].
  intros Hsel. unfold signal_selected in *. rewrite Hbtn.
  apply filter_only_inv in Hsel. destruct Hsel as [_ Hold].
  apply lowered_among_only.
  - apply signal_group_NoDup.
  - apply signal_group_offsets. exists j. auto.
  - intros g Hg. rewrite !IsWidgetLowered_SetDisabled, IsWidgetLowered_SetLowered.
    pose proof Hg as Hg'. apply signal_group_offsets in Hg'. destruct Hg' as (i & Hi & ->).
    destruct (Z.eqb_spec (WID_BS_SEMAPHORE_NORM + i) WID_BS_CONVERT) as [Heq | _]; [lia|].
    rewrite IsWidgetLowered_select, (Hold _ Hg).
    destruct (_ =? widget), (_ =? signal_button s); reflexivity.
Qed.

(** X9.  The comment of the signal buttons, "if 'remove' button of rail
    build toolbar is active, disable it": with the toolbar open and its remove
    button lowered as the remove flag says, a click on a signal button raises
    the remove button and clears the flag, and touches no other button of the
    toolbar.  With the toolbar not open the flag stays as it was. *)
Theorem signal_button_click_ends_removal (this : Window) (widget : Z) (s : State) :
  In widget signal_group ->
  (forall w,
     toolbar s = Some w ->
     _remove_button_clicked (statics s) = true ->
     IsWidgetLowered w WID_RAT_REMOVE = true ->
     exists this' s' w',
       BuildSignalWindow_OnClick this widget s = Ok this' s' /\
       toolbar s' = Some w' /\
       _remove_button_clicked (statics s') = false /\
       IsWidgetLowered w' WID_RAT_REMOVE = false /\
       (forall i, i <> WID_RAT_REMOVE -> IsWidgetLowered w' i = IsWidgetLowered w i) /\
       trace s' = trace s ++ [EvCloseWindowById WC_SELECT_STATION 0;
                              EvSetWidgetDirty WID_RAT_REMOVE;
                              EvSetSelectionRed false; EvSetDirty]) /\
  (toolbar s = None ->
   exists this' s',
     BuildSignalWindow_OnClick this widget s = Ok this' s' /\
     toolbar s' = None /\
     _remove_button_clicked (statics s') = _remove_button_clicked (statics s)).
Proof.
  intros Hin.
  pose proof (signal_group_is_signal_widget widget Hin) as Hsig.
  destruct (BuildSignalWindow_OnClick_signal this widget s Hsig)
    as (s' & Hrun & _ & _ & _ & _ & _ & _ & Hnone & Hsome).
  split.
  - intros w Htb Hrbc Hlow.
    destruct (Hsome w Hrbc Htb) as (Htb' & Hrbc' & Htr).
    rewrite Hlow in Hrbc', Htr. cbn [negb] in Hrbc', Htr.
    eexists _, s', _. split; [exact Hrun|]. split; [exact Htb'|]. split; [exact Hrbc'|].
    split; [rewrite IsWidgetLowered_toggle_same, Hlow; reflexivity|].
    split; [|exact Htr].
    intros i Hi. apply IsWidgetLowered_toggle_other. exact Hi.
  - intros Htb. destruct (Hnone Htb) as (Htb' & Hrbc' & _).
    eexists _, s'. split; [exact Hrun|]. split; assumption.
Qed.

(** X10.  After a click on any widget of the signal window, whatever the
    window looked like before, the convert button is lowered exactly when
    converting is on, the decrease button is disabled exactly when the
    density is 1 and the increase button exactly when it is 20; a click on the
    convert button turns converting over, a click elsewhere leaves it. *)
Theorem signal_window_follows_state (this : Window) (widget : Z) (s : State) :
  exists this' s',
    BuildSignalWindow_OnClick this widget s = Ok this' s' /\
    IsWidgetLowered this' WID_BS_CONVERT = _convert_signal_button (statics s') /\
    IsWidgetDisabled this' WID_BS_DRAG_SIGNALS_DENSITY_DECREASE = (density s' =? 1) /\
    IsWidgetDisabled this' WID_BS_DRAG_SIGNALS_DENSITY_INCREASE = (density s' =? 20) /\
    _convert_signal_button (statics s') =
      (if widget =? WID_BS_CONVERT then negb (_convert_signal_button (statics s))
       else _convert_signal_button (statics s)).
Proof.
  destruct signal_other_widgets as (Hc & Hd & Hi & Hcd & Hci & Hdi).
  assert (forall (this1 : Window) (s1 : State),
            exists this',
              BuildSignalWindow_OnInvalidateData this1 s1 = Ok this' s1 /\
              IsWidgetLowered this' WID_BS_CONVERT = _convert_signal_button (statics s1) /\
              IsWidgetDisabled this' WID_BS_DRAG_SIGNALS_DENSITY_DECREASE = (density s1 =? 1) /\
              IsWidgetDisabled this' WID_BS_DRAG_SIGNALS_DENSITY_INCREASE = (density s1 =? 20))
    as Hinv.
  { intros this1 s1. eexists. split; [reflexivity|].
    rewrite !IsWidgetLowered_SetDisabled, IsWidgetLowered_SetLowered, Z.eqb_refl.
    rewrite !IsWidgetDisabled_SetDisabled, Z.eqb_refl.
    destruct (Z.eqb_spec WID_BS_DRAG_SIGNALS_DENSITY_DECREASE
                WID_BS_DRAG_SIGNALS_DENSITY_INCREASE) as [Heq | _]; [contradiction|].
    rewrite Z.eqb_refl. repeat split. }
  destruct (is_signal_widget widget) eqn:Hsig.
  { destruct (BuildSignalWindow_OnClick_signal this widget s Hsig)
      as (s' & Hrun & _ & _ & Hconv & Hset & _).
    eexists _, s'. split; [exact Hrun|].
    rewrite !IsWidgetLowered_SetDisabled, IsWidgetLowered_SetLowered, Z.eqb_refl.
    rewrite !IsWidgetDisabled_SetDisabled, Z.eqb_refl.
    destruct (Z.eqb_spec WID_BS_DRAG_SIGNALS_DENSITY_DECREASE
                WID_BS_DRAG_SIGNALS_DENSITY_INCREASE) as [Heq | _]; [contradiction|].
    rewrite Z.eqb_refl. unfold density. rewrite Hset, Hconv.
    destruct (Z.eqb_spec widget WID_BS_CONVERT) as [-> | _]; [|repeat split].
    exfalso. unfold is_signal_widget in Hsig. apply existsb_exists in Hsig.
    destruct Hsig as (x & Hx & Hxe). apply Z.eqb_eq in Hxe. subst x.
    apply signal_group_offsets in Hx. destruct Hx as (j & Hj & Hw). lia. }
  unfold BuildSignalWindow_OnClick. rewrite Hsig.
  unfold bind at 1.
  destruct (Z.eqb_spec widget WID_BS_CONVERT) as [-> | Hnc].
  { unfold bind, modify, emit, ret. red_state.
    destruct (Hinv this (log EvSetDirty
                (set_statics (set_convert_signal_button
                                (negb (_convert_signal_button (statics s))) (statics s)) s)))
      as (this' & Hr & H1 & H2 & H3).
    eexists this', _. split; [exact Hr|]. repeat split; assumption. }
  destruct (Z.eqb_spec widget WID_BS_DRAG_SIGNALS_DENSITY_DECREASE) as [-> | Hnd].
  { unfold bind, gets, modify, emit, ret. red_state.
    destruct (gui_drag_signals_density (settings s) >? 1); red_state.
    - destruct (Hinv this (log EvSetDirty
                  (log (EvSetWindowDirty WC_GAME_OPTIONS WN_GAME_OPTIONS_GAME_SETTINGS)
                     (set_settings (set_drag_signals_density
                                      (uint8 (gui_drag_signals_density (settings s) - 1))
                                      (settings s)) s))))
        as (this' & Hr & H1 & H2 & H3).
      eexists this', _. split; [exact Hr|]. repeat split; assumption.
    - destruct (Hinv this (log EvSetDirty s)) as (this' & Hr & H1 & H2 & H3).
      eexists this', _. split; [exact Hr|]. repeat split; assumption. }
  destruct (Z.eqb_spec widget WID_BS_DRAG_SIGNALS_DENSITY_INCREASE) as [-> | Hni].
  { unfold bind, gets, modify, emit, ret. red_state.
    destruct (gui_drag_signals_density (settings s) <? 20); red_state.
    - destruct (Hinv this (log EvSetDirty
                  (log (EvSetWindowDirty WC_GAME_OPTIONS WN_GAME_OPTIONS_GAME_SETTINGS)
                     (set_settings (set_drag_signals_density
                                      (uint8 (gui_drag_signals_density (settings s) + 1))
                                      (settings s)) s))))
        as (this' & Hr & H1 & H2 & H3).
      eexists this', _. split; [exact Hr|]. repeat split; assumption.
    - destruct (Hinv this (log EvSetDirty s)) as (this' & Hr & H1 & H2 & H3).
      eexists this', _. split; [exact Hr|]. repeat split; assumption. }
  unfold bind, emit, modify, ret. red_state.
  destruct (Hinv this (log EvSetDirty s)) as (this' & Hr & H1 & H2 & H3).
  eexists this', _. split; [exact Hr|]. repeat split; assumption.
Qed.


(** ** The remove button *)

Lemma RailToolbar_CtrlChanged_loop_run (w : Window) (widgets : list Z) (s : State) :
  let hit i := ((i <=? WID_RAT_POLYRAIL) || (i >=? WID_RAT_BUILD_WAYPOINT))
               && IsWidgetLowered w i in
  exists b w' s',
    RailToolbar_CtrlChanged_loop w widgets s = Ok (b, w') s' /\
    (b = true <-> exists i, In i widgets /\ hit i = true) /\
    (b = false -> w' = w /\ s' = s) /\
    (b = true -> ToggleRailButton_Remove w s = Ok w' s').
Proof.
  intros hit. induction widgets as [| i rest IH].
  - exists false, w, s. split; [reflexivity|]. split; [|split; [auto | discriminate]].
    split; [discriminate|]. intros (i & [] & _).
  - cbn [RailToolbar_CtrlChanged_loop]. fold (hit i).
    destruct (hit i) eqn:Hi.
    + pose proof (ToggleRailButton_Remove_run w s) as Hrun. cbv zeta in Hrun.
      unfold bind. rewrite Hrun. unfold ret.
      eexists true, _, _. split; [reflexivity|]. split; [|split; [discriminate | auto]].
      split; [|reflexivity]. intros _. exists i. split; [left; reflexivity | exact Hi].
    + destruct IH as (b & w' & s' & Hr & Hb & Hf & Ht).
      exists b, w', s'. split; [exact Hr|]. split; [|split; assumption].
      rewrite Hb. split.
      * intros (x & Hx & Hhit). exists x. split; [right; exact Hx | exact Hhit].
      * intros (x & [<- | Hx] & Hhit); [congruence|]. exists x. auto.
Qed.

(** X11.  [RailToolbar_CtrlChanged] does what its comment promises, "true
    iff the remove button was changed": it answers true exactly when the
    remove button is enabled and one of the buttons Ctrl works with is
    lowered, and it has then toggled the remove button and set the remove flag
    to the button's new state; when it answers false, nothing has changed. *)
Theorem RailToolbar_CtrlChanged_iff_changed (w : Window) (s : State) :
  exists b w' s',
    RailToolbar_CtrlChanged w s = Ok (b, w') s' /\
    (b = true <->
     IsWidgetDisabled w WID_RAT_REMOVE = false /\
     exists i, ctrl_tool i /\ IsWidgetLowered w i = true) /\
    (b = false -> w' = w /\ s' = s) /\
    (b = true ->
     IsWidgetLowered w' WID_RAT_REMOVE = negb (IsWidgetLowered w WID_RAT_REMOVE) /\
     _remove_button_clicked (statics s') = IsWidgetLowered w' WID_RAT_REMOVE /\
     (forall i, i <> WID_RAT_REMOVE -> IsWidgetLowered w' i = IsWidgetLowered w i) /\
     disabled w' = disabled w).
Proof.
  unfold RailToolbar_CtrlChanged.
  destruct (IsWidgetDisabled w WID_RAT_REMOVE) eqn:Hdis.
  { exists false, w, s. split; [reflexivity|]. split; [|split; [auto | discriminate]].
    split; [discriminate | intros [Hf _]; discriminate]. }
  destruct (RailToolbar_CtrlChanged_loop_run w
              (seqZ WID_RAT_BUILD_NS (WID_RAT_BUILD_STATION - WID_RAT_BUILD_NS + 1)) s)
    as (b & w' & s' & Hr & Hb & Hf & Ht).
  exists b, w', s'. split; [exact Hr|]. split; [|split; [exact Hf|]].
  - rewrite Hb. split.
    + intros (i & Hin & Hhit). split; [reflexivity|]. exists i.
      apply list_elem_of_In, elem_of_seqZ in Hin.
      apply andb_true_iff in Hhit. destruct Hhit as [Hrange Hlow].
      split; [|exact Hlow]. split; [lia|].
      apply orb_true_iff in Hrange. destruct Hrange as [Hle | Hge].
      * left. apply Z.leb_le. exact Hle.
      * right. apply Z.geb_le in Hge. exact Hge.
    + intros (_ & i & ((Hlo & Hhi) & Hor) & Hlow). exists i. split.
      * apply list_elem_of_In, elem_of_seqZ. lia.
      * rewrite Hlow, andb_true_r. apply orb_true_iff.
        destruct Hor as [Hle | Hge]; [left; apply Z.leb_le; exact Hle|].
        right. apply Z.geb_le. exact Hge.
  - intros Hbt. specialize (Ht Hbt).
    pose proof (ToggleRailButton_Remove_run w s) as Hrun. cbv zeta in Hrun.
    rewrite Hrun in Ht. injection Ht as <- <-.
    split; [apply IsWidgetLowered_toggle_same|].
    split; [cbn; rewrite IsWidgetLowered_toggle_same; reflexivity|].
    split; [intros i Hi; apply IsWidgetLowered_toggle_other; exact Hi|].
    unfold ToggleWidgetLoweredState, SetWidgetLoweredState.
    destruct (negb _); reflexivity.
Qed.

(** X12.  After [BuildRailToolbarWindow::OnPlaceObjectAbort] the remove
    button is out of reach: a click on it and a change of Ctrl both leave the
    window and the state as they are. *)
Theorem remove_button_idle_after_abort (this : Window) (s : State) :
  exists this' s',
    BuildRailToolbarWindow_OnPlaceObjectAbort this s = Ok this' s' /\
    BuildRailClick_Remove this' s' = Ok this' s' /\
    RailToolbar_CtrlChanged this' s' = Ok (false, this') s'.
Proof.
  unfold BuildRailToolbarWindow_OnPlaceObjectAbort, bind, when, emit, modify, ret.
  assert (IsWidgetDisabled (DisableWidget (RaiseButtons this) WID_RAT_REMOVE) WID_RAT_REMOVE
          = true) as Hdis.
  { unfold IsWidgetDisabled, DisableWidget. cbn [disabled].
    apply bool_decide_eq_true. set_solver. }
  destruct (IsWidgetLowered this WID_RAT_BUILD_STATION);
    eexists _, _; (split; [reflexivity|]);
    unfold BuildRailClick_Remove, RailToolbar_CtrlChanged; rewrite Hdis; split; reflexivity.
Qed.

(** X13.  [ToggleRailButton_Remove] twice: the first call turns the remove
    flag to the opposite of what the button showed, the second brings every
    button of the window back to where it was and leaves the flag equal to the
    button; settings and the world are not touched. *)
Theorem ToggleRailButton_Remove_twice (w : Window) (s : State) :
  exists w1 s1 w2 s2,
    ToggleRailButton_Remove w s = Ok w1 s1 /\
    ToggleRailButton_Remove w1 s1 = Ok w2 s2 /\
    _remove_button_clicked (statics s1) = negb (IsWidgetLowered w WID_RAT_REMOVE) /\
    _remove_button_clicked (statics s2) = IsWidgetLowered w WID_RAT_REMOVE /\
    (forall i, IsWidgetLowered w2 i = IsWidgetLowered w i) /\
    disabled w2 = disabled w /\
    settings s2 = settings s /\ world s2 = world s /\ toolbar s2 = toolbar s /\
    (_remove_button_clicked (statics s) = IsWidgetLowered w WID_RAT_REMOVE ->
     statics s2 = statics s).
Proof.
  pose proof (ToggleRailButton_Remove_run w s) as H1. cbv zeta in H1.
  eexists _, _. rewrite H1.
  pose proof (ToggleRailButton_Remove_run (ToggleWidgetLoweredState w WID_RAT_REMOVE)
                (log (EvSetSelectionRed (negb (IsWidgetLowered w WID_RAT_REMOVE)))
                   (set_statics
                      (set_remove_button_clicked (negb (IsWidgetLowered w WID_RAT_REMOVE))
                         (statics s))
                      (log (EvSetWidgetDirty WID_RAT_REMOVE)
                         (log (EvCloseWindowById WC_SELECT_STATION 0) s))))) as H2.
  cbv zeta in H2. eexists _, _. rewrite H2.
  split; [reflexivity|]. split; [reflexivity|].
  rewrite IsWidgetLowered_toggle_same, negb_involutive.
  split; [reflexivity|]. split; [reflexivity|].
  split.
  { intros i. rewrite !IsWidgetLowered_Toggle.
    destruct (i =? WID_RAT_REMOVE) eqn:Hi; [|reflexivity].
    apply Z.eqb_eq in Hi. subst i. rewrite Z.eqb_refl, negb_involutive. reflexivity. }
  split.
  { unfold ToggleWidgetLoweredState, SetWidgetLoweredState.
    repeat (destruct (negb _)); reflexivity. }
  split; [reflexivity|]. split; [reflexivity|]. split; [reflexivity|].
  intros Hsync. cbn. rewrite <- Hsync. destruct (statics s); reflexivity.
Qed.


(** ** The sizes of the station picker *)

Lemma bind_gets {A B} (f : State -> A) (k : A -> M B) (s : State) :
  bind (gets f) k s = k (f s) s.
Proof. reflexivity. Qed.

Lemma bind_modify {B} (f : State -> State) (k : unit -> M B) (s : State) :
  bind (modify f) k s = k tt (f s).
Proof. reflexivity. Qed.

Lemma bind_emit {B} (e : Event) (k : unit -> M B) (s : State) :
  bind (emit e) k s = k tt (log e s).
Proof. reflexivity. Qed.

Lemma bind_Ok {A B} (m : M A) (k : A -> M B) (s s1 : State) (a : A) :
  m s = Ok a s1 -> bind m k s = k a s1.
Proof. intros H. unfold bind. rewrite H. reflexivity. Qed.

Lemma testbit_above (a k n : Z) :
  0 <= a < 2 ^ k -> k <= n -> Z.testbit a n = false.
Proof.
  intros Ha Hk.
  destruct (Z.eq_dec a 0) as [-> | Hne]; [apply Z.bits_0|].
  apply Z.bits_above_log2; [lia|].
  apply Z.lt_le_trans with k; [|exact Hk].
  apply Z.log2_lt_pow2; lia.
Qed.

Lemma byte_not_full (mask : Z) :
  0 <= mask < 256 -> mask <> UINT8_MAX ->
  exists j, 1 <= j <= 8 /\ Z.testbit mask (j - 1) = false.
Proof.
  intros Hb Hne.
  destruct (Z.testbit mask 0) eqn:H0; [|exists 1; split; [lia | exact H0]].
  destruct (Z.testbit mask 1) eqn:H1; [|exists 2; split; [lia | exact H1]].
  destruct (Z.testbit mask 2) eqn:H2; [|exists 3; split; [lia | exact H2]].
  destruct (Z.testbit mask 3) eqn:H3; [|exists 4; split; [lia | exact H3]].
  destruct (Z.testbit mask 4) eqn:H4; [|exists 5; split; [lia | exact H4]].
  destruct (Z.testbit mask 5) eqn:H5; [|exists 6; split; [lia | exact H5]].
  destruct (Z.testbit mask 6) eqn:H6; [|exists 7; split; [lia | exact H6]].
  destruct (Z.testbit mask 7) eqn:H7; [|exists 8; split; [lia | exact H7]].
  exfalso. apply Hne. unfold UINT8_MAX. apply Z.bits_inj'. intros n Hn.
  destruct (Z.lt_ge_cases n 8) as [Hlt | Hge].
  - assert (n = 0 \/ n = 1 \/ n = 2 \/ n = 3 \/ n = 4 \/ n = 5 \/ n = 6 \/ n = 7)
      as [-> | [-> | [-> | [-> | [-> | [-> | [-> | ->]]]]]]] by lia;
      (etransitivity; [eassumption | reflexivity]).
  - rewrite (testbit_above mask 8 n) by (change (2 ^ 8) with 256; lia).
    symmetry. apply (testbit_above 255 8 n); [change (2 ^ 8) with 256; lia | exact Hge].
Qed.

Lemma skip_disallowed_run (fuel : nat) (mask n : Z) :
  1 <= n ->
  (exists j, n <= j <= 8 /\ Z.testbit mask (j - 1) = false) ->
  9 - n <= Z.of_nat fuel ->
  exists r,
    skip_disallowed fuel mask n = Some r /\ n <= r <= 8 /\
    HasBit mask (r - 1) = false /\
    forall m, n <= m < r -> HasBit mask (m - 1) = true.
Proof.
  revert n. induction fuel as [| fuel IH]; intros n Hn (j & Hj & Hbit) Hfuel.
  - simpl in Hfuel. lia.
  - cbn [skip_disallowed].
    destruct (HasBit mask (n - 1)) eqn:Hhas.
    + assert (j <> n) as Hjn.
      { intros ->. rewrite HasBit_testbit in Hhas by lia. congruence. }
      assert (uint8 (n + 1) = n + 1) as ->.
      { unfold uint8. apply Z.mod_small. change (2 ^ 8) with 256. lia. }
      destruct (IH (n + 1)) as (r & Hr & Hrange & Hfree & Hbelow).
      * lia.
      * exists j. split; [lia | exact Hbit].
      * lia.
      * exists r. split; [exact Hr|]. split; [lia|]. split; [exact Hfree|].
        intros m Hm. destruct (Z.eq_dec m n) as [-> | Hmn]; [exact Hhas|].
        apply Hbelow. lia.
    + exists n. split; [reflexivity|]. split; [lia|]. split; [exact Hhas|].
      intros m Hm. lia.
Qed.

Lemma CheckSelectedSize_half_run (fuel : nat) (mask : Z) (get : Settings -> Z)
    (set : Z -> Settings -> Settings) (first : Z) (this : Window) (s : State) :
  (forall n x, get (set n x) = n) ->
  0 <= mask < 256 ->
  (8 <= fuel)%nat ->
  exists this' s',
    CheckSelectedSize_half fuel mask get set first this s = Ok this' s' /\
    size_settled mask (get (settings s)) (get (settings s')) /\
    (size_allowed mask (get (settings s)) = true -> this' = this /\ s' = s) /\
    world s' = world s /\ statics s' = statics s /\ toolbar s' = toolbar s /\
    trace s' = trace s /\
    (forall (A : Type) (f : Settings -> A),
       (forall n x, f (set n x) = f x) -> f (settings s') = f (settings s)).
Proof.
  intros Hgs Hmask Hfuel.
  unfold CheckSelectedSize_half. rewrite bind_gets.
  unfold size_settled, size_allowed.
  destruct (HasBit mask (get (settings s) - 1)) eqn:Hold; cbn [negb].
  2:{ exists this, s. unfold ret. split; [reflexivity|].
      split; [repeat split; auto; discriminate|]. repeat split; auto. }
  rewrite bind_modify.
  destruct (Z.eqb_spec mask UINT8_MAX) as [Hfull | Hnot]; cbn [negb].
  - eexists _, _. unfold ret. split; [reflexivity|]. red_state. rewrite Hgs.
    split; [repeat split; try discriminate; auto; contradiction|].
    split; [discriminate|]. repeat split. intros A f Hf. apply Hf.
  - destruct (byte_not_full mask Hmask Hnot) as (j & Hj & Hbit).
    destruct (skip_disallowed_run fuel mask 1) as (r & Hr & Hrange & Hfree & Hbelow).
    + lia.
    + exists j. split; [lia | exact Hbit].
    + lia.
    + rewrite Hr, bind_modify. unfold ret.
      eexists _, _. split; [reflexivity|]. red_state. rewrite Hgs.
      split.
      { split; [discriminate|]. split; [intros _ Hf; contradiction|].
        intros _ _. split; [lia|]. split; [rewrite Hfree; reflexivity|].
        intros m Hm. rewrite (Hbelow m) by lia. reflexivity. }
      split; [discriminate|]. repeat split.
      intros A f Hf. rewrite !Hf. reflexivity.
Qed.

(** X14.  [CheckSelectedSize] on byte-wide masks, with drag and drop off:
    each of the two sizes is kept when the station specification allows it,
    ends at 1 when the specification allows none, and otherwise ends at the
    smallest allowed size, which lies in 1..8; with both sizes allowed the
    window and the state are left as they are.  The loops of the function end
    within eight steps. *)
Theorem CheckSelectedSize_smallest_allowed (fuel : nat) (this : Window) (spec : StationSpec)
    (s : State) :
  0 <= disallowed_platforms spec < 256 ->
  0 <= disallowed_lengths spec < 256 ->
  gui_station_dragdrop (settings s) = false ->
  (8 <= fuel)%nat ->
  exists this' s',
    CheckSelectedSize fuel this (Some spec) s = Ok this' s' /\
    size_settled (disallowed_platforms spec)
      (gui_station_numtracks (settings s)) (gui_station_numtracks (settings s')) /\
    size_settled (disallowed_lengths spec)
      (gui_station_platlength (settings s)) (gui_station_platlength (settings s')) /\
    (size_allowed (disallowed_platforms spec) (gui_station_numtracks (settings s)) = true ->
     size_allowed (disallowed_lengths spec) (gui_station_platlength (settings s)) = true ->
     this' = this /\ s' = s) /\
    gui_station_dragdrop (settings s') = false /\
    world s' = world s /\ statics s' = statics s /\ trace s' = trace s.
Proof.
  intros Hp Hl Hdd Hfuel.
  unfold CheckSelectedSize. rewrite bind_gets, Hdd.
  destruct (CheckSelectedSize_half_run fuel (disallowed_platforms spec)
              gui_station_numtracks set_station_numtracks WID_BRAS_PLATFORM_NUM_BEGIN
              this s (fun _ _ => eq_refl) Hp Hfuel)
    as (this1 & s1 & Hr1 & Hset1 & Hsame1 & Hw1 & Hst1 & Htb1 & Htr1 & Hfr1).
  rewrite (bind_Ok _ _ _ _ _ Hr1).
  destruct (CheckSelectedSize_half_run fuel (disallowed_lengths spec)
              gui_station_platlength set_station_platlength WID_BRAS_PLATFORM_LEN_BEGIN
              this1 s1 (fun _ _ => eq_refl) Hl Hfuel)
    as (this2 & s2 & Hr2 & Hset2 & Hsame2 & Hw2 & Hst2 & Htb2 & Htr2 & Hfr2).
  exists this2, s2. split; [exact Hr2|].
  pose proof (Hfr1 _ gui_station_platlength (fun _ _ => eq_refl)) as Hlen1.
  pose proof (Hfr2 _ gui_station_numtracks (fun _ _ => eq_refl)) as Hnum2.
  pose proof (Hfr1 _ gui_station_dragdrop (fun _ _ => eq_refl)) as Hdd1.
  pose proof (Hfr2 _ gui_station_dragdrop (fun _ _ => eq_refl)) as Hdd2.
  rewrite Hnum2. rewrite Hlen1 in Hset2, Hsame2.
  split; [exact Hset1|]. split; [exact Hset2|].
  split.
  { intros Ha1 Ha2. destruct (Hsame1 Ha1) as [-> ->]. exact (Hsame2 Ha2). }
  split; [congruence|]. repeat split; congruence.
Qed.


Lemma first_allowed_run (mask : Z) :
  match first_allowed mask with
  | Some i =>
      0 <= i <= 6 /\ HasBit mask i = false /\
      forall j, 0 <= j < i -> HasBit mask j = true
  | None => forall j, 0 <= j <= 6 -> HasBit mask j = true
  end.
Proof.
  unfold first_allowed. cbn [List.find].
  destruct (HasBit mask 0) eqn:H0; cbn [negb];
    [|split; [lia|]; split; [exact H0|]; intros j Hj; lia].
  destruct (HasBit mask 1) eqn:H1; cbn [negb];
    [|split; [lia|]; split; [exact H1|]; intros j Hj;
      assert (j = 0) as -> by lia; assumption].
  destruct (HasBit mask 2) eqn:H2; cbn [negb];
    [|split; [lia|]; split; [exact H2|]; intros j Hj;
      assert (j = 0 \/ j = 1) as [-> | ->] by lia; assumption].
  destruct (HasBit mask 3) eqn:H3; cbn [negb];
    [|split; [lia|]; split; [exact H3|]; intros j Hj;
      assert (j = 0 \/ j = 1 \/ j = 2) as [-> | [-> | ->]] by lia; assumption].
  destruct (HasBit mask 4) eqn:H4; cbn [negb];
    [|split; [lia|]; split; [exact H4|]; intros j Hj;
      assert (j = 0 \/ j = 1 \/ j = 2 \/ j = 3) as [-> | [-> | [-> | ->]]] by lia;
      assumption].
  destruct (HasBit mask 5) eqn:H5; cbn [negb];
    [|split; [lia|]; split; [exact H5|]; intros j Hj;
      assert (j = 0 \/ j = 1 \/ j = 2 \/ j = 3 \/ j = 4)
        as [-> | [-> | [-> | [-> | ->]]]] by lia; assumption].
  destruct (HasBit mask 6) eqn:H6; cbn [negb];
    [|split; [lia|]; split; [exact H6|]; intros j Hj;
      assert (j = 0 \/ j = 1 \/ j = 2 \/ j = 3 \/ j = 4 \/ j = 5)
        as [-> | [-> | [-> | [-> | [-> | ->]]]]] by lia; assumption].
  intros j Hj.
  assert (j = 0 \/ j = 1 \/ j = 2 \/ j = 3 \/ j = 4 \/ j = 5 \/ j = 6)
    as [-> | [-> | [-> | [-> | [-> | [-> | ->]]]]]] by lia; assumption.
Qed.

(** The loop of the size clicks over 1..7: what it leaves of the size and
    whether it raised the button of the old one. *)
Lemma reselect_size_run (statspec : option StationSpec) (mask : StationSpec -> Z)
    (get : Settings -> Z) (set : Z -> Settings -> Settings) (first : Z)
    (this : Window) (s : State) :
  (forall n x, get (set n x) = n) ->
  exists (raised : bool) s',
    reselect_size statspec mask get set first this s =
      Ok (if raised then RaiseWidget this (get (settings s) + first) else this) s' /\
    (raised = false -> s' = s) /\
    (raised = true -> 1 <= get (settings s') <= 7) /\
    size_reselected (match statspec with Some spec => Some (mask spec) | None => None end)
      (get (settings s)) (get (settings s')) /\
    world s' = world s /\ statics s' = statics s /\ toolbar s' = toolbar s /\
    trace s' = trace s /\
    (forall (A : Type) (f : Settings -> A),
       (forall n x, f (set n x) = f x) -> f (settings s') = f (settings s)).
Proof.
  intros Hgs. unfold reselect_size. rewrite !bind_gets.
  unfold size_reselected, size_allowed.
  destruct statspec as [spec |].
  2:{ exists false, s. unfold ret. split; [reflexivity|]. split; [auto|].
      split; [discriminate|]. repeat split; auto. }
  destruct (HasBit (mask spec) (get (settings s) - 1)) eqn:Hold; cbn [negb].
  2:{ exists false, s. unfold ret. split; [reflexivity|]. split; [auto|].
      split; [discriminate|]. repeat split; auto; discriminate. }
  pose proof (first_allowed_run (mask spec)) as Hfirst.
  destruct (first_allowed (mask spec)) as [i |].
  - destruct Hfirst as (Hi & Hfree & Hbelow).
    rewrite bind_modify. unfold ret.
    assert (uint8 (i + 1) = i + 1) as ->.
    { unfold uint8. apply Z.mod_small. change (2 ^ 8) with 256. lia. }
    eexists true, _. split; [reflexivity|]. red_state. rewrite Hgs.
    split; [discriminate|]. split; [intros _; lia|].
    split.
    { split; [discriminate|]. split.
      - intros _ Hnone. specialize (Hnone (i + 1) ltac:(lia)).
        replace (i + 1 - 1) with i in Hnone by lia. rewrite Hfree in Hnone. discriminate.
      - intros _ _. split; [lia|].
        replace (i + 1 - 1) with i by lia. rewrite Hfree.
        split; [reflexivity|]. intros m Hm. rewrite (Hbelow (m - 1)) by lia. reflexivity. }
    repeat split. intros A f Hf. apply Hf.
  - exists false, s. unfold ret. split; [reflexivity|]. split; [auto|].
    split; [discriminate|].
    split.
    { split; [discriminate|]. split; [auto|].
      intros _ (m & Hm & Hfree). rewrite (Hfirst (m - 1)) in Hfree by lia. discriminate. }
    repeat split; auto.
Qed.


Lemma size_widgets_kinds (k : Z) :
  1 <= k <= 7 ->
  is_num_widget (k + WID_BRAS_PLATFORM_NUM_BEGIN) = true /\
  is_num_widget (k + WID_BRAS_PLATFORM_LEN_BEGIN) = false /\
  is_len_widget (k + WID_BRAS_PLATFORM_LEN_BEGIN) = true /\
  is_num_widget WID_BRAS_PLATFORM_DRAG_N_DROP = false /\
  is_len_widget WID_BRAS_PLATFORM_DRAG_N_DROP = false.
Proof.
  intros Hk.
  destruct station_num_widgets as (N0 & N1 & N2 & N3 & N4 & N5 & N6 & N7).
  destruct station_len_widgets as (L0 & L1 & L2 & L3 & L4 & L5 & L6 & L7).
  destruct station_drag_widget as (D0 & D1).
  unfold is_num_widget, is_len_widget.
  rewrite N1, N2, N3, N4, N5, N6, N7, L1, L2, L3, L4, L5, L6, L7.
  cbn [existsb].
  repeat split.
  all: repeat match goal with
         | |- context [Z.eqb ?a ?b] => destruct (Z.eqb_spec a b); cbn [orb]
         end; try reflexivity; try lia.
Qed.

Ltac size_buttons :=
  repeat (rewrite IsWidgetLowered_Lower || rewrite IsWidgetLowered_Raise
          || rewrite IsWidgetLowered_SetLowered || rewrite IsWidgetLowered_Toggle);
  repeat match goal with
    | H : forall k, 1 <= k <= 7 -> IsWidgetLowered _ (k + _) = _ |- _ =>
        rewrite H by lia
    | H : IsWidgetLowered ?w ?g = _ |- context [IsWidgetLowered ?w ?g] =>
        rewrite H
    end;
  repeat match goal with
    | |- context [Z.eqb ?a ?b] => destruct (Z.eqb_spec a b)
    end;
  cbn [negb andb orb]; try lia; try reflexivity;
  try match goal with
    | |- context [gui_station_dragdrop ?x] => destruct (gui_station_dragdrop x)
    end;
  cbn [negb andb orb]; try lia; try reflexivity; try congruence.


Lemma size_click_done_run (this : Window) (s : State) :
  exists s',
    size_click_done this s = Ok this s' /\
    settings s' = settings s /\ statics s' = statics s /\ world s' = world s /\
    toolbar s' = toolbar s /\
    exists beep, trace s' = trace s ++ beep ++ [EvSetDirty; EvCloseWindowById WC_SELECT_STATION 0].
Proof.
  unfold size_click_done. rewrite bind_gets.
  destruct (sound_click_beep (settings s)); unfold when.
  - rewrite !bind_emit. unfold ret. eexists. split; [reflexivity|].
    repeat split. exists [EvSndPlayFx SND_15_BEEP]. cbn [trace log].
    rewrite <- !app_assoc. reflexivity.
  - unfold ret at 1. unfold bind at 1. rewrite !bind_emit. unfold ret.
    eexists. split; [reflexivity|].
    repeat split. exists []. cbn [trace log]. rewrite <- !app_assoc. reflexivity.
Qed.

Lemma station_num_click (this : Window) (k : Z) (s : State) :
  station_size_buttons this s ->
  1 <= k <= 7 ->
  exists this' s',
    BuildRailStationWindow_OnClick_size this (k + WID_BRAS_PLATFORM_NUM_BEGIN) s = Ok this' s' /\
    gui_station_numtracks (settings s') = k /\
    gui_station_dragdrop (settings s') = false /\
    size_reselected
      (match current_statspec s with
       | Some spec => Some (disallowed_lengths spec) | None => None end)
      (gui_station_platlength (settings s)) (gui_station_platlength (settings s')) /\
    station_size_buttons this' s' /\
    statics s' = statics s /\ world s' = world s.
Proof.
  intros (Hn & Hl & Hdrag & Hnum & Hlen) Hk.
  destruct station_num_widgets as (N0 & _).
  destruct station_len_widgets as (L0 & _).
  destruct station_drag_widget as (D0 & D1).
  destruct (size_widgets_kinds k Hk) as (Hisnum & _).
  unfold BuildRailStationWindow_OnClick_size.
  rewrite GB_low16 by lia. rewrite Hisnum.
  rewrite bind_gets, bind_modify, bind_gets.
  replace (k + WID_BRAS_PLATFORM_NUM_BEGIN - WID_BRAS_PLATFORM_NUM_BEGIN) with k by lia.
  assert (uint8 k = k) as ->.
  { unfold uint8. apply Z.mod_small. change (2 ^ 8) with 256. lia. }
  set (s1 := set_settings _ s).
  set (this1 := RaiseWidget (RaiseWidget this _) _).
  destruct (reselect_size_run (current_statspec s1) disallowed_lengths gui_station_platlength
              set_station_platlength WID_BRAS_PLATFORM_LEN_BEGIN this1 s1 (fun _ _ => eq_refl))
    as (raised & s2 & Hr & Hsame & Hrange & Hres & Hw & Hst & Htb & Htr & Hfr).
  rewrite (bind_Ok _ _ _ _ _ Hr), bind_gets.
  pose proof (Hfr _ gui_station_numtracks (fun _ _ => eq_refl)) as Hnum2.
  pose proof (Hfr _ gui_station_dragdrop (fun _ _ => eq_refl)) as Hdd2.
  cbn in Hnum2, Hdd2. rewrite Hnum2.
  set (l' := gui_station_platlength (settings s2)) in *.
  match goal with |- context [size_click_done ?w] => set (this' := w) end.
  destruct (size_click_done_run this' s2) as (s3 & Hr3 & Hse3 & Hst3 & Hw3 & _).
  exists this', s3. split; [exact Hr3|].
  rewrite Hse3, Hst3, Hw3, Hnum2, Hdd2, Hst, Hw. fold l'.
  split; [reflexivity|]. split; [reflexivity|].
  assert (1 <= l' <= 7) as Hl'.
  { destruct raised; [apply Hrange; reflexivity|].
    subst l'. rewrite (Hsame eq_refl). exact Hl. }
  split.
  { exact Hres. }
  split; [|split; reflexivity].
  unfold station_size_buttons. rewrite Hse3, Hnum2, Hdd2. fold l'.
  split; [lia|]. split; [lia|].
  change (gui_station_platlength (settings s1)) with (gui_station_platlength (settings s)) in *.
  assert (raised = false -> l' = gui_station_platlength (settings s)) as Hkeep.
  { intros Hf. subst l'. rewrite (Hsame Hf). reflexivity. }
  clearbody l'. subst this' this1. clear Hr Hr3 Hres Hsame Hrange Hfr.
  split; [|split].
  - destruct raised; size_buttons.
  - intros j Hj. destruct raised; [|specialize (Hkeep eq_refl)]; size_buttons.
  - intros j Hj. destruct raised; [|specialize (Hkeep eq_refl)]; size_buttons.
Qed.


Lemma station_len_click (this : Window) (k : Z) (s : State) :
  station_size_buttons this s ->
  1 <= k <= 7 ->
  exists this' s',
    BuildRailStationWindow_OnClick_size this (k + WID_BRAS_PLATFORM_LEN_BEGIN) s = Ok this' s' /\
    gui_station_platlength (settings s') = k /\
    gui_station_dragdrop (settings s') = false /\
    size_reselected
      (match current_statspec s with
       | Some spec => Some (disallowed_platforms spec) | None => None end)
      (gui_station_numtracks (settings s)) (gui_station_numtracks (settings s')) /\
    station_size_buttons this' s' /\
    statics s' = statics s /\ world s' = world s.
Proof.
  intros (Hn & Hl & Hdrag & Hnum & Hlen) Hk.
  destruct station_num_widgets as (N0 & _).
  destruct station_len_widgets as (L0 & _).
  destruct station_drag_widget as (D0 & D1).
  destruct (size_widgets_kinds k Hk) as (_ & Hnotnum & Hislen & _).
  unfold BuildRailStationWindow_OnClick_size.
  rewrite GB_low16 by lia. rewrite Hnotnum, Hislen.
  rewrite bind_gets, bind_modify, bind_gets.
  replace (k + WID_BRAS_PLATFORM_LEN_BEGIN - WID_BRAS_PLATFORM_LEN_BEGIN) with k by lia.
  assert (uint8 k = k) as ->.
  { unfold uint8. apply Z.mod_small. change (2 ^ 8) with 256. lia. }
  set (s1 := set_settings _ s).
  set (this1 := RaiseWidget (RaiseWidget this _) _).
  destruct (reselect_size_run (current_statspec s1) disallowed_platforms gui_station_numtracks
              set_station_numtracks WID_BRAS_PLATFORM_NUM_BEGIN this1 s1 (fun _ _ => eq_refl))
    as (raised & s2 & Hr & Hsame & Hrange & Hres & Hw & Hst & Htb & Htr & Hfr).
  rewrite (bind_Ok _ _ _ _ _ Hr), bind_gets.
  pose proof (Hfr _ gui_station_platlength (fun _ _ => eq_refl)) as Hlen2.
  pose proof (Hfr _ gui_station_dragdrop (fun _ _ => eq_refl)) as Hdd2.
  cbn in Hlen2, Hdd2. rewrite Hlen2.
  set (n' := gui_station_numtracks (settings s2)) in *.
  match goal with |- context [size_click_done ?w] => set (this' := w) end.
  destruct (size_click_done_run this' s2) as (s3 & Hr3 & Hse3 & Hst3 & Hw3 & _).
  exists this', s3. split; [exact Hr3|].
  rewrite Hse3, Hst3, Hw3, Hlen2, Hdd2, Hst, Hw. fold n'.
  split; [reflexivity|]. split; [reflexivity|].
  assert (1 <= n' <= 7) as Hn'.
  { destruct raised; [apply Hrange; reflexivity|].
    subst n'. rewrite (Hsame eq_refl). exact Hn. }
  split.
  { exact Hres. }
  split; [|split; reflexivity].
  unfold station_size_buttons. rewrite Hse3, Hlen2, Hdd2. fold n'.
  split; [lia|]. split; [lia|].
  change (gui_station_numtracks (settings s1)) with (gui_station_numtracks (settings s)) in *.
  assert (raised = false -> n' = gui_station_numtracks (settings s)) as Hkeep.
  { intros Hf. subst n'. rewrite (Hsame Hf). reflexivity. }
  clearbody n'. subst this' this1. clear Hr Hr3 Hres Hsame Hrange Hfr.
  split; [|split].
  - destruct raised; size_buttons.
  - intros j Hj. destruct raised; [|specialize (Hkeep eq_refl)]; size_buttons.
  - intros j Hj. destruct raised; [|specialize (Hkeep eq_refl)]; size_buttons.
Qed.

Lemma station_drag_click (this : Window) (s : State) :
  station_size_buttons this s ->
  exists this' s',
    BuildRailStationWindow_OnClick_size this WID_BRAS_PLATFORM_DRAG_N_DROP s = Ok this' s' /\
    gui_station_dragdrop (settings s') = negb (gui_station_dragdrop (settings s)) /\
    size_reselected
      (match current_statspec s with
       | Some spec => Some (disallowed_platforms spec) | None => None end)
      (gui_station_numtracks (settings s)) (gui_station_numtracks (settings s')) /\
    size_reselected
      (match current_statspec s with
       | Some spec => Some (disallowed_lengths spec) | None => None end)
      (gui_station_platlength (settings s)) (gui_station_platlength (settings s')) /\
    station_size_buttons this' s' /\
    statics s' = statics s /\ world s' = world s.
Proof.
  intros (Hn & Hl & Hdrag & Hnum & Hlen).
  destruct station_num_widgets as (N0 & _).
  destruct station_len_widgets as (L0 & _).
  destruct station_drag_widget as (D0 & D1).
  destruct (size_widgets_kinds 1 ltac:(lia)) as (_ & _ & _ & Hnotnum & Hnotlen).
  unfold BuildRailStationWindow_OnClick_size.
  rewrite GB_low16 by lia. rewrite Hnotnum, Hnotlen, Z.eqb_refl.
  rewrite bind_modify, bind_gets.
  set (s1 := set_settings _ s).
  set (this1 := ToggleWidgetLoweredState this _).
  destruct (reselect_size_run (current_statspec s1) disallowed_lengths gui_station_platlength
              set_station_platlength WID_BRAS_PLATFORM_LEN_BEGIN this1 s1 (fun _ _ => eq_refl))
    as (raisedl & s2 & Hr & Hsame & Hrange & Hres & Hw & Hst & Htb & Htr & Hfr).
  rewrite (bind_Ok _ _ _ _ _ Hr).
  match type of Hr with _ = Ok ?w _ => set (this2 := w) in * end.
  destruct (reselect_size_run (current_statspec s1) disallowed_platforms gui_station_numtracks
              set_station_numtracks WID_BRAS_PLATFORM_NUM_BEGIN this2 s2 (fun _ _ => eq_refl))
    as (raisedn & s3 & Hr' & Hsame' & Hrange' & Hres' & Hw' & Hst' & Htb' & Htr' & Hfr').
  rewrite (bind_Ok _ _ _ _ _ Hr'), bind_gets.
  pose proof (Hfr _ gui_station_numtracks (fun _ _ => eq_refl)) as Hnum2.
  pose proof (Hfr _ gui_station_dragdrop (fun _ _ => eq_refl)) as Hdd2.
  pose proof (Hfr' _ gui_station_platlength (fun _ _ => eq_refl)) as Hlen3.
  pose proof (Hfr' _ gui_station_dragdrop (fun _ _ => eq_refl)) as Hdd3.
  cbn in Hnum2, Hdd2. rewrite Hdd3, Hdd2, Hlen3.
  set (l' := gui_station_platlength (settings s2)) in *.
  set (n' := gui_station_numtracks (settings s3)) in *.
  match goal with |- context [size_click_done ?w] => set (this' := w) end.
  destruct (size_click_done_run this' s3) as (s4 & Hr4 & Hse4 & Hst4 & Hw4 & _).
  exists this', s4. split; [exact Hr4|].
  rewrite Hse4, Hst4, Hw4, Hdd3, Hdd2, Hlen3, Hst', Hw', Hst, Hw. fold l' n'.
  split; [destruct (gui_station_dragdrop (settings s)); reflexivity|].
  assert (1 <= l' <= 7) as Hl'.
  { destruct raisedl; [apply Hrange; reflexivity|].
    subst l'. rewrite (Hsame eq_refl). exact Hl. }
  assert (1 <= n' <= 7) as Hn'.
  { destruct raisedn; [apply Hrange'; reflexivity|].
    subst n'. rewrite (Hsame' eq_refl), Hnum2. exact Hn. }
  split.
  { rewrite Hnum2 in Hres'. exact Hres'. }
  split.
  { exact Hres. }
  split; [|split; reflexivity].
  unfold station_size_buttons. rewrite Hse4, Hdd3, Hdd2, Hlen3. fold l' n'.
  split; [lia|]. split; [lia|].
  change (gui_station_platlength (settings s1)) with (gui_station_platlength (settings s)) in *.
  rewrite Hnum2 in *.
  assert (raisedl = false -> l' = gui_station_platlength (settings s)) as Hkeepl.
  { intros Hf. subst l'. rewrite (Hsame Hf). reflexivity. }
  assert (raisedn = false -> n' = gui_station_numtracks (settings s)) as Hkeepn.
  { intros Hf. subst n'. rewrite (Hsame' Hf). exact Hnum2. }
  clearbody l' n'. subst this' this2 this1. rewrite ?Hnum2.
  clear Hr Hr' Hr4 Hres Hres' Hsame Hsame' Hrange Hrange' Hfr Hfr'.
  assert (xorb (gui_station_dragdrop (settings s)) true
          = negb (gui_station_dragdrop (settings s))) as -> by (destruct (gui_station_dragdrop _); reflexivity).
  split; [|split].
  - destruct raisedl, raisedn; size_buttons.
  - intros j Hj.
    destruct raisedl; [|specialize (Hkeepl eq_refl)];
      (destruct raisedn; [|specialize (Hkeepn eq_refl)]); size_buttons.
  - intros j Hj.
    destruct raisedl; [|specialize (Hkeepl eq_refl)];
      (destruct raisedn; [|specialize (Hkeepn eq_refl)]); size_buttons.
Qed.

(** X15.  The size buttons of the station picker keep showing the settings.
    When they do, a click on a track-number or platform-length button selects
    that size and turns drag and drop off, a click on the drag-and-drop
    button turns it over, and the buttons show the settings again afterwards.
    A size the station specification does not allow is left alone by a click
    on its own row, and otherwise replaced by the smallest allowed of 1..7,
    when there is one. *)
Theorem station_size_click_keeps_buttons (this : Window) (s : State) :
  station_size_buttons this s ->
  (forall k, 1 <= k <= 7 ->
     exists this' s',
       BuildRailStationWindow_OnClick_size this (k + WID_BRAS_PLATFORM_NUM_BEGIN) s
         = Ok this' s' /\
       gui_station_numtracks (settings s') = k /\
       gui_station_dragdrop (settings s') = false /\
       size_reselected
         (match current_statspec s with
          | Some spec => Some (disallowed_lengths spec) | None => None end)
         (gui_station_platlength (settings s)) (gui_station_platlength (settings s')) /\
       station_size_buttons this' s' /\
       statics s' = statics s /\ world s' = world s) /\
  (forall k, 1 <= k <= 7 ->
     exists this' s',
       BuildRailStationWindow_OnClick_size this (k + WID_BRAS_PLATFORM_LEN_BEGIN) s
         = Ok this' s' /\
       gui_station_platlength (settings s') = k /\
       gui_station_dragdrop (settings s') = false /\
       size_reselected
         (match current_statspec s with
          | Some spec => Some (disallowed_platforms spec) | None => None end)
         (gui_station_numtracks (settings s)) (gui_station_numtracks (settings s')) /\
       station_size_buttons this' s' /\
       statics s' = statics s /\ world s' = world s) /\
  (exists this' s',
     BuildRailStationWindow_OnClick_size this WID_BRAS_PLATFORM_DRAG_N_DROP s = Ok this' s' /\
     gui_station_dragdrop (settings s') = negb (gui_station_dragdrop (settings s)) /\
     size_reselected
       (match current_statspec s with
        | Some spec => Some (disallowed_platforms spec) | None => None end)
       (gui_station_numtracks (settings s)) (gui_station_numtracks (settings s')) /\
     size_reselected
       (match current_statspec s with
        | Some spec => Some (disallowed_lengths spec) | None => None end)
       (gui_station_platlength (settings s)) (gui_station_platlength (settings s')) /\
     station_size_buttons this' s' /\
     statics s' = statics s /\ world s' = world s).
Proof.
  intros Hinv. split; [|split].
  - intros k Hk. exact (station_num_click this k s Hinv Hk).
  - intros k Hk. exact (station_len_click this k s Hinv Hk).
  - exact (station_drag_click this s Hinv).
Qed.


(** ** Rails around a tile *)

Lemma FindRailsToConnect_step_run (w : W) (t : TileIndex) (directed passing d : Z) :
  FindRailsToConnect_step w t (directed, passing) d =
    (if heads_here w t d then Z.lor directed (DiagDirToRoadBits d) else directed,
     if passes_by w t d then Z.lor passing (DiagDirToRoadBits d) else passing).
Proof.
  unfold FindRailsToConnect_step, heads_here, passes_by. cbv zeta.
  destruct (HasStationTileRail w (TileAddByDiagDir t d)); cbn [negb andb].
  - destruct (Z.land (GetRailStationTrackBits w (TileAddByDiagDir t d))
                (DiagdirReachesTracks d) =? 0); reflexivity.
  - destruct (IsTileType w (TileAddByDiagDir t d) MP_RAILWAY); cbn [negb andb];
      [|reflexivity].
    destruct (IsPlainRail w (TileAddByDiagDir t d)); cbn [negb andb]; [|reflexivity].
    destruct (Z.land (GetTrackBits w (TileAddByDiagDir t d)) (DiagdirReachesTracks d) =? 0);
      reflexivity.
Qed.

Lemma FindRailsToConnect_fold (w : W) (t : TileIndex) (dirs : list Z) (directed passing : Z) :
  fold_left (FindRailsToConnect_step w t) dirs (directed, passing) =
    (Z.lor directed (road_bits_of (List.filter (heads_here w t) dirs)),
     Z.lor passing (road_bits_of (List.filter (passes_by w t) dirs))).
Proof.
  revert directed passing. induction dirs as [| d rest IH]; intros directed passing.
  - cbn. rewrite ROAD_NONE_value, !Z.lor_0_r. reflexivity.
  - cbn [fold_left List.filter]. rewrite FindRailsToConnect_step_run, IH.
    destruct (heads_here w t d), (passes_by w t d);
      cbn [road_bits_of fold_right]; rewrite ?Z.lor_assoc; reflexivity.
Qed.

Lemma road_bits_of_none (dirs : list Z) :
  (forall d, In d dirs -> DIAGDIR_BEGIN <= d < DIAGDIR_END) ->
  road_bits_of dirs = ROAD_NONE <-> dirs = [].
Proof.
  intros Hrange. split; [|intros ->; reflexivity].
  destruct dirs as [| d rest]; [reflexivity|].
  cbn [road_bits_of fold_right]. rewrite ROAD_NONE_value. intros Hz.
  apply Z.lor_eq_0_iff in Hz. destruct Hz as [Hz _].
  exfalso. apply (DiagDirToRoadBits_nonzero d); [apply Hrange; left; reflexivity|].
  rewrite ROAD_NONE_value. exact Hz.
Qed.

(** X16.  [FindRailsToConnect] puts the rails that head for the tile first:
    when some neighbour carries rail reaching the edge towards the tile, the
    answer is the road bits of exactly those directions; only when there is
    none is it the road bits of all neighbours with plain rail, rail stations
    left out; and with no rail around it is ROAD_NONE. *)
Theorem FindRailsToConnect_priority (w : W) (t : TileIndex) :
  let dirs := [DIAGDIR_NE; DIAGDIR_SE; DIAGDIR_SW; DIAGDIR_NW] in
  FindRailsToConnect w t =
    (if existsb (heads_here w t) dirs
     then road_bits_of (List.filter (heads_here w t) dirs)
     else road_bits_of (List.filter (passes_by w t) dirs)) /\
  ((forall d, In d dirs -> heads_here w t d = false /\ passes_by w t d = false) ->
   FindRailsToConnect w t = ROAD_NONE) /\
  (existsb (heads_here w t) dirs = true -> FindRailsToConnect w t <> ROAD_NONE).
Proof.
  intros dirs.
  destruct diagdir_values as (Hne & Hse & Hsw & Hnw & Hend).
  assert (seqZ DIAGDIR_BEGIN (DIAGDIR_END - DIAGDIR_BEGIN) = dirs) as Hseq.
  { subst dirs. rewrite DIAGDIR_BEGIN_value, Hend, Hne, Hse, Hsw, Hnw. reflexivity. }
  assert (forall d, In d dirs -> DIAGDIR_BEGIN <= d < DIAGDIR_END) as Hrange.
  { subst dirs. rewrite DIAGDIR_BEGIN_value, Hend, Hne, Hse, Hsw, Hnw.
    intros d [<- | [<- | [<- | [<- | []]]]]; lia. }
  assert (FindRailsToConnect w t =
            (if existsb (heads_here w t) dirs
             then road_bits_of (List.filter (heads_here w t) dirs)
             else road_bits_of (List.filter (passes_by w t) dirs))) as Heq.
  { unfold FindRailsToConnect. rewrite Hseq, FindRailsToConnect_fold.
    rewrite ROAD_NONE_value, !Z.lor_0_l, <- ROAD_NONE_value.
    destruct (existsb (heads_here w t) dirs) eqn:Hex.
    - destruct (Z.eqb_spec (road_bits_of (List.filter (heads_here w t) dirs)) ROAD_NONE)
        as [Hz | _]; [|reflexivity].
      exfalso. apply road_bits_of_none in Hz.
      + apply existsb_exists in Hex. destruct Hex as (d & Hd & Hh).
        assert (In d (List.filter (heads_here w t) dirs)) as Hin
          by (apply filter_In; split; assumption).
        rewrite Hz in Hin. destruct Hin.
      + intros d Hd. apply filter_In in Hd. apply Hrange. tauto.
    - assert (List.filter (heads_here w t) dirs = []) as ->.
      { apply filter_none. intros d Hd.
        destruct (heads_here w t d) eqn:Hh; [|reflexivity].
        assert (existsb (heads_here w t) dirs = true) as Hc
          by (apply existsb_exists; exists d; split; assumption).
        congruence. }
      cbn [road_bits_of fold_right]. rewrite Z.eqb_refl. reflexivity. }
  split; [exact Heq|]. split.
  - intros Hnone. rewrite Heq.
    assert (List.filter (heads_here w t) dirs = []) as ->
      by (apply filter_none; intros d Hd; apply Hnone; exact Hd).
    assert (List.filter (passes_by w t) dirs = []) as ->
      by (apply filter_none; intros d Hd; apply Hnone; exact Hd).
    destruct (existsb _ _); reflexivity.
  - intros Hex. rewrite Heq, Hex. intros Hz. apply road_bits_of_none in Hz.
    + apply existsb_exists in Hex. destruct Hex as (d & Hd & Hh).
      assert (In d (List.filter (heads_here w t) dirs)) as Hin
        by (apply filter_In; split; assumption).
      rewrite Hz in Hin. destruct Hin.
    + intros d Hd. apply filter_In in Hd. apply Hrange. tauto.
Qed.


Lemma IsWidgetDisabled_Raise (w : Window) (i g : Z) :
  IsWidgetDisabled (RaiseWidget w i) g = IsWidgetDisabled w g.
Proof. reflexivity. Qed.

Lemma IsWidgetDisabled_Disable (w : Window) (i g : Z) :
  IsWidgetDisabled (DisableWidget w i) g = (g =? i) || IsWidgetDisabled w g.
Proof.
  unfold IsWidgetDisabled, DisableWidget. cbn [disabled].
  destruct (Z.eqb_spec g i) as [-> | Hn]; cbn [orb].
  - apply bool_decide_eq_true. set_solver.
  - apply bool_decide_ext. set_solver.
Qed.

(** X17.  The remove button needs an active tool.  After
    [UpdateRemoveWidgetStatus] for a click on another widget, the remove
    button is enabled exactly when that widget is one of the nine tool buttons
    and is lowered; for any other widget it is raised as well; no other button
    changes.  While it is disabled, neither a click on it nor Ctrl changes
    the window or the state. *)
Theorem remove_needs_active_tool (this : Window) (clicked_widget : Z) (s : State) :
  clicked_widget <> WID_RAT_REMOVE ->
  let this' := UpdateRemoveWidgetStatus this clicked_widget in
  (IsWidgetDisabled this' WID_RAT_REMOVE = false <->
   In clicked_widget remove_tools /\ IsWidgetLowered this clicked_widget = true) /\
  (~ In clicked_widget remove_tools -> IsWidgetLowered this' WID_RAT_REMOVE = false) /\
  (forall i, i <> WID_RAT_REMOVE ->
     IsWidgetLowered this' i = IsWidgetLowered this i /\
     IsWidgetDisabled this' i = IsWidgetDisabled this i) /\
  (IsWidgetDisabled this' WID_RAT_REMOVE = true ->
   BuildRailClick_Remove this' s = Ok this' s /\
   RailToolbar_CtrlChanged this' s = Ok (false, this') s).
Proof.
  intros Hne this'. subst this'. unfold UpdateRemoveWidgetStatus.
  destruct (Z.eqb_spec clicked_widget WID_RAT_REMOVE) as [Heq | _]; [contradiction|].
  fold remove_tools.
  destruct (existsb (Z.eqb clicked_widget) remove_tools) eqn:Htool.
  - assert (In clicked_widget remove_tools) as Hin.
    { apply existsb_exists in Htool. destruct Htool as (x & Hx & Hxe).
      apply Z.eqb_eq in Hxe. subst x. exact Hx. }
    split; [|split; [|split]].
    + rewrite IsWidgetDisabled_SetDisabled, Z.eqb_refl.
      destruct (IsWidgetLowered this clicked_widget); cbn [negb]; intuition discriminate.
    + intros Hnot. contradiction.
    + intros i Hi. rewrite IsWidgetLowered_SetDisabled, IsWidgetDisabled_SetDisabled.
      destruct (Z.eqb_spec i WID_RAT_REMOVE); [contradiction|]. split; reflexivity.
    + intros Hdis. unfold BuildRailClick_Remove, RailToolbar_CtrlChanged.
      rewrite Hdis. split; reflexivity.
  - assert (~ In clicked_widget remove_tools) as Hnin.
    { intros Hin. assert (existsb (Z.eqb clicked_widget) remove_tools = true) as Hc.
      { apply existsb_exists. exists clicked_widget. split; [exact Hin | apply Z.eqb_refl]. }
      congruence. }
    split; [|split; [|split]].
    + rewrite IsWidgetDisabled_Raise, IsWidgetDisabled_Disable, Z.eqb_refl. cbn [orb].
      split; [discriminate | tauto].
    + intros _. rewrite IsWidgetLowered_Raise, Z.eqb_refl. reflexivity.
    + intros i Hi. rewrite IsWidgetLowered_Raise, IsWidgetDisabled_Raise, IsWidgetDisabled_Disable.
      destruct (Z.eqb_spec i WID_RAT_REMOVE); [contradiction|]. split; reflexivity.
    + intros Hdis. unfold BuildRailClick_Remove, RailToolbar_CtrlChanged.
      rewrite Hdis. split; reflexivity.
Qed.

(** X18.  [ResetSignalVariant] turns the signal variant to the one of the
    current year and keeps the signal type; a second call changes nothing.
    When it changes the variant while the signal window shows the current
    signal, no signal button is left lowered, and the next
    [OnInvalidateData] of the window lowers exactly the button of the new
    variant and the old type. *)
Theorem ResetSignalVariant_follows_year (sigwin : option Window) (s : State) :
  let by_year :=
    if _cur_year (world s) <? gui_semaphore_build_before (settings s)
    then SIG_SEMAPHORE else SIG_ELECTRIC in
  exists sigwin' s',
    ResetSignalVariant sigwin s = Ok sigwin' s' /\
    _cur_signal_variant (statics s') = by_year /\
    _cur_signal_type (statics s') = _cur_signal_type (statics s) /\
    world s' = world s /\ settings s' = settings s /\
    ResetSignalVariant sigwin' s' = Ok sigwin' s' /\
    (_cur_signal_variant (statics s) = by_year -> sigwin' = sigwin /\ s' = s) /\
    (forall this,
       sigwin = Some this ->
       _cur_signal_variant (statics s) <> by_year ->
       signal_selected this s ->
       exists this' this'',
         sigwin' = Some this' /\
         lowered_among this' signal_group = [] /\
         BuildSignalWindow_OnInvalidateData this' s' = Ok this'' s' /\
         (In (signal_button s') signal_group -> signal_selected this'' s')).
Proof.
  intros by_year.
  assert (forall (w' : option Window) (s1 : State),
            world s1 = world s -> settings s1 = settings s ->
            _cur_signal_variant (statics s1) = by_year ->
            ResetSignalVariant w' s1 = Ok w' s1) as Hidem.
  { intros w' s1 Hw Hse Hv. unfold ResetSignalVariant. rewrite !bind_gets, Hw, Hse.
    fold by_year. rewrite Hv, Z.eqb_refl. reflexivity. }
  assert (ResetSignalVariant sigwin s =
          if by_year =? _cur_signal_variant (statics s) then Ok sigwin s
          else Ok (match sigwin with
                   | Some win => Some (RaiseWidget win (signal_button s))
                   | None => None
                   end)
                  (set_statics (set_cur_signal by_year (_cur_signal_type (statics s)) (statics s))
                     (match sigwin with Some _ => log EvSetDirty s | None => s end))) as Hrun.
  { unfold ResetSignalVariant. rewrite !bind_gets. fold by_year.
    destruct (by_year =? _cur_signal_variant (statics s)); cbn [negb]; [reflexivity|].
    destruct sigwin; reflexivity. }
  rewrite Hrun. clear Hrun.
  destruct (Z.eqb_spec by_year (_cur_signal_variant (statics s))) as [Heq | Hne].
  - exists sigwin, s. split; [reflexivity|]. split; [auto|].
    split; [reflexivity|]. split; [reflexivity|]. split; [reflexivity|].
    split; [apply Hidem; auto|].
    split; [auto|]. intros this _ Hc. congruence.
  - eexists _, _. split; [reflexivity|].
    split; [reflexivity|]. split; [reflexivity|].
    split; [destruct sigwin; reflexivity|]. split; [destruct sigwin; reflexivity|].
    split; [apply Hidem; destruct sigwin; reflexivity|].
    split; [intros Hc; congruence|].
    intros this -> _ Hsel.
    unfold signal_selected in Hsel. apply filter_only_inv in Hsel.
    destruct Hsel as [Hin Hold].
    eexists _, _. split; [reflexivity|].
    split.
    { unfold lowered_among. apply filter_none. intros g Hg.
      rewrite IsWidgetLowered_Raise, (Hold g Hg). destruct (g =? signal_button s); reflexivity. }
    split; [reflexivity|].
    intros Hnew. unfold signal_selected.
    match goal with |- lowered_among _ _ = [signal_button ?st] => set (s' := st) in * end.
    fold (signal_button s').
    destruct signal_other_widgets as (Hconv & _).
    apply lowered_among_only; [apply signal_group_NoDup | exact Hnew |].
    intros g Hg. rewrite !IsWidgetLowered_SetDisabled, IsWidgetLowered_SetLowered.
    pose proof Hg as Hg'. apply signal_group_offsets in Hg'. destruct Hg' as (i & Hi & ->).
    destruct (Z.eqb_spec (WID_BS_SEMAPHORE_NORM + i) WID_BS_CONVERT) as [Hc | _]; [lia|].
    rewrite IsWidgetLowered_select, (Hold _ Hg).
    destruct (_ =? signal_button s'), (_ =? signal_button s); reflexivity.
Qed.


End Properties_rest.

(** * The further properties on the sample host *)

Lemma DoRailroadTrackCmd_p2_fields_witness :
  0 <= _cur_railtype (statics sample_state_x) < 2 ^ 6 /\
  let c := DoRailroadTrackCmd sample_state_x 0 257 4 in
  Z.land (p2 c) (Z.ones 6) = 2 /\
  Z.land (Z.shiftr (p2 c) 6) (Z.ones 3) = 4 /\
  Z.testbit (p2 c) 11 = true.
Proof.
  assert (H1 : 0 <= _cur_railtype (statics sample_state_x) < 2 ^ 6) by (simpl; lia).
  assert (H2 : 0 <= 4 < 2 ^ 3) by lia.
  split; [exact H1|].
  destruct (DoRailroadTrackCmd_p2_fields sample_state_x 0 257 4 H1 H2)
    as (_ & _ & Hrt & Htr & Hars & _).
  cbv zeta. split; [exact Hrt|]. split; [exact Htr | exact Hars].
Defined.

Lemma GenericPlaceRailCmd_p2_fields_witness :
  let c := GenericPlaceRailCmd sample_state_x 257 5 in
  tile c = 257 /\ p1 c = 2 /\
  Z.land (p2 c) (Z.ones 3) = 5 /\ Z.testbit (p2 c) 3 = true /\ Z.shiftr (p2 c) 4 = 0.
Proof.
  assert (H : 0 <= 5 < 2 ^ 3) by lia.
  exact (GenericPlaceRailCmd_p2_fields sample_state_x 257 5 H).
Defined.

Lemma CcRailDepot_extra_rails_witness :
  exists s' cmds,
    CcRailDepot {| Succeeded := true; GetErrorMessage := 0 |} 0 0 1 0 sample_state_x = Ok tt s' /\
    trace s' = [EvSndPlayTileFx SND_20_CONSTRUCTION_RAIL 0] ++ map EvDoCommandP cmds /\
    (length cmds <= 3)%nat /\
    (forall x, In x cmds ->
       tile x = 256 /\ p1 x = 2 /\ cmd x = CMD_BUILD_SINGLE_RAIL /\ callback x = cb_nullptr).
Proof.
  assert (Hdir : 0 <= 1 <= 3) by lia.
  destruct (CcRailDepot_extra_rails {| Succeeded := true; GetErrorMessage := 0 |} 0 0 1 0
              sample_state_x eq_refl Hdir) as (s' & cmds & Hrun & Htr & Hlen & Hcmds & _).
  exists s', cmds. split; [exact Hrun|]. split; [exact Htr|]. split; [exact Hlen|].
  intros x Hx. destruct (Hcmds x Hx) as (Ht & Hp & Hc & Hcb & _).
  split; [exact Ht|]. split; [exact Hp|]. split; [exact Hc | exact Hcb].
Defined.

Lemma callbacks_keep_tool_and_silence_witness :
  exists s' added,
    CcStation {| Succeeded := true; GetErrorMessage := 0 |} 5 0 0 0 sample_state_x = Ok tt s' /\
    trace s' = trace sample_state_x ++ added /\
    ~ In EvResetObjectToPlace added.
Proof.
  destruct (callbacks_keep_tool_and_silence cb_CcStation
              {| Succeeded := true; GetErrorMessage := 0 |} 5 0 0 0
              (CcStation {| Succeeded := true; GetErrorMessage := 0 |} 5 0 0 0)
              sample_state_x eq_refl
              (fun H : cb_CcStation = cb_CcRailDepot =>
                 match H in _ = c return match c with cb_CcRailDepot => 0 <= 0 <= 3 | _ => True end
                 with eq_refl => I end))
    as (s' & added & Hrun & Htr & Hkeep & _).
  exists s', added. split; [exact Hrun|]. split; [exact Htr|]. exact (Hkeep eq_refl).
Defined.


Lemma CheckSelectedSize_smallest_allowed_witness :
  exists this' s',
    CheckSelectedSize 8 (sample_window [5; 15])
      (Some {| disallowed_platforms := 127; disallowed_lengths := 16 |}) sample_state_x
      = Ok this' s' /\
    gui_station_numtracks (settings s') = 8 /\
    gui_station_platlength (settings s') = 1.
Proof.
  assert (Hp : 0 <= 127 < 256) by lia.
  assert (Hl : 0 <= 16 < 256) by lia.
  assert (Hfuel : (8 <= 8)%nat) by lia.
  destruct (CheckSelectedSize_smallest_allowed 8 (sample_window [5; 15])
              {| disallowed_platforms := 127; disallowed_lengths := 16 |} sample_state_x
              Hp Hl eq_refl Hfuel)
    as (this' & s' & Hrun & (_ & _ & Hnum) & (_ & _ & Hlen) & _).
  exists this', s'. split; [exact Hrun|].
  assert (H127 : 127 <> UINT8_MAX) by (intros H; discriminate H).
  assert (H16 : 16 <> UINT8_MAX) by (intros H; discriminate H).
  destruct (Hnum eq_refl H127) as (Hn & Hna & _).
  destruct (Hlen eq_refl H16) as (Hm & _ & Hmin).
  split.
  - set (n := gui_station_numtracks (settings s')) in *.
    assert (n = 1 \/ n = 2 \/ n = 3 \/ n = 4 \/ n = 5 \/ n = 6 \/ n = 7 \/ n = 8)
      as [E | [E | [E | [E | [E | [E | [E | E]]]]]]] by lia;
      try exact E; rewrite E in Hna; discriminate Hna.
  - set (m := gui_station_platlength (settings s')) in *.
    destruct (Z.eq_dec m 1) as [E | E]; [exact E|].
    assert (H1 : 1 <= 1 < m) by lia.
    specialize (Hmin 1 H1). discriminate Hmin.
Defined.

Lemma station_size_click_keeps_buttons_witness :
  station_size_buttons (sample_window [5; 15]) sample_state_x /\
  exists this' s',
    BuildRailStationWindow_OnClick_size (sample_window [5; 15]) 7 sample_state_x = Ok this' s' /\
    gui_station_numtracks (settings s') = 4 /\
    gui_station_platlength (settings s') = 1 /\
    station_size_buttons this' s'.
Proof.
  assert (Hinv : station_size_buttons (sample_window [5; 15]) sample_state_x).
  { split; [simpl; lia|]. split; [simpl; lia|]. split; [reflexivity|]. split.
    - intros k Hk.
      assert (k = 1 \/ k = 2 \/ k = 3 \/ k = 4 \/ k = 5 \/ k = 6 \/ k = 7)
        as [-> | [-> | [-> | [-> | [-> | [-> | ->]]]]]] by lia; reflexivity.
    - intros k Hk.
      assert (k = 1 \/ k = 2 \/ k = 3 \/ k = 4 \/ k = 5 \/ k = 6 \/ k = 7)
        as [-> | [-> | [-> | [-> | [-> | [-> | ->]]]]]] by lia; reflexivity. }
  split; [exact Hinv|].
  destruct (station_size_click_keeps_buttons (sample_window [5; 15]) sample_state_x Hinv)
    as (Hnum & _).
  assert (Hk : 1 <= 4 <= 7) by lia.
  destruct (Hnum 4 Hk) as (this' & s' & Hrun & Hn & _ & (_ & _ & Hre) & Hinv' & _).
  exists this', s'. split; [exact Hrun|]. split; [exact Hn|]. split; [|exact Hinv'].
  assert (Hex : exists m, 1 <= m <= 7 /\ size_allowed 16 m = true)
    by (exists 1; split; [lia | reflexivity]).
  destruct (Hre eq_refl Hex) as (Hm & _ & Hmin).
  set (m := gui_station_platlength (settings s')) in *.
  destruct (Z.eq_dec m 1) as [E | E]; [exact E|].
  assert (H1 : 1 <= 1 < m) by lia.
  specialize (Hmin 1 H1). discriminate Hmin.
Defined.

Lemma signal_button_click_round_trip_witness :
  exists this' s',
    BuildSignalWindow_OnClick (sample_window [6]) 4 sample_state_x = Ok this' s' /\
    _cur_signal_variant (statics s') = SIG_SEMAPHORE /\
    _cur_signal_type (statics s') = 4 /\
    signal_selected this' s'.
Proof.
  assert (Hin : In 4 signal_group) by (do 4 right; left; reflexivity).
  destruct (signal_button_click_round_trip (sample_window [6]) 4 sample_state_x Hin)
    as (this' & s' & Hrun & Hvar & Hty & _ & _ & Hsel).
  exists this', s'. split; [exact Hrun|]. split; [exact Hvar|]. split; [exact Hty|].
  apply Hsel. reflexivity.
Defined.

Lemma signal_button_click_ends_removal_witness :
  exists this' s' w',
    BuildSignalWindow_OnClick (sample_window [6]) 4 sample_state = Ok this' s' /\
    toolbar s' = Some w' /\
    _remove_button_clicked (statics s') = false /\
    IsWidgetLowered w' WID_RAT_REMOVE = false.
Proof.
  assert (Hin : In 4 signal_group) by (do 4 right; left; reflexivity).
  destruct (signal_button_click_ends_removal (sample_window [6]) 4 sample_state Hin)
    as (Hopen & _).
  destruct (Hopen (sample_window [17]) eq_refl eq_refl eq_refl)
    as (this' & s' & w' & Hrun & Htb & Hrbc & Hlow & _).
  exists this', s', w'. split; [exact Hrun|]. split; [exact Htb|]. split; [exact Hrbc | exact Hlow].
Defined.

Lemma remove_needs_active_tool_witness :
  IsWidgetDisabled (UpdateRemoveWidgetStatus (sample_window [5]) 8) WID_RAT_REMOVE = true /\
  BuildRailClick_Remove (UpdateRemoveWidgetStatus (sample_window [5]) 8) sample_state
    = Ok (UpdateRemoveWidgetStatus (sample_window [5]) 8) sample_state.
Proof.
  assert (Hne : 8 <> WID_RAT_REMOVE) by (intros H; discriminate H).
  destruct (remove_needs_active_tool (sample_window [5]) 8 sample_state Hne)
    as (_ & _ & _ & Hidle).
  assert (Hdis : IsWidgetDisabled (UpdateRemoveWidgetStatus (sample_window [5]) 8) WID_RAT_REMOVE
                 = true) by reflexivity.
  split; [exact Hdis|]. exact (proj1 (Hidle Hdis)).
Defined.
